(** * build_ut.py: the driver that builds and runs the rialto unit tests

    The script parses its options, optionally cleans, configures and builds
    the test binaries, runs each suite (optionally under valgrind) and
    optionally produces an lcov coverage report.  Everything it does goes
    through external effects: spawning processes, printing, touching the
    file system.  The embedding below keeps the script's functions and
    their control flow.  Every function reads the history of effects so
    far and gives the events it adds, so that a run of [main] from the
    empty history yields the chronological trace of the whole process; the
    answers of the outside world come from an [environment] and may depend
    on everything that happened before. *)

From Stdlib Require Import String Ascii List ZArith Lia Bool.
From Stdlib Require Import DecimalString DecimalZ.
Import ListNotations.
Local Open Scope string_scope.
Local Open Scope list_scope.
Local Open Scope Z_scope.

(** String concatenation, Python's [+] on [str]; [++] is kept for lists. *)
Local Infix "+++" := String.append (right associativity, at level 60).

(** ** Python values used by the script *)

(** [str(n)] on a Python [int]. *)
Definition str (n : Z) : string := NilEmpty.string_of_int (Z.to_int n).

(** [int(s)] on a decimal numeral, the inverse of [str]. *)
Definition int_of_str (s : string) : option Z :=
  option_map Z.of_int (NilEmpty.int_of_string s).

(** [sep.join(l)]. *)
Definition join (sep : string) (l : list string) : string := String.concat sep l.

(** The double-quote character used in the exit message of [runcmd]. *)
Definition dquote : string := String (ascii_of_nat 34) EmptyString.

(** [s.startswith(p)]. *)
Definition startswith (p s : string) : bool := String.prefix p s.

(** ** Default variables (lines 29-33) *)

Definition resultOutput : string := "gtest_result".
Definition valgrindOutput : string := "valgrind_report".
Definition valgrindErrorCode : Z := 101.
Definition valgrindIgnore : string := "rialto-gstreamer.supp".

(** ** Effects *)

(** The keyword arguments the script passes to [subprocess.run]: the
    command, [cwd], the file [stdout] is redirected to (if any) and
    whether [stderr=subprocess.STDOUT] was given.  An open file is
    identified with the path it was opened on; [None] is Python's [None]. *)
Record proc_call := {
  pc_args : list string;
  pc_cwd : string;
  pc_stdout : option string;
  pc_stderr_to_stdout : bool
}.

(** What [subprocess.run] can do: complete with a return code, or raise
    [OSError] because the program could not be started. *)
Inductive run_result :=
| Completed (returncode : Z)
| SpawnError (e : string).

(** [subprocess.CompletedProcess]: the fields the script reads. *)
Record CompletedProcess := {
  args : list string;
  returncode : Z
}.

(** One observable effect.  File-system operations carry their result:
    [None] when they succeed, [Some e] when they raise the error [e].
    [os.getcwd()] changes nothing and is recorded only when it raises. *)
Inductive event :=
| EvRun (c : proc_call) (r : run_result)
| EvPrint (s : string)
| EvSetenv (k v : string)
| EvExists (p : string) (b : bool)
| EvRmtree (p : string) (r : option string)
| EvRemove (p : string) (r : option string)
| EvOpen (p : string) (r : option string)
| EvClose (p : string)
| EvGetcwdError (e : string).

(** The outside world.  Each answer may depend on the whole history. *)
Record environment := {
  subprocess_run : list event -> proc_call -> run_result;
  os_path_exists : list event -> string -> bool;
  shutil_rmtree : list event -> string -> option string;
  os_remove : list event -> string -> option string;
  open_w : list event -> string -> option string;
  (** The directory the script is started in.  The script never changes
      directory, so this is what [os.getcwd()] gives for as long as the
      directory exists. *)
  initial_cwd : string;
  (** Whether a run of [rm] took the working directory with it: it does
      when the output directory it is told to delete is that directory or
      one above it.  From then on [os.getcwd()] raises. *)
  rm_removes_cwd : proc_call -> run_result -> bool;
  (** [os.path.realpath(os.path.dirname(__file__))] *)
  script_dir : string;
  (** [multiprocessing.cpu_count()] *)
  cpu_count : Z
}.

(** How a piece of the script ends: it returns a value, it calls
    [sys.exit] (the [SystemExit] exception, which [except Exception] does
    not catch), or it raises an [Exception]. *)
Inductive outcome (A : Type) :=
| Returned (a : A)
| SysExit (msg : string)
| Raised (e : string).
Arguments Returned {A} a.
Arguments SysExit {A} msg.
Arguments Raised {A} e.

(** A computation reads the history (every event so far, oldest first)
    and gives its outcome together with the events it emitted itself. *)
Definition M (A : Type) : Type := list event -> outcome A * list event.

(** The result [r] of a continuation, coming after the events [es]. *)
Definition after {B} (es : list event) (r : outcome B * list event)
  : outcome B * list event :=
  (fst r, es ++ snd r).

Definition ret {A} (a : A) : M A := fun _ => (Returned a, []).

Definition bind {A B} (m : M A) (k : A -> M B) : M B :=
  fun h =>
    match m h with
    | (Returned a, es) => after es (k a (h ++ es))
    | (SysExit msg, es) => (SysExit msg, es)
    | (Raised e, es) => (Raised e, es)
    end.

Notation "x <- c1 ;; c2" := (bind c1 (fun x => c2))
  (at level 61, c1 at next level, right associativity).
Notation "c1 ;;; c2" := (bind c1 (fun _ => c2))
  (at level 61, right associativity).

Definition emit (e : event) : M unit := fun _ => (Returned tt, [e]).

Definition print (s : string) : M unit := emit (EvPrint s).

(** [raise Exception(e)]. *)
Definition raise {A} (e : string) : M A := fun _ => (Raised e, []).

(** [sys.exit(msg)]. *)
Definition sys_exit {A} (msg : string) : M A := fun _ => (SysExit msg, []).

(** [try: body except Exception as e: handler(e)]. *)
Definition try_except {A} (body : M A) (handler : string -> M A) : M A :=
  fun h =>
    match body h with
    | (Raised e, es) => after es (handler e (h ++ es))
    | r => r
    end.

(** A file-system operation that raises when the world says so. *)
Definition fs_op (ev : option string -> event) (r : option string) : M unit :=
  fun _ =>
    match r with
    | None => (Returned tt, [ev None])
    | Some e => (Raised e, [ev (Some e)])
    end.

(** ** Truthiness, for the tests the coverage generator makes on statuses *)

Inductive pyval :=
| PyFalse
| PyTrue
| PyStatus (s : CompletedProcess).

(** A [CompletedProcess] defines neither [__bool__] nor [__len__]: every
    instance is truthy. *)
Definition truthy (v : pyval) : bool :=
  match v with
  | PyFalse => false
  | PyTrue => true
  | PyStatus _ => true
  end.

(** [a and b]. *)
Definition py_and (a b : pyval) : pyval := if truthy a then b else a.

(** ** Configuration *)

(** The parsed options, [vars(argParser.parse_args())]. *)
Record Args := {
  arg_output : string;
  arg_file : option string;
  arg_xml : option string;
  arg_googletestFilter : option string;
  arg_listTests : bool;
  arg_clean : bool;
  arg_noBuild : bool;
  arg_noTest : bool;
  arg_valgrind : bool;
  arg_coverage : bool;
  arg_branch : string
}.

(** The options when the script is started with no argument. *)
Definition default_args : Args := {|
  arg_output := "build";
  arg_file := None;
  arg_xml := None;
  arg_googletestFilter := None;
  arg_listTests := false;
  arg_clean := false;
  arg_noBuild := false;
  arg_noTest := false;
  arg_valgrind := false;
  arg_coverage := false;
  arg_branch := EmptyString
|}.

(** One entry of the suites dictionary,
    [{"suite" : ..., "path" : ...}]. *)
Record suite_info := {
  suite : string;
  path : string
}.

(** The dictionary [{Component Name : {Test Suite, Test Path}}], in
    insertion order, which is the order [for key in suites] visits. *)
Definition suites_dict := list (string * suite_info).

Definition suitesToRun : suites_dict :=
  [("gst", {| suite := "GstRialtoUnitTests"; path := "/tests/ut/" |})].

Definition is_empty (s : string) : bool :=
  match s with
  | EmptyString => true
  | String _ _ => false
  end.

(** The program a call starts: the first word of its command. *)
Definition program (c : proc_call) : string := hd EmptyString (pc_args c).

Section Script.

Variable env : environment.

(** ** os.getcwd *)

(** The working directory is gone once an [rm] removed it.  Of the
    programs the script starts, [rm] is the one that is asked to delete
    directories, among them the output directory the user names; the
    other tools are taken to leave the working directory in place. *)
Definition removes_cwd (e : event) : bool :=
  match e with
  | EvRun c r => (program c =? "rm")%string && rm_removes_cwd env c r
  | _ => false
  end.

Definition cwd_gone (h : list event) : bool := existsb removes_cwd h.

(** The text of the [FileNotFoundError] of [os.getcwd()]. *)
Definition getcwd_error : string := "[Errno 2] No such file or directory".

(** [os.getcwd()]: the directory the script was started in, or
    [FileNotFoundError] when that directory does not exist any more. *)
Definition os_getcwd : M string :=
  fun h =>
    if cwd_gone h then (Raised getcwd_error, [EvGetcwdError getcwd_error])
    else (Returned (initial_cwd env), []).

(** ** runcmd (lines 36-42) *)

Definition tolerated (rc : Z) : bool :=
  (rc =? 0) || (rc =? valgrindErrorCode).

(** [subprocess.run], with the arguments of the call gathered in [c]. *)
Definition run (c : proc_call) : M CompletedProcess :=
  fun h =>
    let r := subprocess_run env h c in
    match r with
    | Completed rc =>
        (Returned {| args := pc_args c; returncode := rc |}, [EvRun c r])
    | SpawnError e => (Raised e, [EvRun c r])
    end.

(** The message [runcmd] gives to [sys.exit]; [status.args] is a list at
    every call of the script, so the [join] branch is the one taken. *)
Definition exit_message (status : CompletedProcess) : string :=
  let a := join " " (args status) in
  "Command: " +++ dquote +++ a +++ dquote +++ " returned with "
  +++ str (returncode status) +++ " error code!".

Definition runcmd (c : proc_call) : M CompletedProcess :=
  status <- run c ;;
  if tolerated (returncode status) then ret status
  else sys_exit (exit_message status).

(** ** checkAndRemoveFiles (lines 44-57) *)

Definition path_exists (p : string) : M bool :=
  fun h =>
    let b := os_path_exists env h p in
    (Returned b, [EvExists p b]).

Definition rmtree (p : string) : M unit :=
  fun h => fs_op (EvRmtree p) (shutil_rmtree env h p) h.

Definition remove (p : string) : M unit :=
  fun h => fs_op (EvRemove p) (os_remove env h p) h.

Definition checkAndRemoveFiles : M unit :=
  let includeDirs := "tests/third-party/include" in
  let sourceFile :=
    "tests/third-party/source/RialtoGStreamerEMEProtectionMetadata.cpp" in
  try_except
    (b1 <- path_exists includeDirs ;;
     (if b1 then
        print ("Removing files within: " +++ includeDirs) ;;;
        rmtree includeDirs
      else ret tt) ;;;
     b2 <- path_exists sourceFile ;;
     if b2 then
       print ("Removing file: " +++ sourceFile) ;;;
       remove sourceFile
     else ret tt)
    (fun e => print ("An error occurred: " +++ e)).

(** [open(p, "w")]: the handle, or [OSError]. *)
Definition open (p : string) : M (option string) :=
  fun h =>
    match open_w env h p with
    | None => (Returned (Some p), [EvOpen p None])
    | Some e => (Raised e, [EvOpen p (Some e)])
    end.

(** ** buildTargets (lines 135-153) *)

Definition cmakeCmd (outputDir : string) (coverage : bool) (branch : string)
  : list string :=
  ["cmake"; "-B"; outputDir; "-DCMAKE_BUILD_FLAG=UnitTests";
   "-DRIALTO_ENABLE_X_RAW=1"; "-DBUILD_BRANCH=" +++ branch]
  ++ (if coverage then ["-DCOVERAGE_ENABLED=1"] else []).

Definition makeCmd (suites : suites_dict) : list string :=
  let jarg := "-j" +++ str (cpu_count env) in
  ["make"; jarg] ++ map (fun kv => suite (snd kv)) suites.

Definition buildTargets (suites : suites_dict) (outputDir : string)
    (resultsFile : option string) (debug coverage : bool) (branch : string)
  : M unit :=
  cwd <- os_getcwd ;;
  _ <- runcmd {| pc_args := cmakeCmd outputDir coverage branch;
                 pc_cwd := cwd;
                 pc_stdout := None; pc_stderr_to_stdout := false |} ;;
  print ("+ " +++ join " " (makeCmd suites)) ;;;
  match resultsFile with
  | Some f =>
      cwd <- os_getcwd ;;
      _ <- runcmd {| pc_args := makeCmd suites;
                     pc_cwd := cwd +++ "/" +++ outputDir;
                     pc_stdout := Some f; pc_stderr_to_stdout := true |} ;;
      ret tt
  | None =>
      cwd <- os_getcwd ;;
      _ <- runcmd {| pc_args := makeCmd suites;
                     pc_cwd := cwd +++ "/" +++ outputDir;
                     pc_stdout := None; pc_stderr_to_stdout := false |} ;;
      ret tt
  end.

(** ** AddValgrind (lines 198-214) *)

Definition AddValgrind (suite : string) (outputToFile outputToXml : bool)
  : list string :=
  ["valgrind"; "--leak-check=full"; "--show-leak-kinds=all";
   "--track-origins=yes"; "--verbose";
   "--error-exitcode=" +++ str valgrindErrorCode]
  ++ (if outputToXml then
        ["--xml=yes"; "--xml-file=" +++ suite +++ "_" +++ valgrindOutput +++ ".xml"]
      else if outputToFile then
        ["--log-file=" +++ suite +++ "_" +++ valgrindOutput +++ ".log"]
      else [])
  ++ ["--suppressions=" +++ script_dir env +++ "/" +++ valgrindIgnore].

(** ** generateCoverageReport (lines 216-253) *)

Definition lcovFilter : list string := ["--filter"; "brace,function,trivial"].

Definition lcovBaseCmd : list string :=
  ["lcov"; "-c"; "-i"; "-d"; "."; "-o"; "coverage_base.info"; "--exclude";
   "/usr/*"; "--exclude"; "*build/*"; "--exclude"; "*tests/*"] ++ lcovFilter.

Definition lcovTestCmd : list string :=
  ["lcov"; "-c"; "-d"; "."; "-o"; "coverage_test.info"; "--exclude";
   "/usr/*"; "--exclude"; "*build/*"; "--exclude"; "*tests/*"] ++ lcovFilter.

Definition lcovCombineCmd : list string :=
  ["lcov"; "-a"; "coverage_base.info"; "-a"; "coverage_test.info"; "-o";
   "coverage.info"] ++ lcovFilter.

Definition genHtmlCmd : list string :=
  ["genhtml"; "coverage.info"; "--output-directory";
   "gh_pages/coverage_report"] ++ lcovFilter.

Definition genStatsCmd : list string :=
  ["lcov"; "--summary"; "coverage.info"] ++ lcovFilter.

(** The two shapes of call the generator and the test loop make, [cwd]
    being what [os.getcwd()] returned: with the results file as [stdout]
    when there is one, and [stderr] merged in both cases. *)
Definition logged_call_in (cwd : string) (cmd : list string)
    (outputDir : string) (resultsFile : option string) : proc_call :=
  {| pc_args := cmd;
     pc_cwd := cwd +++ "/" +++ outputDir;
     pc_stdout := resultsFile;
     pc_stderr_to_stdout := true |}.

(** The same call when the working directory is still the one the script
    was started in. *)
Definition logged_call (cmd : list string) (outputDir : string)
    (resultsFile : option string) : proc_call :=
  logged_call_in (initial_cwd env) cmd outputDir resultsFile.

Definition generateCoverageReport (outputDir : string)
    (resultsFile : option string) : M pyval :=
  cwd <- os_getcwd ;;
  lcovBaseStatus <-
    runcmd (logged_call_in cwd lcovBaseCmd outputDir resultsFile) ;;
  if negb (truthy (PyStatus lcovBaseStatus)) then ret PyFalse else
  cwd <- os_getcwd ;;
  lcovTestStatus <-
    runcmd (logged_call_in cwd lcovTestCmd outputDir resultsFile) ;;
  if negb (truthy (PyStatus lcovTestStatus)) then ret PyFalse else
  cwd <- os_getcwd ;;
  lcovCombineStatus <-
    runcmd (logged_call_in cwd lcovCombineCmd outputDir resultsFile) ;;
  if negb (truthy (PyStatus lcovCombineStatus)) then ret PyFalse else
  cwd <- os_getcwd ;;
  genHtmlStatus <-
    runcmd (logged_call_in cwd genHtmlCmd outputDir resultsFile) ;;
  cwd <- os_getcwd ;;
  statsFile <-
    open (cwd +++ "/" +++ outputDir +++ "/" +++ "coverage_statistics.txt") ;;
  genStatsStatus <-
    match statsFile with
    | Some sf =>
        cwd <- os_getcwd ;;
        s <- runcmd {| pc_args := genStatsCmd;
                       pc_cwd := cwd +++ "/" +++ outputDir;
                       pc_stdout := Some sf; pc_stderr_to_stdout := true |} ;;
        ret (PyStatus s)
    | None => ret PyFalse
    end ;;
  match statsFile with
  | Some sf => emit (EvClose sf)
  | None => raise "'NoneType' object has no attribute 'close'"
  end ;;;
  ret (py_and (PyStatus genHtmlStatus) genStatsStatus).

(** ** runTests (lines 156-195) *)

Definition is_some {A} (o : option A) : bool :=
  match o with
  | Some _ => true
  | None => false
  end.

(** The command line built for one suite (lines 160-176). *)
Definition executeCmd (key : string) (info : suite_info)
    (doListTests : bool) (gtestFilter : option string)
    (resultsFile xmlFile : option string) (valgrind : bool) : list string :=
  (if valgrind then AddValgrind key (is_some resultsFile) (is_some xmlFile)
   else [])
  ++ ["." +++ path info +++ suite info]
  ++ (if doListTests then ["--gtest_list_tests"]
      else match gtestFilter with
           | Some flt => ["--gtest_filter=" +++ flt]
           | None => []
           end)
  ++ (match xmlFile with
      | Some x =>
          if negb valgrind then ["--gtest_output=xml:" +++ key +++ "_" +++ x]
          else []
      | None => []
      end).

(** The two reports of the error-code check (lines 184-190). *)
Definition valgrind_failed (key : string) : event :=
  EvPrint ("Valgrind failed for suite '" +++ key +++ "'").

Definition command_failed (key : string) (rc : Z) : event :=
  EvPrint ("Command failed for suite '" +++ key +++ "' with error code '"
           +++ str rc +++ "'").

(** The body of [for key in suites], with [hasFailed] threaded through. *)
Fixpoint runTests_loop (suites : suites_dict) (doListTests : bool)
    (gtestFilter : option string) (outputDir : string)
    (resultsFile xmlFile : option string) (valgrind : bool)
    (hasFailed : bool) : M bool :=
  match suites with
  | [] => ret hasFailed
  | (key, info) :: rest =>
      cwd <- os_getcwd ;;
      status <-
        runcmd (logged_call_in cwd
                  (executeCmd key info doListTests gtestFilter
                              resultsFile xmlFile valgrind)
                  outputDir resultsFile) ;;
      hasFailed' <-
        (if returncode status =? valgrindErrorCode then
           emit (valgrind_failed key) ;;;
           ret true
         else if negb (returncode status =? 0) then
           emit (command_failed key (returncode status)) ;;;
           ret true
         else ret hasFailed) ;;
      runTests_loop rest doListTests gtestFilter outputDir resultsFile
                    xmlFile valgrind hasFailed'
  end.

Definition aggregate_failure : string := "runTests has failed, exiting".

Definition runTests (suites : suites_dict) (doListTests : bool)
    (gtestFilter : option string) (outputDir : string)
    (resultsFile xmlFile : option string) (valgrind coverage : bool)
  : M unit :=
  hasFailed <-
    runTests_loop suites doListTests gtestFilter outputDir resultsFile
                  xmlFile valgrind false ;;
  if hasFailed then raise aggregate_failure
  else if coverage then
    _ <- generateCoverageReport outputDir resultsFile ;;
    ret tt
  else ret tt.

(** ** main (lines 59-132) *)

(** The blocks of [main], one per commented section of the source. *)

(** Clean if required (lines 100-105). *)
Definition rm_call_in (cwd : string) (a : Args) : proc_call :=
  {| pc_args := ["rm"; "-rf"; arg_output a; resultOutput +++ ".log";
                 valgrindOutput +++ ".log"];
     pc_cwd := cwd;
     pc_stdout := None; pc_stderr_to_stdout := false |}.

(** The call when the working directory is the one the script was started
    in, as it is when the clean stage is reached. *)
Definition rm_call (a : Args) : proc_call := rm_call_in (initial_cwd env) a.

Definition clean_if_required (a : Args) : M unit :=
  if arg_clean a then
    checkAndRemoveFiles ;;;
    cwd <- os_getcwd ;;
    _ <- runcmd (rm_call_in cwd a) ;;
    ret tt
  else ret tt.

(** Get output file name if any (lines 107-114). *)
Definition get_output_file (a : Args) : M (option string) :=
  match arg_file a with
  | Some name =>
      if is_empty name then open (resultOutput +++ ".log") else open name
  | None => ret None
  end.

(** Get xml output file name if any (lines 116-123). *)
Definition get_xml_file (a : Args) : option string :=
  match arg_xml a with
  | Some name => Some (if is_empty name then resultOutput +++ ".xml" else name)
  | None => None
  end.

(** Build the test executables (lines 125-127). *)
Definition build_if_required (a : Args) (f : option string) : M unit :=
  if negb (arg_noBuild a) then
    buildTargets suitesToRun (arg_output a) f (arg_valgrind a)
                 (arg_coverage a) (arg_branch a)
  else ret tt.

(** Run the tests with the optional settings (lines 129-132). *)
Definition test_if_required (a : Args) (f xml : option string) : M unit :=
  if negb (arg_noTest a) then
    runTests suitesToRun (arg_listTests a) (arg_googletestFilter a)
             (arg_output a) f xml (arg_valgrind a) (arg_coverage a)
  else ret tt.

Definition main (a : Args) : M unit :=
  emit (EvSetenv "RIALTO_SINKS_RANK" "256") ;;;
  clean_if_required a ;;;
  f <- get_output_file a ;;
  let xml := get_xml_file a in
  build_if_required a f ;;;
  test_if_required a f xml.

End Script.

(** The whole process: [main] started on the empty history. *)
Definition run_main (env : environment) (a : Args) : outcome unit * list event :=
  main env a [].

(** ** Reading a trace *)

(** A process that started and ended with a code [runcmd] lets through. *)
Definition result_ok (r : run_result) : bool :=
  match r with
  | Completed rc => tolerated rc
  | SpawnError _ => false
  end.

(** The events after which the script does not go on: a process that
    could not start or ended with a code other than 0 and 101, a file
    that could not be opened, and [os.getcwd()] raising. *)
Definition halting (e : event) : bool :=
  match e with
  | EvRun _ r => negb (result_ok r)
  | EvOpen _ (Some _) => true
  | EvGetcwdError _ => true
  | _ => false
  end.

(** How the script ends after a halting event. *)
Definition stops_with {A} (e : event) (o : outcome A) : Prop :=
  match e with
  | EvRun c (Completed rc) =>
      o = SysExit (exit_message {| args := pc_args c; returncode := rc |})
  | EvRun _ (SpawnError x) => o = Raised x
  | EvOpen _ (Some x) => o = Raised x
  | EvGetcwdError x => o = Raised x
  | _ => False
  end.

(** The processes of a trace, in order, with their results. *)
Fixpoint run_events (es : list event) : list (proc_call * run_result) :=
  match es with
  | [] => []
  | EvRun c r :: es' => (c, r) :: run_events es'
  | _ :: es' => run_events es'
  end.

Definition run_calls (es : list event) : list proc_call :=
  map fst (run_events es).

Definition is_returned {A} (o : outcome A) : bool :=
  match o with
  | Returned _ => true
  | _ => false
  end.

(** ** Postconditions met on every history *)

(** Every event the computation emits satisfies [P]. *)
Definition emits_only {A} (P : event -> Prop) (m : M A) : Prop :=
  forall h, Forall P (snd (m h)).

(** A halting event is the last one, and the outcome is the one it forces. *)
Definition stops_at_failure {A} (r : outcome A * list event) : Prop :=
  forall pre e post,
    snd r = pre ++ e :: post -> halting e = true ->
    post = [] /\ stops_with e (fst r).

Definition fail_fast {A} (m : M A) : Prop :=
  forall h, stops_at_failure (m h).

(** Unless one of the events counted by [H] occurred, the computation
    returns. *)
Definition returns_unless {A} (H : event -> bool) (m : M A) : Prop :=
  forall h, (forall e, In e (snd (m h)) -> H e = false) ->
            exists a, fst (m h) = Returned a.

(** ** The test loop as a relation on traces *)

(** The call [runTests] makes for one entry of the dictionary. *)
Definition suite_call (env : environment) (doListTests : bool)
    (gtestFilter : option string) (outputDir : string)
    (resultsFile xmlFile : option string) (valgrind : bool)
    (kv : string * suite_info) : proc_call :=
  logged_call env
    (executeCmd env (fst kv) (snd kv) doListTests gtestFilter resultsFile
                xmlFile valgrind)
    outputDir resultsFile.

(** [loop_trace call gone suites hf o es]: over [suites], entered with
    [hasFailed = hf] and with the working directory gone or not as [gone]
    says, the loop can emit [es] and end with [o].  The loop starts no
    [rm], so the working directory that was there for one suite is there
    for the next. *)
Inductive loop_trace (call : string * suite_info -> proc_call)
  : bool -> suites_dict -> bool -> outcome bool -> list event -> Prop :=
| LoopDone gone hf :
    loop_trace call gone [] hf (Returned hf) []
| LoopNoCwd kv rest hf :
    loop_trace call true (kv :: rest) hf (Raised getcwd_error)
      [EvGetcwdError getcwd_error]
| LoopPass kv rest hf o es :
    loop_trace call false rest hf o es ->
    loop_trace call false (kv :: rest) hf o
      (EvRun (call kv) (Completed 0) :: es)
| LoopMemcheck kv rest hf o es :
    loop_trace call false rest true o es ->
    loop_trace call false (kv :: rest) hf o
      (EvRun (call kv) (Completed valgrindErrorCode)
       :: valgrind_failed (fst kv) :: es)
| LoopExit kv rest hf rc :
    tolerated rc = false ->
    loop_trace call false (kv :: rest) hf
      (SysExit (exit_message {| args := pc_args (call kv); returncode := rc |}))
      [EvRun (call kv) (Completed rc)]
| LoopSpawnError kv rest hf x :
    loop_trace call false (kv :: rest) hf (Raised x)
      [EvRun (call kv) (SpawnError x)].

(** ** Flags on a command line *)

(** The flags of the claims, recognised by how a word starts. *)
Definition is_gtest_output_flag (w : string) : bool :=
  startswith "--gtest_output=" w.

Definition is_gtest_filter_flag (w : string) : bool :=
  startswith "--gtest_filter=" w.

(** ** Which processes a run can start *)

Definition coverage_cmds : list (list string) :=
  [lcovBaseCmd; lcovTestCmd; lcovCombineCmd; genHtmlCmd; genStatsCmd].

(** The calls of the build stage, the test loop and the coverage
    generator, whatever the results file is. *)
Definition build_call (env : environment) (a : Args) (c : proc_call) : Prop :=
  pc_args c = cmakeCmd (arg_output a) (arg_coverage a) (arg_branch a) \/
  pc_args c = makeCmd env suitesToRun.

Definition test_call (env : environment) (a : Args) (c : proc_call) : Prop :=
  exists f kv,
    In kv suitesToRun /\
    c = suite_call env (arg_listTests a) (arg_googletestFilter a)
                   (arg_output a) f (get_xml_file a) (arg_valgrind a) kv.

Definition coverage_call (c : proc_call) : Prop :=
  In (pc_args c) coverage_cmds.

(** Every process [main] can start, with the options that allow it. *)
Definition main_call (env : environment) (a : Args) (c : proc_call) : Prop :=
  (arg_clean a = true /\ c = rm_call env a) \/
  (arg_noBuild a = false /\ build_call env a c) \/
  (arg_noTest a = false /\ test_call env a c) \/
  (arg_noTest a = false /\ arg_coverage a = true /\ coverage_call c).

(** [P] holds of every process among the events. *)
Definition calls_only (P : proc_call -> Prop) (e : event) : Prop :=
  forall c r, e = EvRun c r -> P c.

(** ** Stages, recognised by the program started *)

Definition test_binary : string := "./tests/ut/GstRialtoUnitTests".

(** The build system: [cmake] or [make]. *)
Definition is_build_tool (c : proc_call) : bool :=
  (program c =? "cmake")%string || (program c =? "make")%string.

(** The test binary, alone or under valgrind. *)
Definition is_test_invocation (c : proc_call) : bool :=
  (program c =? "valgrind")%string || (program c =? test_binary)%string.

(** The coverage tools: [lcov] or [genhtml]. *)
Definition is_coverage_tool (c : proc_call) : bool :=
  (program c =? "lcov")%string || (program c =? "genhtml")%string.

(** The call that configures the build. *)
Definition cmake_call (env : environment) (a : Args) : proc_call :=
  {| pc_args := cmakeCmd (arg_output a) (arg_coverage a) (arg_branch a);
     pc_cwd := initial_cwd env;
     pc_stdout := None; pc_stderr_to_stdout := false |}.

(** The five calls of the coverage generator, in order. *)
Definition coverage_calls (env : environment) (outputDir : string)
    (resultsFile : option string) : list proc_call :=
  [logged_call env lcovBaseCmd outputDir resultsFile;
   logged_call env lcovTestCmd outputDir resultsFile;
   logged_call env lcovCombineCmd outputDir resultsFile;
   logged_call env genHtmlCmd outputDir resultsFile;
   {| pc_args := genStatsCmd;
      pc_cwd := initial_cwd env +++ "/" +++ outputDir;
      pc_stdout := Some (initial_cwd env +++ "/" +++ outputDir +++ "/"
                         +++ "coverage_statistics.txt");
      pc_stderr_to_stdout := true |}].

(** The call that configures the build, for the arguments of
    [buildTargets]. *)
Definition configure_call (env : environment) (outputDir : string)
    (coverage : bool) (branch : string) : proc_call :=
  {| pc_args := cmakeCmd outputDir coverage branch;
     pc_cwd := initial_cwd env;
     pc_stdout := None; pc_stderr_to_stdout := false |}.

(** The build system was started. *)
Definition build_invoked (es : list event) : Prop :=
  exists c r, In (EvRun c r) es /\ is_build_tool c = true.

(** The test binary was started. *)
Definition test_invoked (es : list event) : Prop :=
  exists c r, In (EvRun c r) es /\ is_test_invocation c = true.

(** ** The stages of main *)

(** What [main] does before the build gate, and before the test gate. *)
Definition setup (env : environment) (a : Args) : M (option string) :=
  emit (EvSetenv "RIALTO_SINKS_RANK" "256") ;;;
  clean_if_required env a ;;;
  get_output_file env a.

Definition before_tests (env : environment) (a : Args) : M (option string) :=
  f <- setup env a ;;
  build_if_required env a f ;;;
  ret f.

(** The failures that can end a run before a stage is reached: an [rm]
    that did not end with 0 or 101, a file that could not be opened, and
    [os.getcwd()] raising because the working directory is gone. *)
Definition setup_failure (e : event) : bool :=
  match e with
  | EvRun c r => (program c =? "rm")%string && negb (result_ok r)
  | EvOpen _ (Some _) => true
  | EvGetcwdError _ => true
  | _ => false
  end.

(** A build tool that did not end with 0 or 101. *)
Definition build_failure (e : event) : bool :=
  match e with
  | EvRun c r => is_build_tool c && negb (result_ok r)
  | _ => false
  end.

(** The run did not end normally: its last event is one of the failures
    counted by [H], and the processes it started are all among those
    [allowed]. *)
Definition ended_by {A} (H : event -> bool) (allowed : proc_call -> Prop)
    (r : outcome A * list event) : Prop :=
  is_returned (fst r) = false /\
  (exists pre e, snd r = pre ++ [e] /\ H e = true) /\
  (forall c r', In (EvRun c r') (snd r) -> allowed c).

(** ** Returned values *)

(** Every value [m] returns satisfies [Q]. *)
Definition returns_only {A} (Q : A -> Prop) (m : M A) : Prop :=
  forall h a, fst (m h) = Returned a -> Q a.

(** ** Concrete machines and option sets *)

(** The return code of a process, looked up by the program started; 0 for
    a program the table does not list. *)
Definition exit_code_of (table : list (string * Z)) (c : proc_call) : Z :=
  match find (fun p => (fst p =? program c)%string) table with
  | Some p => snd p
  | None => 0
  end.

(** A machine with eight processors where every program starts, the
    third-party files exist and can be removed, files can be opened, and
    processes end with the codes [codes] gives. *)
Definition machine (codes : proc_call -> Z) : environment := {|
  subprocess_run := fun _ c => Completed (codes c);
  os_path_exists := fun _ _ => true;
  shutil_rmtree := fun _ _ => None;
  os_remove := fun _ _ => None;
  open_w := fun _ _ => None;
  initial_cwd := "/home/dev/rialto-gstreamer";
  rm_removes_cwd := fun _ _ => false;
  script_dir := "/home/dev/rialto-gstreamer";
  cpu_count := 8
|}.

(** The same machine, on which removing the include directory fails. *)
Definition machine_rmtree_denied (codes : proc_call -> Z) : environment := {|
  subprocess_run := fun _ c => Completed (codes c);
  os_path_exists := fun _ _ => true;
  shutil_rmtree := fun _ _ => Some "[Errno 13] Permission denied";
  os_remove := fun _ _ => None;
  open_w := fun _ _ => None;
  initial_cwd := "/home/dev/rialto-gstreamer";
  rm_removes_cwd := fun _ _ => false;
  script_dir := "/home/dev/rialto-gstreamer";
  cpu_count := 8
|}.

(** The same machine again, where [rm] removes the working directory
    when it is told to delete it. *)
Definition machine_cwd_removed (codes : proc_call -> Z) : environment := {|
  subprocess_run := fun _ c => Completed (codes c);
  os_path_exists := fun _ _ => true;
  shutil_rmtree := fun _ _ => None;
  os_remove := fun _ _ => None;
  open_w := fun _ _ => None;
  initial_cwd := "/home/dev/rialto-gstreamer";
  rm_removes_cwd :=
    fun c _ => existsb (String.eqb "/home/dev/rialto-gstreamer") (pc_args c);
  script_dir := "/home/dev/rialto-gstreamer";
  cpu_count := 8
|}.

(** [--clean], [--coverage], [--valgrind --xml] and
    [--listTests --googletestFilter Foo*]. *)
Definition clean_args : Args := {|
  arg_output := "build"; arg_file := None; arg_xml := None;
  arg_googletestFilter := None; arg_listTests := false; arg_clean := true;
  arg_noBuild := false; arg_noTest := false; arg_valgrind := false;
  arg_coverage := false; arg_branch := EmptyString
|}.

(** [--clean --output /home/dev/rialto-gstreamer]: the output directory
    is the directory the script is started in. *)
Definition clean_cwd_args : Args := {|
  arg_output := "/home/dev/rialto-gstreamer"; arg_file := None;
  arg_xml := None; arg_googletestFilter := None; arg_listTests := false;
  arg_clean := true; arg_noBuild := false; arg_noTest := false;
  arg_valgrind := false; arg_coverage := false; arg_branch := EmptyString
|}.

Definition coverage_args : Args := {|
  arg_output := "build"; arg_file := None; arg_xml := None;
  arg_googletestFilter := None; arg_listTests := false; arg_clean := false;
  arg_noBuild := false; arg_noTest := false; arg_valgrind := false;
  arg_coverage := true; arg_branch := EmptyString
|}.

Definition valgrind_xml_args : Args := {|
  arg_output := "build"; arg_file := None; arg_xml := Some EmptyString;
  arg_googletestFilter := None; arg_listTests := false; arg_clean := false;
  arg_noBuild := false; arg_noTest := false; arg_valgrind := true;
  arg_coverage := false; arg_branch := EmptyString
|}.

Definition list_filter_args : Args := {|
  arg_output := "build"; arg_file := None; arg_xml := None;
  arg_googletestFilter := Some "Foo*"; arg_listTests := true;
  arg_clean := false; arg_noBuild := false; arg_noTest := false;
  arg_valgrind := false; arg_coverage := false; arg_branch := EmptyString
|}.

Definition gst_entry : string * suite_info :=
  ("gst", {| suite := "GstRialtoUnitTests"; path := "/tests/ut/" |}).

(** A dictionary with a second entry, to watch the loop go on. *)
Definition two_suites : suites_dict :=
  [gst_entry;
   ("client", {| suite := "ClientUnitTests"; path := "/tests/client/" |})].

(** ** Words of a valgrind command line *)

(** The words that send valgrind's report to an XML file, and the word
    that sends it to a log file. *)
Definition is_valgrind_xml_flag (w : string) : bool :=
  startswith "--xml" w.

Definition is_valgrind_log_flag (w : string) : bool :=
  startswith "--log-file=" w.

(** Any flag of googletest. *)
Definition is_gtest_flag (w : string) : bool :=
  startswith "--gtest_" w.

(** ** The processes of a run, exactly *)

(** The results file of a run: the file of the [file] option,
    [gtest_result.log] when the option came without a name, none without
    the option. *)
Definition log_file (a : Args) : option string :=
  match arg_file a with
  | Some name => Some (if is_empty name then resultOutput +++ ".log" else name)
  | None => None
  end.

(** The call that compiles the suites (lines 150-153). *)
Definition make_call (env : environment) (suites : suites_dict)
    (outputDir : string) (resultsFile : option string) : proc_call :=
  {| pc_args := makeCmd env suites;
     pc_cwd := initial_cwd env +++ "/" +++ outputDir;
     pc_stdout := resultsFile;
     pc_stderr_to_stdout := is_some resultsFile |}.

(** The file the coverage summary is written to (line 247). *)
Definition stats_file (env : environment) (outputDir : string) : string :=
  initial_cwd env +++ "/" +++ outputDir +++ "/" +++ "coverage_statistics.txt".

(** Every call a run with the options [a] can make. *)
Definition possible_calls (env : environment) (a : Args) : list proc_call :=
  rm_call env a
  :: cmake_call env a
  :: make_call env suitesToRun (arg_output a) (log_file a)
  :: suite_call env (arg_listTests a) (arg_googletestFilter a) (arg_output a)
                (log_file a) (get_xml_file a) (arg_valgrind a) gst_entry
  :: coverage_calls env (arg_output a) (log_file a).

(** ** How a run ends *)

(** An invocation of the test binary that ended with the code reserved
    for valgrind. *)
Definition memcheck_failure (e : event) : bool :=
  match e with
  | EvRun c (Completed rc) => is_test_invocation c && (rc =? valgrindErrorCode)
  | _ => false
  end.

(** An abnormal end has its cause at the end of the trace: a [sys.exit]
    comes right after a process that ended with a code other than 0 and
    101, and carries the message made for it; an exception is the error
    of the process or of the file that could not be started or opened, or
    the error of [os.getcwd()], the working directory being gone by then,
    that event being the last one, or else the aggregate failure, some
    process having ended with 101.  [h] is the history the events of [r]
    come after. *)
Definition end_has_cause {A} (env : environment) (h : list event)
    (r : outcome A * list event) : Prop :=
  match fst r with
  | Returned _ => True
  | SysExit msg =>
      exists pre c rc,
        snd r = pre ++ [EvRun c (Completed rc)] /\
        tolerated rc = false /\
        msg = exit_message {| args := pc_args c; returncode := rc |}
  | Raised x =>
      (exists pre c, snd r = pre ++ [EvRun c (SpawnError x)]) \/
      (exists pre p, snd r = pre ++ [EvOpen p (Some x)]) \/
      (exists pre, snd r = pre ++ [EvGetcwdError x] /\
                   cwd_gone env (h ++ pre) = true) \/
      (x = aggregate_failure /\
       exists c, In (EvRun c (Completed valgrindErrorCode)) (snd r))
  end.

Definition ends_with_cause {A} (env : environment) (m : M A) : Prop :=
  forall h, end_has_cause env h (m h).

(** ** The files of the clean stage (lines 45-46) *)

Definition includeDirs : string := "tests/third-party/include".

Definition sourceFile : string :=
  "tests/third-party/source/RialtoGStreamerEMEProtectionMetadata.cpp".

(** ** Order among processes *)

(** [subseq l l']: [l] is [l'] with some elements left out. *)
Inductive subseq {X : Type} : list X -> list X -> Prop :=
| SubseqNil : subseq [] []
| SubseqSkip x l l' : subseq l l' -> subseq l (x :: l')
| SubseqTake x l l' : subseq l l' -> subseq (x :: l) (x :: l').

(** The processes [m] starts are among [L], in the order of [L]. *)
Definition starts_within {A} (L : list proc_call) (m : M A) : Prop :=
  forall h, subseq (run_calls (snd (m h))) L.

(** [--xml] and [--file], each without a name. *)
Definition xml_args : Args := {|
  arg_output := "build"; arg_file := None; arg_xml := Some EmptyString;
  arg_googletestFilter := None; arg_listTests := false; arg_clean := false;
  arg_noBuild := false; arg_noTest := false; arg_valgrind := false;
  arg_coverage := false; arg_branch := EmptyString
|}.

Definition file_args : Args := {|
  arg_output := "build"; arg_file := Some EmptyString; arg_xml := None;
  arg_googletestFilter := None; arg_listTests := false; arg_clean := false;
  arg_noBuild := false; arg_noTest := false; arg_valgrind := false;
  arg_coverage := false; arg_branch := EmptyString
|}.

(** * Properties *)

(** ** The monad *)

Lemma bind_run {A B} (m : M A) (k : A -> M B) (h : list event) :
  bind m k h =
  match fst (m h) with
  | Returned a => after (snd (m h)) (k a (h ++ snd (m h)))
  | SysExit msg => (SysExit msg, snd (m h))
  | Raised e => (Raised e, snd (m h))
  end.
Proof.
  unfold bind. destruct (m h) as [[a | msg | e] es]; reflexivity.
Qed.

Lemma bind_returned {A B} (m : M A) (k : A -> M B) h a es :
  m h = (Returned a, es) -> bind m k h = after es (k a (h ++ es)).
Proof. intros E. unfold bind. rewrite E. reflexivity. Qed.

Lemma bind_assoc {A B C} (m : M A) (k : A -> M B) (k' : B -> M C) h :
  bind (bind m k) k' h = bind m (fun x => bind (k x) k') h.
Proof.
  unfold bind, after.
  destruct (m h) as [[a | msg | e] es]; cbn; try reflexivity.
  destruct (k a (h ++ es)) as [[b | msg | e] es']; cbn; try reflexivity.
  rewrite <- (app_assoc h es es').
  destruct (k' b (h ++ es ++ es')) as [o es'']; cbn.
  now rewrite <- app_assoc.
Qed.

Lemma bind_ret_l {A B} (a : A) (k : A -> M B) h :
  bind (ret a) k h = k a h.
Proof.
  unfold bind, ret, after. rewrite app_nil_r.
  destruct (k a h); reflexivity.
Qed.

(** The events of [m] open the events of [bind m k]. *)
Lemma bind_events_prefix {A B} (m : M A) (k : A -> M B) h :
  exists tl, snd (bind m k h) = snd (m h) ++ tl.
Proof.
  rewrite bind_run. destruct (fst (m h)); cbn.
  - eexists; reflexivity.
  - exists []; now rewrite app_nil_r.
  - exists []; now rewrite app_nil_r.
Qed.

(** ** Rules for [emits_only] *)

Section EmitsOnly.

Context {A B : Type} (P : event -> Prop).

Lemma emits_only_ret (a : A) : emits_only P (ret a).
Proof. intros h; constructor. Qed.

Lemma emits_only_raise (e : string) : emits_only P (@raise A e).
Proof. intros h; constructor. Qed.

Lemma emits_only_sys_exit (msg : string) : emits_only P (@sys_exit A msg).
Proof. intros h; constructor. Qed.

Lemma emits_only_emit (e : event) : P e -> emits_only P (emit e).
Proof. intros He h; cbn; auto. Qed.

Lemma emits_only_bind (m : M A) (k : A -> M B) :
  emits_only P m -> (forall a, emits_only P (k a)) ->
  emits_only P (bind m k).
Proof.
  intros Hm Hk h. rewrite bind_run. specialize (Hm h).
  destruct (fst (m h)); cbn; auto.
  apply Forall_app; split; [exact Hm | apply Hk].
Qed.

Lemma emits_only_try_except (body : M A) (handler : string -> M A) :
  emits_only P body -> (forall e, emits_only P (handler e)) ->
  emits_only P (try_except body handler).
Proof.
  intros Hb Hh h. unfold try_except. specialize (Hb h).
  destruct (body h) as [[a | msg | e] es]; cbn in *; auto.
  apply Forall_app; split; [exact Hb | apply Hh].
Qed.

End EmitsOnly.

Lemma emits_only_weaken {A} (P Q : event -> Prop) (m : M A) :
  (forall e, P e -> Q e) -> emits_only P m -> emits_only Q m.
Proof.
  intros HPQ Hm h. eapply Forall_impl; [exact HPQ | apply Hm].
Qed.

(** ** Rules for [fail_fast] *)

(** Where an element of a concatenation sits. *)
Lemma in_app_split {X} (pre post l1 l2 : list X) (x : X) :
  pre ++ x :: post = l1 ++ l2 ->
  (exists mid, l1 = pre ++ x :: mid /\ post = mid ++ l2) \/
  (exists mid, pre = l1 ++ mid /\ l2 = mid ++ x :: post).
Proof.
  revert l1. induction pre as [| y pre IH]; intros [| z l1] E; cbn in *.
  - right. exists []. split; [reflexivity | now rewrite <- E].
  - injection E as -> ->. left. exists l1. split; reflexivity.
  - right. exists (y :: pre). split; [reflexivity | now rewrite <- E].
  - injection E as -> E. destruct (IH _ E) as [[mid [-> ->]] | [mid [-> ->]]].
    + left. exists mid. split; reflexivity.
    + right. exists mid. split; reflexivity.
Qed.

Lemma stops_at_failure_quiet {A} (o : outcome A) (es : list event) :
  Forall (fun e => halting e = false) es -> stops_at_failure (o, es).
Proof.
  intros Hq pre e post E He. cbn in E. subst es.
  apply Forall_app in Hq as [_ Hq]. inversion Hq as [| ? ? He' _]; subst.
  congruence.
Qed.

Lemma fail_fast_quiet {A} (m : M A) :
  emits_only (fun e => halting e = false) m -> fail_fast m.
Proof.
  intros Hq h. specialize (Hq h). destruct (m h) as [o es].
  now apply stops_at_failure_quiet.
Qed.

(** What a halting event forces does not depend on the result type. *)
Lemma stops_with_SysExit {A B} (e : event) (msg : string) :
  @stops_with A e (SysExit msg) -> @stops_with B e (SysExit msg).
Proof.
  destruct e as [c [rc | y] | | | | | | p [y |] | | y]; cbn;
    try contradiction; try discriminate; congruence.
Qed.

Lemma stops_with_Raised {A B} (e : event) (x : string) :
  @stops_with A e (Raised x) -> @stops_with B e (Raised x).
Proof.
  destruct e as [c [rc | y] | | | | | | p [y |] | | y]; cbn;
    try contradiction; try discriminate; congruence.
Qed.

Lemma stops_with_not_returned {A} (e : event) (a : A) :
  ~ stops_with e (Returned a).
Proof.
  destruct e as [c [rc | y] | | | | | | p [y |] | | y]; cbn; auto; discriminate.
Qed.

Lemma fail_fast_bind {A B} (m : M A) (k : A -> M B) :
  fail_fast m -> (forall a, fail_fast (k a)) -> fail_fast (bind m k).
Proof.
  intros Hm Hk h. rewrite bind_run. specialize (Hm h).
  destruct (m h) as [[a | msg | x] es] eqn:E; cbn [fst snd] in *.
  - intros pre e post Eq He. cbn in Eq. symmetry in Eq.
    apply in_app_split in Eq as [[mid [E1 ->]] | [mid [-> E2]]].
    + destruct (Hm pre e mid E1 He) as [_ Hstop].
      now apply stops_with_not_returned in Hstop.
    + apply (Hk a (h ++ es) mid e post E2 He).
  - intros pre e post Eq He. destruct (Hm pre e post Eq He) as [-> Hs].
    split; [reflexivity |].
    apply (stops_with_SysExit e msg Hs).
  - intros pre e post Eq He. destruct (Hm pre e post Eq He) as [-> Hs].
    split; [reflexivity |].
    apply (stops_with_Raised e x Hs).
Qed.

Lemma fail_fast_ret {A} (a : A) : fail_fast (ret a).
Proof. apply fail_fast_quiet, emits_only_ret. Qed.

Lemma fail_fast_raise {A} (e : string) : fail_fast (@raise A e).
Proof. apply fail_fast_quiet, emits_only_raise. Qed.

Lemma fail_fast_emit (e : event) : halting e = false -> fail_fast (emit e).
Proof. intros He. now apply fail_fast_quiet, emits_only_emit. Qed.

(** ** Rules for [returns_unless] *)

Lemma returns_unless_ret {A} H (a : A) : returns_unless H (ret a).
Proof. intros h _. now exists a. Qed.

Lemma returns_unless_emit H (e : event) : returns_unless H (emit e).
Proof. intros h _. now exists tt. Qed.

Lemma returns_unless_bind {A B} H (m : M A) (k : A -> M B) :
  returns_unless H m -> (forall a, returns_unless H (k a)) ->
  returns_unless H (bind m k).
Proof.
  intros Hm Hk h Hq. rewrite bind_run in *. specialize (Hm h).
  destruct (fst (m h)) as [a | msg | x] eqn:E; cbn [fst snd] in *.
  - apply (Hk a). intros e He. apply Hq. apply in_or_app. now right.
  - destruct (Hm Hq) as [a Ha]. discriminate.
  - destruct (Hm Hq) as [a Ha]. discriminate.
Qed.

Lemma returns_unless_weaken {A} (H H' : event -> bool) (m : M A) :
  (forall e, H' e = false -> H e = false) ->
  returns_unless H m -> returns_unless H' m.
Proof.
  intros HH Hm h Hq. apply Hm. intros e He. apply HH, Hq, He.
Qed.

(** When [m] returns unless [H], a run of [bind m k] without [H] went
    through [m] and into [k]. *)
Lemma bind_reaches {A B} H (m : M A) (k : A -> M B) h :
  returns_unless H m ->
  (forall e, In e (snd (bind m k h)) -> H e = false) ->
  exists a, fst (m h) = Returned a /\
            bind m k h = after (snd (m h)) (k a (h ++ snd (m h))).
Proof.
  intros Hm Hq. destruct (bind_events_prefix m k h) as [tl Etl].
  destruct (Hm h) as [a Ha].
  - intros e He. apply Hq. rewrite Etl. apply in_or_app. now left.
  - exists a. split; [exact Ha |]. rewrite bind_run, Ha. reflexivity.
Qed.

(** ** The primitives *)

Section Primitives.

Variable env : environment.

(** What [runcmd] does, by the answer of the world. *)
Lemma runcmd_run (c : proc_call) (h : list event) :
  runcmd env c h =
  (match subprocess_run env h c with
   | Completed rc =>
       let status := {| args := pc_args c; returncode := rc |} in
       if tolerated rc then Returned status
       else SysExit (exit_message status)
   | SpawnError e => Raised e
   end,
   [EvRun c (subprocess_run env h c)]).
Proof.
  unfold runcmd, bind, run, after, ret, sys_exit.
  destruct (subprocess_run env h c) as [rc | e]; cbn; [| reflexivity].
  destruct (tolerated rc); reflexivity.
Qed.

Lemma runcmd_events (c : proc_call) (h : list event) :
  snd (runcmd env c h) = [EvRun c (subprocess_run env h c)].
Proof. now rewrite runcmd_run. Qed.

Lemma runcmd_returned (c : proc_call) (h : list event) status es :
  runcmd env c h = (Returned status, es) ->
  exists rc, subprocess_run env h c = Completed rc /\ tolerated rc = true /\
             status = {| args := pc_args c; returncode := rc |} /\
             es = [EvRun c (Completed rc)].
Proof.
  rewrite runcmd_run.
  destruct (subprocess_run env h c) as [rc | e]; cbn; [| discriminate].
  destruct (tolerated rc) eqn:T; [| discriminate].
  intros E. injection E as <- <-. now exists rc.
Qed.

Lemma tolerated_spec (rc : Z) :
  tolerated rc = true <-> rc = 0 \/ rc = valgrindErrorCode.
Proof. unfold tolerated. rewrite orb_true_iff, !Z.eqb_eq. reflexivity. Qed.

Lemma emits_only_runcmd (P : event -> Prop) (c : proc_call) :
  (forall r, P (EvRun c r)) -> emits_only P (runcmd env c).
Proof. intros HP h. rewrite runcmd_events. auto. Qed.

Lemma fail_fast_runcmd (c : proc_call) : fail_fast (runcmd env c).
Proof.
  intros h pre e post E He. rewrite runcmd_run in *. cbn [fst snd] in *.
  destruct pre as [| e' pre]; cbn in E.
  - injection E as <- <-. split; [reflexivity |]. cbn in *.
    destruct (subprocess_run env h c) as [rc | x]; cbn in *; [| reflexivity].
    destruct (tolerated rc); [discriminate | reflexivity].
  - destruct pre; discriminate.
Qed.

Lemma returns_unless_runcmd H (c : proc_call) :
  (forall r, result_ok r = false -> H (EvRun c r) = true) ->
  returns_unless H (runcmd env c).
Proof.
  intros HH h Hq. rewrite runcmd_run in *. cbn [fst snd] in *.
  specialize (Hq _ (or_introl eq_refl)).
  destruct (subprocess_run env h c) as [rc | x]; cbn in *.
  - destruct (tolerated rc) eqn:T; [eexists; reflexivity |].
    rewrite HH in Hq; [discriminate | exact T].
  - rewrite HH in Hq; [discriminate | reflexivity].
Qed.

Lemma emits_only_open (P : event -> Prop) (p : string) :
  (forall r, P (EvOpen p r)) -> emits_only P (open env p).
Proof.
  intros HP h. unfold open. destruct (open_w env h p); cbn; auto.
Qed.

Lemma fail_fast_open (p : string) : fail_fast (open env p).
Proof.
  intros h pre e post E He. unfold open in *.
  destruct (open_w env h p) as [x |]; cbn [fst snd] in *;
    (destruct pre as [| e' pre]; cbn in E; [| destruct pre; discriminate]);
    injection E as <- <-; cbn in *; [auto | discriminate].
Qed.

Lemma returns_unless_open H (p : string) :
  (forall x, H (EvOpen p (Some x)) = true) ->
  returns_unless H (open env p).
Proof.
  intros HH h Hq. unfold open in *.
  destruct (open_w env h p) as [x |]; cbn [fst snd] in *.
  - specialize (Hq _ (or_introl eq_refl)). now rewrite HH in Hq.
  - eexists; reflexivity.
Qed.

Lemma open_returned (p : string) h f es :
  open env p h = (Returned f, es) -> f = Some p.
Proof.
  unfold open. destruct (open_w env h p); [discriminate |].
  intros E. now injection E as <- _.
Qed.

(** *** os.getcwd *)

(** What follows [os.getcwd()] goes on from the same history with the
    directory the script was started in, unless the working directory is
    gone. *)
Lemma bind_getcwd {B} (k : string -> M B) (h : list event) :
  bind (os_getcwd env) k h =
  if cwd_gone env h then (Raised getcwd_error, [EvGetcwdError getcwd_error])
  else k (initial_cwd env) h.
Proof.
  unfold bind, os_getcwd. destruct (cwd_gone env h); [reflexivity |].
  rewrite app_nil_r. unfold after. cbn. now destruct (k (initial_cwd env) h).
Qed.

Lemma cwd_gone_app (h es : list event) :
  cwd_gone env (h ++ es) = cwd_gone env h || cwd_gone env es.
Proof. apply existsb_app. Qed.

(** Events that are not an [rm] removing the working directory leave it
    as it is. *)
Lemma cwd_gone_kept (h es : list event) :
  Forall (fun e => removes_cwd env e = false) es ->
  cwd_gone env (h ++ es) = cwd_gone env h.
Proof.
  intros Hes. rewrite cwd_gone_app.
  assert (E : cwd_gone env es = false).
  { unfold cwd_gone. induction Hes as [| e es He _ IH]; [reflexivity |].
    cbn. now rewrite He, IH. }
  rewrite E. apply orb_false_r.
Qed.

(** When the working directory is gone, an [rm] that removed it is in
    the history. *)
Lemma cwd_gone_by_rm (h : list event) :
  cwd_gone env h = true ->
  exists c r, In (EvRun c r) h /\ program c = "rm" /\
              rm_removes_cwd env c r = true.
Proof.
  intros H. apply existsb_exists in H as [e [Hin He]].
  destruct e as [c r | | | | | | | |]; try discriminate.
  cbn in He. apply andb_prop in He as [Hp Hr].
  apply String.eqb_eq in Hp. now exists c, r.
Qed.

Lemma emits_only_getcwd {B} (P : event -> Prop) (k : string -> M B) :
  P (EvGetcwdError getcwd_error) ->
  emits_only P (k (initial_cwd env)) ->
  emits_only P (bind (os_getcwd env) k).
Proof.
  intros HP Hk h. rewrite bind_getcwd.
  destruct (cwd_gone env h); [cbn; auto | apply Hk].
Qed.

Lemma fail_fast_getcwd {B} (k : string -> M B) :
  fail_fast (k (initial_cwd env)) -> fail_fast (bind (os_getcwd env) k).
Proof.
  intros Hk h. rewrite bind_getcwd. destruct (cwd_gone env h); [| apply Hk].
  intros pre e post E He. cbn in E.
  destruct pre as [| e' pre]; cbn in E; [| destruct pre; discriminate].
  injection E as <- <-. split; reflexivity.
Qed.

Lemma returns_unless_getcwd {B} H (k : string -> M B) :
  H (EvGetcwdError getcwd_error) = true ->
  returns_unless H (k (initial_cwd env)) ->
  returns_unless H (bind (os_getcwd env) k).
Proof.
  intros HH Hk h Hq. rewrite bind_getcwd in *.
  destruct (cwd_gone env h); [| now apply Hk].
  specialize (Hq _ (or_introl eq_refl)). congruence.
Qed.

Lemma emits_only_path_exists (P : event -> Prop) (p : string) :
  (forall b, P (EvExists p b)) -> emits_only P (path_exists env p).
Proof. intros HP h. cbn. auto. Qed.

Lemma emits_only_rmtree (P : event -> Prop) (p : string) :
  (forall r, P (EvRmtree p r)) -> emits_only P (rmtree env p).
Proof.
  intros HP h. unfold rmtree, fs_op. destruct (shutil_rmtree env h p); cbn; auto.
Qed.

Lemma emits_only_remove (P : event -> Prop) (p : string) :
  (forall r, P (EvRemove p r)) -> emits_only P (remove env p).
Proof.
  intros HP h. unfold remove, fs_op. destruct (os_remove env h p); cbn; auto.
Qed.

End Primitives.

(** ** Failing fast, function by function *)

Ltac fail_fast_step :=
  first
    [ apply fail_fast_ret
    | apply fail_fast_raise
    | apply fail_fast_runcmd
    | apply fail_fast_open
    | apply fail_fast_emit; reflexivity
    | apply fail_fast_getcwd; cbv beta
    | apply fail_fast_bind; [| intros ?]
    | match goal with
      | |- fail_fast (if ?b then _ else _) => destruct b
      | |- fail_fast (match ?x with _ => _ end) => destruct x
      end ].

Ltac emits_only_step :=
  first
    [ apply emits_only_ret
    | apply emits_only_raise
    | apply emits_only_sys_exit
    | apply emits_only_runcmd; intros ?
    | apply emits_only_open; intros ?
    | apply emits_only_path_exists; intros ?
    | apply emits_only_rmtree; intros ?
    | apply emits_only_remove; intros ?
    | apply emits_only_emit
    | apply emits_only_getcwd; cbv beta
    | apply emits_only_bind; [| intros ?]
    | apply emits_only_try_except; [| intros ?]
    | match goal with
      | |- emits_only _ (if ?b then _ else _) => destruct b
      | |- emits_only _ (match ?x with _ => _ end) => destruct x
      end ].

Section FailFast.

Variable env : environment.

(** The file removals never produce a halting event: their errors are
    handled on the spot. *)
Lemma checkAndRemoveFiles_quiet :
  emits_only (fun e => halting e = false) (checkAndRemoveFiles env).
Proof.
  unfold checkAndRemoveFiles, print. repeat emits_only_step; reflexivity.
Qed.

Lemma fail_fast_buildTargets suites outputDir resultsFile debug coverage branch :
  fail_fast (buildTargets env suites outputDir resultsFile debug coverage branch).
Proof. unfold buildTargets, print. repeat fail_fast_step. Qed.

Lemma fail_fast_generateCoverageReport outputDir resultsFile :
  fail_fast (generateCoverageReport env outputDir resultsFile).
Proof. unfold generateCoverageReport. repeat fail_fast_step. Qed.

Lemma fail_fast_runTests_loop suites dl gf od rf xf vg hf :
  fail_fast (runTests_loop env suites dl gf od rf xf vg hf).
Proof.
  revert hf. induction suites as [| [key info] rest IH]; intros hf; cbn.
  - apply fail_fast_ret.
  - unfold print. repeat fail_fast_step; apply IH.
Qed.

Lemma fail_fast_runTests suites dl gf od rf xf vg cov :
  fail_fast (runTests env suites dl gf od rf xf vg cov).
Proof.
  unfold runTests. apply fail_fast_bind.
  - apply fail_fast_runTests_loop.
  - intros hf.
    repeat first [ apply fail_fast_generateCoverageReport | fail_fast_step ].
Qed.

Lemma fail_fast_main (a : Args) : fail_fast (main env a).
Proof.
  unfold main, clean_if_required, get_output_file, build_if_required,
    test_if_required.
  repeat first
    [ apply fail_fast_quiet, checkAndRemoveFiles_quiet
    | apply fail_fast_buildTargets
    | apply fail_fast_runTests
    | fail_fast_step ].
Qed.

End FailFast.

(** ** A failure is the end of the run *)

Lemma failure_is_final {A} (m : M A) (h : list event) (e : event) :
  fail_fast m -> In e (snd (m h)) -> halting e = true ->
  stops_with e (fst (m h)) /\
  exists pre, snd (m h) = pre ++ [e] /\
              Forall (fun e' => halting e' = false) pre.
Proof.
  intros Hff Hin He. apply in_split in Hin as [pre [post E]].
  destruct (Hff h pre e post E He) as [-> Hs]. split; [exact Hs |].
  exists pre. split; [exact E |]. apply Forall_forall. intros e' Hin'.
  destruct (halting e') eqn:He'; [| reflexivity].
  apply in_split in Hin' as [p1 [p2 ->]].
  rewrite <- app_assoc in E. cbn in E.
  destruct (Hff h p1 e' (p2 ++ [e]) E He') as [F _].
  now destruct p2.
Qed.

(** ** The test loop as a relation on traces *)

Section Loop.

Variable env : environment.
Variables (dl : bool) (gf : option string) (od : string).
Variables (rf xf : option string) (vg : bool).

(** A suite is never run by [rm]. *)
Lemma suite_call_keeps_cwd kv r :
  removes_cwd env (EvRun (suite_call env dl gf od rf xf vg kv) r) = false.
Proof.
  unfold removes_cwd, program, suite_call, logged_call, logged_call_in,
    executeCmd.
  cbn [pc_args]. destruct vg; reflexivity.
Qed.

Lemma cwd_kept_by_suite kv r es h :
  Forall (fun e => removes_cwd env e = false) es ->
  cwd_gone env (h ++ EvRun (suite_call env dl gf od rf xf vg kv) r :: es)
  = cwd_gone env h.
Proof.
  intros Hes. apply cwd_gone_kept. constructor; [| exact Hes].
  apply suite_call_keeps_cwd.
Qed.

Lemma runTests_loop_trace suites hf h :
  loop_trace (suite_call env dl gf od rf xf vg) (cwd_gone env h) suites hf
    (fst (runTests_loop env suites dl gf od rf xf vg hf h))
    (snd (runTests_loop env suites dl gf od rf xf vg hf h)).
Proof.
  revert hf h.
  induction suites as [| [key info] rest IH]; intros hf h;
    cbn [runTests_loop].
  - constructor.
  - rewrite bind_getcwd. destruct (cwd_gone env h) eqn:G;
      [apply LoopNoCwd |].
    rewrite bind_run, runcmd_run. cbn [fst snd].
    change (logged_call_in (initial_cwd env)
              (executeCmd env key info dl gf rf xf vg) od rf)
      with (suite_call env dl gf od rf xf vg (key, info)).
    destruct (subprocess_run env h
                (suite_call env dl gf od rf xf vg (key, info))) as [rc | x];
      [| apply LoopSpawnError].
    destruct (tolerated rc) eqn:T; [| now apply LoopExit].
    cbn [returncode].
    apply tolerated_spec in T as [-> | ->].
    + cbn [Z.eqb negb valgrindErrorCode]. rewrite bind_ret_l. apply LoopPass.
      rewrite <- G, <- (cwd_kept_by_suite (key, info) (Completed 0) [] h)
        by constructor.
      apply IH.
    + rewrite Z.eqb_refl. unfold print. rewrite bind_run.
      cbn [emit fst snd after app].
      apply (LoopMemcheck _ (key, info)).
      rewrite <- G,
        <- (cwd_kept_by_suite (key, info) (Completed valgrindErrorCode)
              [valgrind_failed key] h)
        by (repeat constructor).
      rewrite <- app_assoc. apply IH.
Qed.

End Loop.

Section LoopTrace.

Variable call : string * suite_info -> proc_call.

(** With the working directory gone the loop starts nothing. *)
Lemma loop_trace_no_cwd suites hf o es :
  loop_trace call true suites hf o es -> run_events es = [].
Proof. inversion 1; reflexivity. Qed.

Lemma loop_trace_no_cwd_inv kv rest hf o es :
  loop_trace call true (kv :: rest) hf o es ->
  o = Raised getcwd_error /\ es = [EvGetcwdError getcwd_error].
Proof. inversion 1; auto. Qed.

(** With the working directory in place the first suite is started. *)
Lemma loop_trace_first kv rest hf o es :
  loop_trace call false (kv :: rest) hf o es ->
  exists r es', es = EvRun (call kv) r :: es'.
Proof. inversion 1; subst; eexists; eexists; reflexivity. Qed.

(** A process of the loop shows that the working directory was there. *)
Lemma loop_trace_started gone suites hf o es c r :
  loop_trace call gone suites hf o es -> In (EvRun c r) es -> gone = false.
Proof.
  destruct gone; [| reflexivity]. intros Ht Hin.
  inversion Ht; subst; cbn in Hin; [contradiction |].
  destruct Hin as [E | []]. discriminate.
Qed.

(** The loop starts the suites' commands and nothing else, in order. *)
Lemma loop_trace_calls gone suites hf o es :
  loop_trace call gone suites hf o es ->
  exists n : nat,
    (n <= length suites)%nat /\
    run_calls es = map call (firstn n suites) /\
    (is_returned o = true -> n = length suites).
Proof.
  induction 1 as [gone hf | kv rest hf
                  | kv rest hf o es _ [n [Hn [E R]]]
                  | kv rest hf o es _ [n [Hn [E R]]] | kv rest hf rc T
                  | kv rest hf x].
  - exists 0%nat. cbn. auto.
  - exists 0%nat. cbn. repeat split; [lia | discriminate].
  - exists (S n). unfold run_calls in *. cbn. rewrite E.
    repeat split; [lia | intros Ho; now rewrite R].
  - exists (S n). unfold run_calls in *. cbn. rewrite E.
    repeat split; [lia | intros Ho; now rewrite R].
  - exists 1%nat. cbn. repeat split; [lia | discriminate].
  - exists 1%nat. cbn. repeat split; [lia | discriminate].
Qed.

Lemma loop_trace_nth gone suites hf o es i c r :
  loop_trace call gone suites hf o es ->
  nth_error (run_events es) i = Some (c, r) ->
  exists kv, nth_error suites i = Some kv /\ c = call kv.
Proof.
  intros Ht. revert i.
  induction Ht as [gone hf | kv rest hf
                   | kv rest hf o es _ IH | kv rest hf o es _ IH
                   | kv rest hf rc T | kv rest hf x]; intros i E; cbn in E.
  - destruct i; discriminate.
  - destruct i; discriminate.
  - destruct i as [| i]; cbn in *; [| now apply IH].
    injection E as <- _. now exists kv.
  - destruct i as [| i]; cbn in *; [| now apply IH].
    injection E as <- _. now exists kv.
  - destruct i as [| [| i]]; cbn in *; try discriminate.
    injection E as <- _. now exists kv.
  - destruct i as [| [| i]]; cbn in *; try discriminate.
    injection E as <- _. now exists kv.
Qed.

(** Once [hasFailed] is set it stays set. *)
Lemma loop_trace_sticky gone suites o es :
  loop_trace call gone suites true o es -> o <> Returned false.
Proof.
  remember true as hf eqn:Ehf. intros Ht.
  induction Ht; subst; auto; discriminate.
Qed.

(** A suite that ends with a code other than 0 and 101 ends the run. *)
Lemma loop_trace_exit gone suites hf o es i c rc :
  loop_trace call gone suites hf o es ->
  nth_error (run_events es) i = Some (c, Completed rc) ->
  tolerated rc = false ->
  o = SysExit (exit_message {| args := pc_args c; returncode := rc |}) /\
  run_calls es = map call (firstn (S i) suites).
Proof.
  intros Ht. revert i.
  induction Ht as [gone hf | kv rest hf
                   | kv rest hf o es _ IH | kv rest hf o es _ IH
                   | kv rest hf rc' T | kv rest hf x]; intros i E Hrc; cbn in E.
  - destruct i; discriminate.
  - destruct i; discriminate.
  - destruct i as [| i]; cbn in E.
    + injection E as _ <-. discriminate.
    + destruct (IH i E Hrc) as [-> Ec]. split; [reflexivity |].
      unfold run_calls in *. cbn. now rewrite Ec.
  - destruct i as [| i]; cbn in E.
    + injection E as _ <-. discriminate.
    + destruct (IH i E Hrc) as [-> Ec]. split; [reflexivity |].
      unfold run_calls in *. cbn. now rewrite Ec.
  - destruct i as [| [| i]]; cbn in E; try discriminate.
    injection E as <- <-. split; reflexivity.
  - destruct i as [| [| i]]; cbn in E; discriminate.
Qed.

(** A suite that ends with 101 is reported, sets [hasFailed], and is
    followed by the next suite. *)
Lemma loop_trace_memcheck gone suites hf o es i kv c :
  loop_trace call gone suites hf o es ->
  nth_error suites i = Some kv ->
  nth_error (run_events es) i = Some (c, Completed valgrindErrorCode) ->
  In (valgrind_failed (fst kv)) es /\
  o <> Returned false /\
  forall kv', nth_error suites (S i) = Some kv' ->
              exists r', nth_error (run_events es) (S i) = Some (call kv', r').
Proof.
  intros Ht. revert i.
  induction Ht as [gone hf | kv0 rest hf
                   | kv0 rest hf o es Ht IH | kv0 rest hf o es Ht IH
                   | kv0 rest hf rc' T | kv0 rest hf x]; intros i Es E;
    cbn in E.
  - destruct i; discriminate.
  - destruct i; discriminate.
  - destruct i as [| i]; cbn in E, Es.
    + injection E as _ E. discriminate.
    + destruct (IH i Es E) as [Hin [Ho Hnext]].
      split; [now right | split; [exact Ho | exact Hnext]].
  - destruct i as [| i]; cbn in E, Es.
    + injection Es as <-. split; [right; now left |].
      split; [eapply loop_trace_sticky; eassumption |].
      intros kv' Ekv'. cbn in Ekv' |- *.
      inversion Ht; subst; try discriminate; cbn;
        injection Ekv' as <-; eexists; reflexivity.
    + destruct (IH i Es E) as [Hin [Ho Hnext]].
      split; [right; now right | split; [exact Ho | exact Hnext]].
  - destruct i as [| [| i]]; cbn in E; try discriminate.
    injection E as _ ->. discriminate.
  - destruct i as [| [| i]]; cbn in E; discriminate.
Qed.

(** When the loop returns it went through every suite, each ended with 0
    or 101, and [hasFailed] is set exactly when it was set before or some
    suite ended with 101. *)
Lemma loop_trace_returned gone suites hf b es :
  loop_trace call gone suites hf (Returned b) es ->
  run_calls es = map call suites /\
  (forall c r, In (c, r) (run_events es) -> result_ok r = true) /\
  (b = true <->
   hf = true \/ exists c, In (c, Completed valgrindErrorCode) (run_events es)).
Proof.
  remember (Returned b) as o eqn:Eo. intros Ht. revert b Eo.
  induction Ht as [gone hf | kv rest hf
                   | kv rest hf o es _ IH | kv rest hf o es _ IH
                   | kv rest hf rc' T | kv rest hf x]; intros b Eo;
    try discriminate.
  - injection Eo as <-. repeat split; cbn; try tauto.
    intros [-> | [c []]]; reflexivity.
  - destruct (IH b Eo) as [Ec [Hok Hb]]. unfold run_calls in *. cbn.
    rewrite Ec. split; [reflexivity |]. split.
    + intros c r [E | Hin]; [now injection E as _ <- | eauto].
    + rewrite Hb. split; intros [-> | [c Hc]]; auto.
      * right. exists c. now right.
      * destruct Hc as [E | Hc]; [discriminate | right; now exists c].
  - destruct (IH b Eo) as [Ec [Hok Hb]]. unfold run_calls in *. cbn.
    rewrite Ec. split; [reflexivity |]. split.
    + intros c r [E | Hin]; [now injection E as _ <- | eauto].
    + split; intros _.
      * right. exists (call kv). now left.
      * apply Hb. now left.
Qed.

(** The loop prints nothing but the valgrind report of some suite; its
    only other events are the processes of the suites and the error of
    [os.getcwd()]. *)
Lemma loop_trace_events gone suites hf o es :
  loop_trace call gone suites hf o es ->
  Forall (fun e => (exists kv r, In kv suites /\ e = EvRun (call kv) r) \/
                   (exists kv, In kv suites /\ e = valgrind_failed (fst kv)) \/
                   e = EvGetcwdError getcwd_error)
         es.
Proof.
  induction 1 as [gone hf | kv rest hf
                  | kv rest hf o es _ IH | kv rest hf o es _ IH
                  | kv rest hf rc' T | kv rest hf x].
  - constructor.
  - constructor; [| constructor]. right; now right.
  - constructor.
    + left. exists kv, (Completed 0). split; [now left | reflexivity].
    + eapply Forall_impl; [| exact IH].
      intros e [[kv' [r [Hin ->]]] | [[kv' [Hin ->]] | ->]];
        [left; exists kv', r | right; left; exists kv' | right; now right];
        split; auto; now right.
  - constructor; [| constructor].
    + left. exists kv, (Completed valgrindErrorCode).
      split; [now left | reflexivity].
    + right; left. exists kv. split; [now left | reflexivity].
    + eapply Forall_impl; [| exact IH].
      intros e [[kv' [r [Hin ->]]] | [[kv' [Hin ->]] | ->]];
        [left; exists kv', r | right; left; exists kv' | right; now right];
        split; auto; now right.
  - constructor; [| constructor].
    left. exists kv, (Completed rc'). split; [now left | reflexivity].
  - constructor; [| constructor].
    left. exists kv, (SpawnError x). split; [now left | reflexivity].
Qed.

End LoopTrace.

(** ** runTests *)

Lemma run_events_app (es es' : list event) :
  run_events (es ++ es') = run_events es ++ run_events es'.
Proof.
  induction es as [| e es IH]; cbn; [reflexivity |].
  destruct e; cbn; now rewrite ?IH.
Qed.

Lemma run_events_in (es : list event) c r :
  In (c, r) (run_events es) <-> In (EvRun c r) es.
Proof.
  induction es as [| e es IH]; cbn; [tauto |].
  destruct e; cbn; rewrite IH; intuition (try discriminate; congruence).
Qed.

Section RunTests.

Variable env : environment.
Variables (suites : suites_dict) (dl : bool) (gf : option string).
Variables (od : string) (rf xf : option string) (vg cov : bool).

Let call := suite_call env dl gf od rf xf vg.
Let loop := runTests_loop env suites dl gf od rf xf vg false.
Let tests := runTests env suites dl gf od rf xf vg cov.

Lemma loop_sound (h : list event) :
  loop_trace call (cwd_gone env h) suites false (fst (loop h)) (snd (loop h)).
Proof. apply runTests_loop_trace. Qed.

(** [runTests] in terms of what its loop did. *)
Lemma runTests_run (h : list event) :
  tests h =
  match fst (loop h) with
  | Returned true => (Raised aggregate_failure, snd (loop h))
  | Returned false =>
      if cov then
        after (snd (loop h))
              ((_ <- generateCoverageReport env od rf ;; ret tt)
                 (h ++ snd (loop h)))
      else (Returned tt, snd (loop h))
  | SysExit msg => (SysExit msg, snd (loop h))
  | Raised x => (Raised x, snd (loop h))
  end.
Proof.
  subst tests loop. unfold runTests. rewrite bind_run.
  destruct (fst (runTests_loop env suites dl gf od rf xf vg false h))
    as [[|] | msg | x]; try reflexivity.
  - unfold after, raise. cbn. now rewrite app_nil_r.
  - destruct cov; [reflexivity |].
    unfold after, ret. cbn. now rewrite app_nil_r.
Qed.

(** Among the processes of [runTests], the first [length suites] are the
    loop's. *)
Lemma runTests_nth_loop (h : list event) i kv cr :
  nth_error suites i = Some kv ->
  nth_error (run_events (snd (tests h))) i = Some cr ->
  nth_error (run_events (snd (loop h))) i = Some cr.
Proof.
  intros Ekv. rewrite runTests_run.
  pose proof (loop_sound h) as Ht.
  destruct (fst (loop h)) as [[|] | msg | x] eqn:Eo; cbn [snd]; auto.
  destruct cov; cbn [snd]; auto.
  unfold after. cbn [snd]. rewrite run_events_app.
  apply loop_trace_returned in Ht as [Ec _].
  rewrite nth_error_app1; [auto |].
  assert (El : length (run_events (snd (loop h))) = length suites).
  { unfold run_calls in Ec.
    rewrite <- (length_map fst), Ec. apply length_map. }
  rewrite El. apply nth_error_Some. congruence.
Qed.

(** Whenever the loop did not return [false], [runTests] emits what the
    loop emitted and ends as the loop did, the aggregate failure standing
    for [hasFailed]. *)
Lemma runTests_failed (h : list event) :
  fst (loop h) <> Returned false ->
  snd (tests h) = snd (loop h) /\
  is_returned (fst (tests h)) = false /\
  (forall msg, fst (loop h) = SysExit msg -> fst (tests h) = SysExit msg) /\
  (fst (loop h) = Returned true -> fst (tests h) = Raised aggregate_failure).
Proof.
  intros Hne. rewrite runTests_run.
  destruct (fst (loop h)) as [[|] | msg | x]; cbn; try congruence;
    repeat split; auto; try discriminate.
  intros msg' E. now injection E as <-.
Qed.

(** C1. In every run of the test stage: when the command of a suite ends
    with the code reserved for valgrind (101), the suite is reported as
    failed, the run cannot end normally any more, and the next suite is
    started all the same; when it ends with any other non-zero code, the
    run ends there by [sys.exit], the processes started being exactly
    those of the suites up to this one. *)
Theorem runTests_exit_code_policy (h : list event) i key info c rc :
  nth_error suites i = Some (key, info) ->
  nth_error (run_events (snd (runTests env suites dl gf od rf xf vg cov h))) i
  = Some (c, Completed rc) ->
  c = suite_call env dl gf od rf xf vg (key, info) /\
  (rc = valgrindErrorCode ->
     In (valgrind_failed key)
        (snd (runTests env suites dl gf od rf xf vg cov h)) /\
     is_returned (fst (runTests env suites dl gf od rf xf vg cov h)) = false /\
     forall kv', nth_error suites (S i) = Some kv' ->
       exists r',
         nth_error (run_events (snd (runTests env suites dl gf od rf xf vg cov h)))
                   (S i)
         = Some (suite_call env dl gf od rf xf vg kv', r')) /\
  (rc <> 0 -> rc <> valgrindErrorCode ->
     fst (runTests env suites dl gf od rf xf vg cov h)
     = SysExit (exit_message {| args := pc_args c; returncode := rc |}) /\
     run_calls (snd (runTests env suites dl gf od rf xf vg cov h))
     = map (suite_call env dl gf od rf xf vg) (firstn (S i) suites)).
Proof.
  fold tests call. intros Ekv Ei.
  pose proof (loop_sound h) as Ht.
  pose proof (runTests_nth_loop h i _ _ Ekv Ei) as Eloop.
  split; [| split].
  - destruct (loop_trace_nth _ _ _ _ _ _ _ _ _ Ht Eloop) as [kv [E ->]].
    congruence.
  - intros ->.
    destruct (loop_trace_memcheck _ _ _ _ _ _ _ _ _ Ht Ekv Eloop)
      as [Hin [Ho Hnext]].
    destruct (runTests_failed h Ho) as [Es [Hr _]].
    rewrite Es. repeat split; auto.
  - intros H0 H101.
    assert (T : tolerated rc = false).
    { destruct (tolerated rc) eqn:T; [| reflexivity].
      apply tolerated_spec in T as [? | ?]; contradiction. }
    destruct (loop_trace_exit _ _ _ _ _ _ _ _ _ Ht Eloop T) as [Eo Ec].
    assert (Hne : fst (loop h) <> Returned false) by (rewrite Eo; discriminate).
    destruct (runTests_failed h Hne) as [Es [_ [Hx _]]].
    rewrite Es. split; [now apply Hx | exact Ec].
Qed.

End RunTests.

(** ** The command lines *)

Section CommandLines.

Variable env : environment.

Lemma executeCmd_valgrind_no_xml key info dl gf rf x w :
  In w (executeCmd env key info dl gf rf (Some x) true) ->
  is_gtest_output_flag w = false.
Proof.
  unfold executeCmd, AddValgrind. intros H.
  destruct dl, gf, rf; cbn in H;
    repeat (destruct H as [<- | H]; [reflexivity |]); contradiction.
Qed.

Lemma executeCmd_list_tests key info gf rf xf vg :
  In "--gtest_list_tests" (executeCmd env key info true gf rf xf vg) /\
  forall w, In w (executeCmd env key info true gf rf xf vg) ->
            is_gtest_filter_flag w = false.
Proof.
  unfold executeCmd, AddValgrind. split.
  - apply in_or_app. right. right. now left.
  - intros w H.
    destruct vg, xf, rf; cbn in H;
      repeat (destruct H as [<- | H]; [reflexivity |]); contradiction.
Qed.

Lemma program_suite_call dl gf od rf xf vg kv :
  program (suite_call env dl gf od rf xf vg kv) =
  if vg then "valgrind" else "." +++ path (snd kv) +++ suite (snd kv).
Proof. unfold program, suite_call, executeCmd. now destruct vg. Qed.

End CommandLines.

(** ** Which processes a run can start *)

Section Calls.

Variable env : environment.

Lemma calls_only_run (P : proc_call -> Prop) c r :
  P c -> calls_only P (EvRun c r).
Proof. intros HP c' r' E. now injection E as <- _. Qed.

Lemma calls_only_other (P : proc_call -> Prop) e :
  (forall c r, e <> EvRun c r) -> calls_only P e.
Proof. intros Hne c r E. now apply Hne in E. Qed.

Ltac not_a_run := apply calls_only_other; intros ? ?; discriminate.

Lemma checkAndRemoveFiles_calls (P : proc_call -> Prop) :
  emits_only (calls_only P) (checkAndRemoveFiles env).
Proof.
  unfold checkAndRemoveFiles, print. repeat emits_only_step; not_a_run.
Qed.

Lemma buildTargets_calls (a : Args) f :
  emits_only (calls_only (build_call env a))
    (buildTargets env suitesToRun (arg_output a) f (arg_valgrind a)
                  (arg_coverage a) (arg_branch a)).
Proof.
  unfold buildTargets, print.
  repeat emits_only_step; try not_a_run;
    apply calls_only_run; [left | right | right]; reflexivity.
Qed.

Lemma generateCoverageReport_calls od rf :
  emits_only (calls_only coverage_call) (generateCoverageReport env od rf).
Proof.
  unfold generateCoverageReport.
  repeat emits_only_step; try not_a_run;
    apply calls_only_run; unfold coverage_call, coverage_cmds; cbn; tauto.
Qed.

Lemma runTests_loop_calls suites dl gf od rf xf vg hf :
  emits_only
    (calls_only (fun c => exists kv, In kv suites /\
                                     c = suite_call env dl gf od rf xf vg kv))
    (runTests_loop env suites dl gf od rf xf vg hf).
Proof.
  intros h.
  pose proof (runTests_loop_trace env dl gf od rf xf vg suites hf h) as Ht.
  apply loop_trace_events in Ht. eapply Forall_impl; [| exact Ht].
  intros e [[kv [r [Hin ->]]] | [[kv [Hin ->]] | ->]].
  - apply calls_only_run. now exists kv.
  - not_a_run.
  - not_a_run.
Qed.

Lemma runTests_calls (a : Args) f :
  emits_only
    (calls_only (fun c => test_call env a c \/
                          (arg_coverage a = true /\ coverage_call c)))
    (runTests env suitesToRun (arg_listTests a) (arg_googletestFilter a)
              (arg_output a) f (get_xml_file a) (arg_valgrind a)
              (arg_coverage a)).
Proof.
  unfold runTests. apply emits_only_bind.
  - eapply emits_only_weaken; [| apply runTests_loop_calls].
    intros e He c r ->. destruct (He c r eq_refl) as [kv [Hin ->]].
    left. now exists f, kv.
  - intros [|]; [apply emits_only_raise |].
    destruct (arg_coverage a) eqn:Ecov; [| apply emits_only_ret].
    apply emits_only_bind; [| intros; apply emits_only_ret].
    eapply emits_only_weaken; [| apply generateCoverageReport_calls].
    intros e He c r ->. right. split; [reflexivity | now apply (He c r)].
Qed.

(** Every process started by [main] is one its options allow. *)
Lemma main_calls (a : Args) :
  emits_only (calls_only (main_call env a)) (main env a).
Proof.
  unfold main. apply emits_only_bind; [apply emits_only_emit; not_a_run |].
  intros _. apply emits_only_bind.
  - unfold clean_if_required. destruct (arg_clean a) eqn:Ec;
      [| apply emits_only_ret].
    apply emits_only_bind; [apply checkAndRemoveFiles_calls |]. intros _.
    apply emits_only_getcwd; [not_a_run |].
    apply emits_only_bind; [| intros; apply emits_only_ret].
    apply emits_only_runcmd. intros r. apply calls_only_run. left. now split.
  - intros _. apply emits_only_bind.
    + unfold get_output_file. repeat emits_only_step; not_a_run.
    + intros f. apply emits_only_bind.
      * unfold build_if_required. destruct (arg_noBuild a) eqn:Eb; cbn;
          [apply emits_only_ret |].
        eapply emits_only_weaken; [| apply buildTargets_calls].
        intros e He c r ->. right; left. split; [exact Eb |].
        now apply (He c r).
      * intros _. unfold test_if_required.
        destruct (arg_noTest a) eqn:Et; cbn; [apply emits_only_ret |].
        eapply emits_only_weaken; [| apply runTests_calls].
        intros e He c r ->. right; right.
        destruct (He c r eq_refl) as [Ht | [Hc Hcov]]; [left | right]; auto.
Qed.

End Calls.

(** ** Stages, recognised by the program started *)

Section Stages.

Variable env : environment.

Lemma program_build_call a c :
  build_call env a c -> program c = "cmake" \/ program c = "make".
Proof. unfold program. intros [-> | ->]; [left | right]; reflexivity. Qed.

Lemma program_test_call a c :
  test_call env a c -> program c = "valgrind" \/ program c = test_binary.
Proof.
  intros [f [kv [[<- | []] ->]]]. rewrite program_suite_call.
  destruct (arg_valgrind a); [left | right]; reflexivity.
Qed.

Lemma program_coverage_call c :
  coverage_call c -> program c = "lcov" \/ program c = "genhtml".
Proof.
  unfold coverage_call, coverage_cmds, program. cbn.
  intros [<- | [<- | [<- | [<- | [<- | []]]]]]; cbn; auto.
Qed.

Lemma main_call_build_tool a c :
  main_call env a c -> is_build_tool c = true ->
  arg_noBuild a = false /\ build_call env a c.
Proof.
  unfold is_build_tool.
  intros [[_ ->] | [[Hb Hc] | [[_ Hc] | [_ [_ Hc]]]]] H; auto.
  - discriminate.
  - apply program_test_call in Hc as [E | E]; rewrite E in H; discriminate.
  - apply program_coverage_call in Hc as [E | E]; rewrite E in H;
      discriminate.
Qed.

Lemma main_call_test_invocation a c :
  main_call env a c -> is_test_invocation c = true ->
  arg_noTest a = false /\ test_call env a c.
Proof.
  unfold is_test_invocation.
  intros [[_ ->] | [[_ Hc] | [[Ht Hc] | [_ [_ Hc]]]]] H; auto.
  - discriminate.
  - apply program_build_call in Hc as [E | E]; rewrite E in H; discriminate.
  - apply program_coverage_call in Hc as [E | E]; rewrite E in H;
      discriminate.
Qed.

Lemma main_call_coverage_tool a c :
  main_call env a c -> is_coverage_tool c = true ->
  arg_noTest a = false /\ arg_coverage a = true /\ coverage_call c.
Proof.
  unfold is_coverage_tool.
  intros [[_ ->] | [[_ Hc] | [[Ht Hc] | [Ht [Hcov Hc]]]]] H; auto.
  - discriminate.
  - apply program_build_call in Hc as [E | E]; rewrite E in H; discriminate.
  - apply program_test_call in Hc as [E | E]; rewrite E in H; discriminate.
Qed.

(** C5. In every run with both the valgrind and the xml option, no
    invocation of the test binary carries the gtest XML output flag. *)
Theorem valgrind_run_has_no_gtest_xml_flag (a : Args) (name : string) c r w :
  arg_valgrind a = true ->
  arg_xml a = Some name ->
  In (EvRun c r) (snd (run_main env a)) ->
  is_test_invocation c = true ->
  In w (pc_args c) ->
  is_gtest_output_flag w = false.
Proof.
  intros Hv Hx Hin Ht Hw.
  pose proof (main_calls env a [] ) as Hall.
  rewrite Forall_forall in Hall. specialize (Hall _ Hin c r eq_refl).
  destruct (main_call_test_invocation a c Hall Ht) as [_ [f [kv [_ ->]]]].
  unfold suite_call, logged_call, get_xml_file in Hw. cbn in Hw.
  rewrite Hv, Hx in Hw.
  eapply executeCmd_valgrind_no_xml; exact Hw.
Qed.

(** C10. In every run with both the list-tests option and a test filter,
    each invocation of the test binary carries [--gtest_list_tests] and no
    filter flag. *)
Theorem list_tests_overrides_filter (a : Args) (flt : string) c r :
  arg_listTests a = true ->
  arg_googletestFilter a = Some flt ->
  In (EvRun c r) (snd (run_main env a)) ->
  is_test_invocation c = true ->
  In "--gtest_list_tests" (pc_args c) /\
  forall w, In w (pc_args c) -> is_gtest_filter_flag w = false.
Proof.
  intros Hl Hg Hin Ht.
  pose proof (main_calls env a [] ) as Hall.
  rewrite Forall_forall in Hall. specialize (Hall _ Hin c r eq_refl).
  destruct (main_call_test_invocation a c Hall Ht) as [_ [f [kv [_ ->]]]].
  unfold suite_call, logged_call. cbn [pc_args]. rewrite Hl.
  apply executeCmd_list_tests.
Qed.

End Stages.

(** ** buildTargets *)

Lemma int_of_str_str (n : Z) : int_of_str (str n) = Some n.
Proof.
  unfold int_of_str, str. rewrite NilEmpty.isi. cbn. now rewrite DecimalZ.of_to.
Qed.

Section Build.

Variable env : environment.

(** The build stage, event by event.  With the working directory gone
    nothing is started.  Otherwise [cmake] is started; when it does not
    end with 0 or 101 nothing else happens; when it does, the command
    line of [make] is printed and [make] is started. *)
Lemma buildTargets_trace suites od rf dbg cov br h :
  (cwd_gone env h = true /\
   buildTargets env suites od rf dbg cov br h
   = (Raised getcwd_error, [EvGetcwdError getcwd_error]))
  \/
  (cwd_gone env h = false /\
   exists r1,
     (result_ok r1 = false /\
      snd (buildTargets env suites od rf dbg cov br h)
      = [EvRun (configure_call env od cov br) r1] /\
      is_returned (fst (buildTargets env suites od rf dbg cov br h)) = false)
     \/
     (result_ok r1 = true /\
      exists r2,
        snd (buildTargets env suites od rf dbg cov br h)
        = [EvRun (configure_call env od cov br) r1;
           EvPrint ("+ " +++ join " " (makeCmd env suites));
           EvRun (make_call env suites od rf) r2] /\
        (fst (buildTargets env suites od rf dbg cov br h) = Returned tt
         <-> result_ok r2 = true))).
Proof.
  unfold buildTargets. rewrite bind_getcwd.
  destruct (cwd_gone env h) eqn:G; [left; split; reflexivity |].
  right. split; [reflexivity |].
  rewrite bind_run, runcmd_run. cbn [fst snd].
  change {| pc_args := cmakeCmd od cov br; pc_cwd := initial_cwd env;
            pc_stdout := None; pc_stderr_to_stdout := false |}
    with (configure_call env od cov br).
  exists (subprocess_run env h (configure_call env od cov br)).
  destruct (subprocess_run env h (configure_call env od cov br)) as [rc | x];
    [| left; repeat split].
  cbn [result_ok]. destruct (tolerated rc); [| left; repeat split].
  right. split; [reflexivity |].
  unfold print. rewrite bind_run. cbn [emit fst snd after].
  assert (G' : cwd_gone env
                 ((h ++ [EvRun (configure_call env od cov br) (Completed rc)])
                  ++ [EvPrint ("+ " +++ join " " (makeCmd env suites))])
               = false).
  { rewrite <- app_assoc, cwd_gone_kept; [exact G |]. repeat constructor. }
  unfold make_call.
  destruct rf as [f |]; rewrite bind_getcwd, G', bind_run, runcmd_run;
    cbn [fst snd is_some];
    match goal with
    | |- context [subprocess_run env ?hh ?cc] =>
        exists (subprocess_run env hh cc);
        destruct (subprocess_run env hh cc) as [rc' | x'];
        [cbn [result_ok]; destruct (tolerated rc') |]
    end; cbn; (split; [reflexivity |]); split; intros; congruence.
Qed.

(** C8.  Unless the working directory is gone, in which case nothing is
    started, the build stage starts [cmake] first, with the unit-test
    build mode, the raw-format feature and the branch among its flags,
    and the coverage flag exactly when coverage was requested.  When
    [cmake] ends with 0 or 101 the stage starts [make] next and nothing
    after it, with the processor count as job count and the binaries of
    the suites as targets; when [cmake] ends otherwise, it is the only
    process. *)
Theorem buildTargets_commands suites od rf dbg cov br h :
  exists c1 c2 flags jobs,
    pc_args c1 = ["cmake"; "-B"; od] ++ flags /\
    In "-DCMAKE_BUILD_FLAG=UnitTests" flags /\
    In "-DRIALTO_ENABLE_X_RAW=1" flags /\
    In ("-DBUILD_BRANCH=" +++ br) flags /\
    (In "-DCOVERAGE_ENABLED=1" flags <-> cov = true) /\
    pc_args c2 =
      ["make"; "-j" +++ jobs] ++ map (fun kv => suite (snd kv)) suites /\
    int_of_str jobs = Some (cpu_count env) /\
    (cwd_gone env h = true ->
     run_events (snd (buildTargets env suites od rf dbg cov br h)) = []) /\
    (cwd_gone env h = false ->
     exists r1,
       (result_ok r1 = false /\
        run_events (snd (buildTargets env suites od rf dbg cov br h))
        = [(c1, r1)])
       \/
       (result_ok r1 = true /\
        exists r2,
          run_events (snd (buildTargets env suites od rf dbg cov br h))
          = [(c1, r1); (c2, r2)])).
Proof.
  exists (configure_call env od cov br), (make_call env suites od rf),
    (["-DCMAKE_BUILD_FLAG=UnitTests"; "-DRIALTO_ENABLE_X_RAW=1";
      "-DBUILD_BRANCH=" +++ br]
     ++ (if cov then ["-DCOVERAGE_ENABLED=1"] else [])),
    (str (cpu_count env)).
  split; [reflexivity |].
  split; [cbn; auto |]. split; [cbn; auto |]. split; [cbn; auto |].
  split.
  { split.
    - destruct cov; [reflexivity |].
      intros [E | [E | [E | []]]]; discriminate.
    - intros ->. cbn. auto. }
  split; [reflexivity |]. split; [apply int_of_str_str |].
  destruct (buildTargets_trace suites od rf dbg cov br h)
    as [[G E] | [G [r1 [[Hr [E _]] | [Hr [r2 [E _]]]]]]]; rewrite G.
  - split; [intros _; now rewrite E | discriminate].
  - split; [discriminate | intros _]. exists r1. left.
    split; [exact Hr | now rewrite E].
  - split; [discriminate | intros _]. exists r1. right.
    split; [exact Hr |]. exists r2. now rewrite E.
Qed.

End Build.

(** ** What marks a suite as failed *)

Section Marking.

Variable env : environment.

Lemma valgrind_failed_not_command_failed k key rc :
  valgrind_failed k <> command_failed key rc.
Proof. unfold valgrind_failed, command_failed. cbn. discriminate. Qed.

Lemma generateCoverageReport_silent od rf :
  emits_only (fun e => forall s, e <> EvPrint s)
             (generateCoverageReport env od rf).
Proof.
  unfold generateCoverageReport. repeat emits_only_step; discriminate.
Qed.

Lemma runTests_never_reports_command_failed suites dl gf od rf xf vg cov h
      key rc :
  ~ In (command_failed key rc) (snd (runTests env suites dl gf od rf xf vg cov h)).
Proof.
  rewrite runTests_run.
  pose proof (runTests_loop_trace env dl gf od rf xf vg suites false h) as Ht.
  apply loop_trace_events in Ht. rewrite Forall_forall in Ht.
  assert (Hloop : ~ In (command_failed key rc)
                      (snd (runTests_loop env suites dl gf od rf xf vg false h))).
  { intros Hin. destruct (Ht _ Hin) as [[kv [r [_ E]]] | [[kv [_ E]] | E]].
    - discriminate.
    - symmetry in E. now apply valgrind_failed_not_command_failed in E.
    - discriminate. }
  destruct (fst (runTests_loop env suites dl gf od rf xf vg false h))
    as [[|] | msg | x]; cbn [snd]; auto.
  destruct cov; cbn [snd]; auto.
  unfold after. cbn [snd]. intros Hin. apply in_app_or in Hin as [Hin | Hin];
    [auto |].
  rewrite bind_run in Hin.
  pose proof (generateCoverageReport_silent od rf
                (h ++ snd (runTests_loop env suites dl gf od rf xf vg false h)))
    as Hs.
  rewrite Forall_forall in Hs.
  destruct (fst (generateCoverageReport env od rf _)); cbn in Hin;
    try rewrite app_nil_r in Hin; exact (Hs _ Hin _ eq_refl).
Qed.

(** C9. When [runcmd] returns, the return code of the status is 0 or 101.
    Hence the test runner never takes the branch that reports a suite
    failing with another code, and [hasFailed] is set exactly when some
    suite ended with 101. *)
Theorem runcmd_returns_only_tolerated_codes :
  (forall c h status es,
     runcmd env c h = (Returned status, es) ->
     returncode status = 0 \/ returncode status = valgrindErrorCode) /\
  (forall suites dl gf od rf xf vg cov h key rc,
     ~ In (command_failed key rc)
          (snd (runTests env suites dl gf od rf xf vg cov h))) /\
  (forall suites dl gf od rf xf vg h b es,
     runTests_loop env suites dl gf od rf xf vg false h = (Returned b, es) ->
     (b = true <-> exists c, In (EvRun c (Completed valgrindErrorCode)) es)).
Proof.
  split; [| split].
  - intros c h status es E.
    apply runcmd_returned in E as [rc [_ [T [-> _]]]].
    now apply tolerated_spec.
  - intros. apply runTests_never_reports_command_failed.
  - intros suites dl gf od rf xf vg h b es E.
    pose proof (runTests_loop_trace env dl gf od rf xf vg suites false h) as Ht.
    rewrite E in Ht. cbn [fst snd] in Ht.
    apply loop_trace_returned in Ht as [_ [_ Hb]]. rewrite Hb.
    split.
    + intros [F | [c Hc]]; [discriminate |]. exists c.
      now apply run_events_in.
    + intros [c Hc]. right. exists c. now apply run_events_in.
Qed.

End Marking.

(** ** Coverage after the tests *)

(** With the working directory in place, the loop returns when every
    process it started ended with 0 or 101. *)
Lemma loop_trace_all_ok call gone suites hf o es :
  loop_trace call gone suites hf o es ->
  gone = false ->
  (forall c r, In (EvRun c r) es -> result_ok r = true) ->
  exists b, o = Returned b.
Proof.
  induction 1 as [gone hf | kv rest hf
                  | kv rest hf o es _ IH | kv rest hf o es _ IH
                  | kv rest hf rc T | kv rest hf x]; intros G Hok.
  - now exists hf.
  - discriminate.
  - apply IH; [reflexivity |]. intros c r Hin. apply (Hok c r). now right.
  - apply IH; [reflexivity |]. intros c r Hin. apply (Hok c r).
    right. now right.
  - specialize (Hok _ _ (or_introl eq_refl)). cbn in Hok. congruence.
  - specialize (Hok _ _ (or_introl eq_refl)). discriminate.
Qed.

Section Coverage.

Variable env : environment.

Lemma suite_call_not_coverage_tool dl gf od rf xf vg kv :
  is_coverage_tool (suite_call env dl gf od rf xf vg kv) = false.
Proof.
  unfold is_coverage_tool. rewrite program_suite_call.
  destruct vg; reflexivity.
Qed.

Lemma coverage_call_is_coverage_tool c :
  coverage_call c -> is_coverage_tool c = true.
Proof.
  intros H. unfold is_coverage_tool.
  apply program_coverage_call in H as [-> | ->]; reflexivity.
Qed.

(** A suite that ended with a non-zero code keeps the loop from returning
    [false]. *)
Lemma failed_suite_blocks_coverage suites dl gf od rf xf vg h kv rc :
  In (EvRun (suite_call env dl gf od rf xf vg kv) (Completed rc))
     (snd (runTests env suites dl gf od rf xf vg true h)) ->
  rc <> 0 ->
  fst (runTests_loop env suites dl gf od rf xf vg false h) <> Returned false.
Proof.
  intros Hin Hrc Eo. rewrite runTests_run, Eo in Hin.
  unfold after in Hin. cbn [snd] in Hin.
  pose proof (runTests_loop_trace env dl gf od rf xf vg suites false h) as Ht.
  rewrite Eo in Ht. apply loop_trace_returned in Ht as [_ [Hok Hb]].
  apply in_app_or in Hin as [Hin | Hin].
  - apply run_events_in in Hin. pose proof (Hok _ _ Hin) as T. cbn in T.
    apply tolerated_spec in T as [-> | ->]; [contradiction |].
    assert (false = true); [| discriminate].
    apply Hb. right. eexists; exact Hin.
  - pose proof (emits_only_bind (calls_only coverage_call)
                  (generateCoverageReport env od rf) (fun _ => ret tt)
                  (generateCoverageReport_calls env od rf)
                  (fun _ => emits_only_ret _ tt)) as Hc.
    specialize (Hc (h ++ snd (runTests_loop env suites dl gf od rf xf vg false h))).
    rewrite Forall_forall in Hc.
    specialize (Hc _ Hin _ _ eq_refl).
    apply coverage_call_is_coverage_tool in Hc.
    now rewrite suite_call_not_coverage_tool in Hc.
Qed.

(** C6, as the code has it.  In a run of the tests with coverage
    requested, once the command of some suite ended with a non-zero code
    no coverage tool is started and the run does not end normally.  When
    every process ended with a code [runcmd] lets through (so that the
    failures are all by 101), every suite was started and the aggregate
    failure is raised; when the code of the suite is not one of those, the
    run ended at that process by [sys.exit]. *)
Theorem coverage_skipped_when_a_suite_fails suites dl gf od rf xf vg h kv rc :
  In (EvRun (suite_call env dl gf od rf xf vg kv) (Completed rc))
     (snd (runTests env suites dl gf od rf xf vg true h)) ->
  rc <> 0 ->
  (forall c r, In (EvRun c r) (snd (runTests env suites dl gf od rf xf vg true h)) ->
               is_coverage_tool c = false) /\
  is_returned (fst (runTests env suites dl gf od rf xf vg true h)) = false /\
  ((forall c r, In (EvRun c r) (snd (runTests env suites dl gf od rf xf vg true h)) ->
                result_ok r = true) ->
   fst (runTests env suites dl gf od rf xf vg true h) = Raised aggregate_failure /\
   run_calls (snd (runTests env suites dl gf od rf xf vg true h))
   = map (suite_call env dl gf od rf xf vg) suites) /\
  (rc <> valgrindErrorCode ->
   fst (runTests env suites dl gf od rf xf vg true h)
   = SysExit (exit_message
                {| args := pc_args (suite_call env dl gf od rf xf vg kv);
                   returncode := rc |}) /\
   exists pre,
     snd (runTests env suites dl gf od rf xf vg true h)
     = pre ++ [EvRun (suite_call env dl gf od rf xf vg kv) (Completed rc)]).
Proof.
  intros Hin Hrc.
  pose proof (failed_suite_blocks_coverage _ _ _ _ _ _ _ _ _ _ Hin Hrc) as Hne.
  destruct (runTests_failed env suites dl gf od rf xf vg true h Hne)
    as [Es [Hr [_ Hagg]]].
  pose proof (runTests_loop_trace env dl gf od rf xf vg suites false h) as Ht.
  split; [| split; [exact Hr | split]].
  - rewrite Es. intros c r Hc.
    pose proof (runTests_loop_calls env suites dl gf od rf xf vg false h) as Hl.
    rewrite Forall_forall in Hl. destruct (Hl _ Hc c r eq_refl) as [kv' [_ ->]].
    apply suite_call_not_coverage_tool.
  - assert (G : cwd_gone env h = false).
    { rewrite Es in Hin. eapply loop_trace_started; eassumption. }
    rewrite Es. intros Hok.
    destruct (loop_trace_all_ok _ _ _ _ _ _ Ht G Hok) as [b Eb].
    destruct b; [| congruence]. split; [now apply Hagg |].
    rewrite Eb in Ht. now apply loop_trace_returned in Ht as [Ec _].
  - intros H101.
    assert (He : halting (EvRun (suite_call env dl gf od rf xf vg kv)
                                (Completed rc)) = true).
    { cbn. destruct (tolerated rc) eqn:T; [| reflexivity].
      apply tolerated_spec in T as [? | ?]; contradiction. }
    destruct (failure_is_final _ h _
                (fail_fast_runTests env suites dl gf od rf xf vg true) Hin He)
      as [Hs [pre [E _]]].
    split; [exact Hs | now exists pre].
Qed.

End Coverage.

Section Clean.

Variable env : environment.

(** C2, the part that holds as stated: whatever the file system answers,
    [checkAndRemoveFiles] returns, and an error raised by a removal is
    printed. *)
Lemma checkAndRemoveFiles_best_effort (h : list event) :
  fst (checkAndRemoveFiles env h) = Returned tt /\
  forall x,
    (exists p, In (EvRmtree p (Some x)) (snd (checkAndRemoveFiles env h)) \/
               In (EvRemove p (Some x)) (snd (checkAndRemoveFiles env h))) ->
    In (EvPrint ("An error occurred: " +++ x)) (snd (checkAndRemoveFiles env h)).
Proof.
  unfold checkAndRemoveFiles, try_except, bind, path_exists, rmtree, remove,
    fs_op, print, emit, ret, after.
  repeat match goal with
         | |- context [os_path_exists env ?hh ?p] =>
             destruct (os_path_exists env hh p); cbn
         | |- context [shutil_rmtree env ?hh ?p] =>
             destruct (shutil_rmtree env hh p); cbn
         | |- context [os_remove env ?hh ?p] =>
             destruct (os_remove env hh p); cbn
         end;
    (split; [reflexivity |]);
    intros x [p H];
    repeat match goal with
           | H : _ \/ _ |- _ => destruct H
           | H : False |- _ => destruct H
           | H : _ = _ |- _ => (discriminate H || (injection H as <- <-))
           end; tauto.
Qed.

End Clean.

(** ** The stages of main *)

Section MainStages.

Variable env : environment.

Lemma bind_emit {B} (e : event) (k : unit -> M B) h :
  bind (emit e) k h = after [e] (k tt (h ++ [e])).
Proof. reflexivity. Qed.

Lemma main_after_setup (a : Args) h :
  main env a h =
  bind (setup env a)
       (fun f => build_if_required env a f ;;;
                 test_if_required env a f (get_xml_file a)) h.
Proof.
  unfold main, setup. rewrite bind_assoc, !bind_emit. f_equal.
  now rewrite bind_assoc.
Qed.

Lemma main_after_build (a : Args) h :
  main env a h =
  bind (before_tests env a)
       (fun f => test_if_required env a f (get_xml_file a)) h.
Proof.
  rewrite main_after_setup. unfold before_tests. rewrite bind_assoc.
  rewrite !(bind_run (setup env a)).
  destruct (fst (setup env a h)); try reflexivity. f_equal.
  rewrite bind_assoc, !(bind_run (build_if_required env a a0)).
  destruct (fst (build_if_required env a a0 _)); try reflexivity.
  f_equal. now rewrite bind_ret_l.
Qed.

Lemma returns_unless_checkAndRemoveFiles H :
  returns_unless H (checkAndRemoveFiles env).
Proof.
  intros h _. exists tt. apply checkAndRemoveFiles_best_effort.
Qed.

Ltac returns_unless_step :=
  first
    [ apply returns_unless_ret
    | apply returns_unless_emit
    | apply returns_unless_checkAndRemoveFiles
    | apply returns_unless_open; reflexivity
    | apply returns_unless_runcmd; intros r Hr; cbn; now rewrite Hr
    | apply returns_unless_getcwd; [reflexivity | cbv beta]
    | apply returns_unless_bind; [| intros ?]
    | match goal with
      | |- returns_unless _ (if ?b then _ else _) => destruct b
      | |- returns_unless _ (match ?x with _ => _ end) => destruct x
      end ].

Lemma returns_unless_setup (a : Args) :
  returns_unless setup_failure (setup env a).
Proof.
  unfold setup, clean_if_required, get_output_file.
  repeat returns_unless_step.
Qed.

Lemma returns_unless_buildTargets suites od rf dbg cov br :
  returns_unless (fun e => setup_failure e || build_failure e)
                 (buildTargets env suites od rf dbg cov br).
Proof.
  unfold buildTargets, print.
  repeat first
    [ apply returns_unless_runcmd; intros r Hr; cbn; rewrite Hr;
      apply orb_true_r
    | returns_unless_step ].
Qed.

Lemma returns_unless_before_tests (a : Args) :
  returns_unless (fun e => setup_failure e || build_failure e)
                 (before_tests env a).
Proof.
  unfold before_tests. apply returns_unless_bind.
  - eapply returns_unless_weaken; [| apply returns_unless_setup].
    intros e He. now apply orb_false_iff in He.
  - intros f. apply returns_unless_bind; [| intros; apply returns_unless_ret].
    unfold build_if_required. destruct (negb (arg_noBuild a));
      [| apply returns_unless_ret].
    apply returns_unless_buildTargets.
Qed.

Lemma fail_fast_setup (a : Args) : fail_fast (setup env a).
Proof.
  unfold setup, clean_if_required, get_output_file.
  repeat first
    [ apply fail_fast_quiet, checkAndRemoveFiles_quiet
    | fail_fast_step ].
Qed.

Lemma fail_fast_before_tests (a : Args) : fail_fast (before_tests env a).
Proof.
  unfold before_tests, build_if_required.
  repeat first
    [ apply fail_fast_setup
    | apply fail_fast_buildTargets
    | fail_fast_step ].
Qed.

(** The clean stage leaves the working directory in place until [rm]. *)
Lemma checkAndRemoveFiles_keeps_cwd :
  emits_only (fun e => removes_cwd env e = false) (checkAndRemoveFiles env).
Proof.
  unfold checkAndRemoveFiles, print. repeat emits_only_step; reflexivity.
Qed.

End MainStages.

(** ** A run that did not return ended at a failure *)

(** A computation that returns unless [H] and did not return emitted an
    event counted by [H]. *)
Lemma returns_unless_failed {A} H (m : M A) (h : list event) :
  returns_unless H m -> is_returned (fst (m h)) = false ->
  exists e, In e (snd (m h)) /\ H e = true.
Proof.
  intros Hm Hr. destruct (existsb H (snd (m h))) eqn:E.
  - apply existsb_exists in E as [e [Hin He]]. now exists e.
  - destruct (Hm h) as [a Ha]; [| rewrite Ha in Hr; discriminate].
    intros e Hin. destruct (H e) eqn:He; [| reflexivity].
    assert (F : existsb H (snd (m h)) = true)
      by (apply existsb_exists; now exists e).
    congruence.
Qed.

(** When the failures counted by [H] are halting ones, that event is the
    last. *)
Lemma ended_at_failure {A} H (m : M A) (h : list event) :
  returns_unless H m -> fail_fast m ->
  (forall e, H e = true -> halting e = true) ->
  is_returned (fst (m h)) = false ->
  exists pre e, snd (m h) = pre ++ [e] /\ H e = true.
Proof.
  intros Hm Hff HH Hr.
  destruct (returns_unless_failed H m h Hm Hr) as [e [Hin He]].
  destruct (failure_is_final m h e Hff Hin (HH e He)) as [_ [pre [E _]]].
  now exists pre, e.
Qed.

Lemma setup_failure_halting (e : event) :
  setup_failure e = true -> halting e = true.
Proof.
  destruct e as [c r | | | | | | p [x |] | | x]; cbn; try discriminate; auto.
  intros H. now apply andb_prop in H as [_ H].
Qed.

Lemma build_failure_halting (e : event) :
  build_failure e = true -> halting e = true.
Proof.
  destruct e as [c r | | | | | | | |]; cbn; try discriminate.
  intros H. now apply andb_prop in H as [_ H].
Qed.

Lemma before_tests_failure_halting (e : event) :
  setup_failure e || build_failure e = true -> halting e = true.
Proof.
  intros H. apply orb_prop in H as [H | H];
    [now apply setup_failure_halting | now apply build_failure_halting].
Qed.

Section Gates.

Variable env : environment.

Lemma setup_calls (a : Args) :
  emits_only (calls_only (fun c => c = rm_call env a)) (setup env a).
Proof.
  unfold setup, clean_if_required, get_output_file.
  repeat first
    [ eapply emits_only_weaken;
      [| apply (checkAndRemoveFiles_calls env (fun _ => False))];
      intros e He c r ->; now destruct (He c r eq_refl)
    | apply emits_only_runcmd; intros r; now apply calls_only_run
    | apply emits_only_open; intros r; apply calls_only_other; discriminate
    | apply emits_only_emit; apply calls_only_other; discriminate
    | apply emits_only_getcwd;
      [apply calls_only_other; discriminate | cbv beta]
    | apply emits_only_ret
    | apply emits_only_bind; [| intros ?]
    | match goal with
      | |- emits_only _ (if ?b then _ else _) => destruct b
      | |- emits_only _ (match ?x with _ => _ end) => destruct x
      end ].
Qed.

Lemma before_tests_calls (a : Args) :
  emits_only (calls_only (fun c => c = rm_call env a \/ build_call env a c))
             (before_tests env a).
Proof.
  unfold before_tests, build_if_required.
  repeat first
    [ eapply emits_only_weaken; [| apply setup_calls];
      intros e He c r ->; left; now apply (He c r)
    | eapply emits_only_weaken; [| apply buildTargets_calls];
      intros e He c r ->; right; now apply (He c r)
    | apply emits_only_ret
    | apply emits_only_bind; [| intros ?]
    | match goal with
      | |- emits_only _ (if ?b then _ else _) => destruct b
      end ].
Qed.

(** With [noBuild] absent, either a build tool is started or the run
    ended before, at a failure of the clean stage, of the opening of the
    log file or of [os.getcwd()], having started nothing but [rm]. *)
Lemma build_stage_reached (a : Args) :
  arg_noBuild a = false ->
  build_invoked (snd (run_main env a)) \/
  ended_by setup_failure (fun c => program c = "rm") (run_main env a).
Proof.
  intros Hb. unfold run_main. rewrite main_after_setup, bind_run.
  pose proof (setup_calls a []) as Hcalls. rewrite Forall_forall in Hcalls.
  assert (Hrm : forall c r, In (EvRun c r) (snd (setup env a [])) ->
                            program c = "rm").
  { intros c r Hin. now rewrite (Hcalls _ Hin c r eq_refl). }
  destruct (fst (setup env a [])) as [f | msg | x] eqn:Es.
  - unfold after. cbn [fst snd]. unfold build_if_required.
    rewrite Hb. cbn [negb]. rewrite bind_run.
    destruct (buildTargets_trace env suitesToRun (arg_output a) f
                (arg_valgrind a) (arg_coverage a) (arg_branch a)
                ([] ++ snd (setup env a [])))
      as [[G E] | [G [r1 Hr1]]].
    + right. rewrite E. cbn [fst snd]. split; [reflexivity |]. split.
      * now exists (snd (setup env a [])), (EvGetcwdError getcwd_error).
      * intros c r Hin. apply in_app_or in Hin as [Hin | [F | []]];
          [eapply Hrm; exact Hin | discriminate].
    + left. exists (configure_call env (arg_output a) (arg_coverage a)
                                   (arg_branch a)), r1.
      split; [| reflexivity]. apply in_or_app. right.
      match goal with
      | |- In _ (snd match fst ?x with _ => _ end) =>
          assert (Hx : In (EvRun (configure_call env (arg_output a)
                                    (arg_coverage a) (arg_branch a)) r1)
                          (snd x));
          [| destruct (fst x); cbn [snd after]; auto;
             apply in_or_app; now left]
      end.
      destruct Hr1 as [[_ [E _]] | [_ [r2 [E _]]]]; rewrite E; now left.
  - right. cbn [fst snd]. split; [reflexivity |]. split; [| exact Hrm].
    apply (ended_at_failure setup_failure (setup env a) []);
      [apply returns_unless_setup | apply fail_fast_setup
      | apply setup_failure_halting | now rewrite Es].
  - right. cbn [fst snd]. split; [reflexivity |]. split; [| exact Hrm].
    apply (ended_at_failure setup_failure (setup env a) []);
      [apply returns_unless_setup | apply fail_fast_setup
      | apply setup_failure_halting | now rewrite Es].
Qed.

(** With [noTest] absent, either the test binary is started or the run
    ended before, at one of the failures above or at a build tool that
    did not end with 0 or 101, having started nothing but [rm] and the
    build tools. *)
Lemma test_stage_reached (a : Args) :
  arg_noTest a = false ->
  test_invoked (snd (run_main env a)) \/
  ended_by (fun e => setup_failure e || build_failure e)
           (fun c => program c = "rm" \/ is_build_tool c = true)
           (run_main env a).
Proof.
  intros Ht. unfold run_main. rewrite main_after_build, bind_run.
  pose proof (before_tests_calls a []) as Hcalls.
  rewrite Forall_forall in Hcalls.
  assert (Hpre : forall c r, In (EvRun c r) (snd (before_tests env a [])) ->
                             program c = "rm" \/ is_build_tool c = true).
  { intros c r Hin. unfold is_build_tool.
    destruct (Hcalls _ Hin c r eq_refl) as [-> | Hc]; [now left | right].
    apply program_build_call in Hc as [-> | ->]; reflexivity. }
  destruct (fst (before_tests env a [])) as [f | msg | x] eqn:Es.
  - unfold after. cbn [fst snd]. unfold test_if_required.
    rewrite Ht. cbn [negb]. rewrite runTests_run.
    pose proof (runTests_loop_trace env (arg_listTests a)
                  (arg_googletestFilter a) (arg_output a) f (get_xml_file a)
                  (arg_valgrind a) suitesToRun false
                  ([] ++ snd (before_tests env a []))) as Hl.
    destruct (cwd_gone env ([] ++ snd (before_tests env a []))).
    + right. apply loop_trace_no_cwd_inv in Hl as [Eo Ee].
      rewrite Eo, Ee. cbn [fst snd].
      split; [reflexivity |]. split.
      * now exists (snd (before_tests env a [])),
                   (EvGetcwdError getcwd_error).
      * intros c r Hin. apply in_app_or in Hin as [Hin | [F | []]];
          [eapply Hpre; exact Hin | discriminate].
    + left.
      assert (Hin : exists r,
                In (EvRun (suite_call env (arg_listTests a)
                             (arg_googletestFilter a) (arg_output a) f
                             (get_xml_file a) (arg_valgrind a) gst_entry) r)
                   (snd (runTests_loop env suitesToRun (arg_listTests a)
                           (arg_googletestFilter a) (arg_output a) f
                           (get_xml_file a) (arg_valgrind a) false
                           ([] ++ snd (before_tests env a []))))).
      { apply loop_trace_first in Hl as [r [es' ->]]. exists r. now left. }
      destruct Hin as [r Hin].
      exists (suite_call env (arg_listTests a) (arg_googletestFilter a)
                (arg_output a) f (get_xml_file a) (arg_valgrind a) gst_entry),
        r.
      split.
      * apply in_or_app. right.
        destruct (fst (runTests_loop env suitesToRun _ _ _ _ _ _ _ _))
          as [[|] | msg | x]; cbn [snd]; auto.
        destruct (arg_coverage a); cbn [snd after]; auto.
        apply in_or_app. now left.
      * unfold is_test_invocation. rewrite program_suite_call.
        destruct (arg_valgrind a); reflexivity.
  - right. cbn [fst snd]. split; [reflexivity |]. split; [| exact Hpre].
    apply (ended_at_failure _ (before_tests env a) []);
      [apply returns_unless_before_tests | apply fail_fast_before_tests
      | apply before_tests_failure_halting | now rewrite Es].
  - right. cbn [fst snd]. split; [reflexivity |]. split; [| exact Hpre].
    apply (ended_at_failure _ (before_tests env a) []);
      [apply returns_unless_before_tests | apply fail_fast_before_tests
      | apply before_tests_failure_halting | now rewrite Es].
Qed.

Lemma test_if_required_calls (a : Args) f :
  emits_only (calls_only (fun c => test_call env a c \/ coverage_call c))
             (test_if_required env a f (get_xml_file a)).
Proof.
  unfold test_if_required. destruct (negb (arg_noTest a));
    [| apply emits_only_ret].
  eapply emits_only_weaken; [| apply runTests_calls].
  intros e He c r ->. destruct (He c r eq_refl) as [H | [_ H]]; auto.
Qed.

(** The trace of a run splits in two: no test invocation in the first
    part, no build tool in the second. *)
Lemma build_before_test (a : Args) :
  exists l1 l2,
    snd (run_main env a) = l1 ++ l2 /\
    (forall c r, In (EvRun c r) l1 -> is_test_invocation c = false) /\
    (forall c r, In (EvRun c r) l2 -> is_build_tool c = false).
Proof.
  unfold run_main. rewrite main_after_build, bind_run.
  pose proof (before_tests_calls a []) as H1. rewrite Forall_forall in H1.
  exists (snd (before_tests env a [])).
  assert (Hpre : forall c r, In (EvRun c r) (snd (before_tests env a [])) ->
                             is_test_invocation c = false).
  { intros c r Hin. unfold is_test_invocation.
    destruct (H1 _ Hin c r eq_refl) as [-> | Hb]; [reflexivity |].
    apply program_build_call in Hb as [-> | ->]; reflexivity. }
  destruct (fst (before_tests env a [])) as [f | msg | x]; cbn [snd].
  - exists (snd (test_if_required env a f (get_xml_file a)
                    ([] ++ snd (before_tests env a [])))).
    split; [reflexivity |]. split; [exact Hpre |].
    intros c r Hin.
    pose proof (test_if_required_calls a f ([] ++ snd (before_tests env a [])))
      as H2.
    rewrite Forall_forall in H2. unfold is_build_tool.
    destruct (H2 _ Hin c r eq_refl) as [Hc | Hc].
    + apply program_test_call in Hc as [-> | ->]; reflexivity.
    + apply program_coverage_call in Hc as [-> | ->]; reflexivity.
  - exists []. rewrite app_nil_r. repeat split; auto. intros c r [].
  - exists []. rewrite app_nil_r. repeat split; auto. intros c r [].
Qed.

End Gates.

Section MainClaims.

Variable env : environment.

Lemma not_tolerated (rc : Z) :
  rc <> 0 -> rc <> valgrindErrorCode -> tolerated rc = false.
Proof.
  intros H0 H1. destruct (tolerated rc) eqn:T; [| reflexivity].
  apply tolerated_spec in T as [? | ?]; contradiction.
Qed.

(** C7, as the code has it.  A build tool is started only when [noBuild]
    is absent and the test binary only when [noTest] is absent.  With
    [noBuild] absent, either a build tool is started or the run did not
    end normally and stopped before the build: it started no process but
    [rm], and its last event is [rm] not ending with 0 or 101, the log
    file failing to open, or [os.getcwd()] raising because the working
    directory is gone.  With [noTest] absent, either the test binary is
    started or the run did not end normally and stopped before the
    tests: it started no process but [rm], [cmake] and [make], and its
    last event is one of the failures above or a build tool not ending
    with 0 or 101.  Every build-tool process comes before every test
    invocation. *)
Theorem stage_gates (a : Args) :
  (build_invoked (snd (run_main env a)) -> arg_noBuild a = false) /\
  (test_invoked (snd (run_main env a)) -> arg_noTest a = false) /\
  (arg_noBuild a = false ->
   build_invoked (snd (run_main env a)) \/
   ended_by setup_failure (fun c => program c = "rm") (run_main env a)) /\
  (arg_noTest a = false ->
   test_invoked (snd (run_main env a)) \/
   ended_by (fun e => setup_failure e || build_failure e)
            (fun c => program c = "rm" \/ is_build_tool c = true)
            (run_main env a)) /\
  (exists l1 l2,
     snd (run_main env a) = l1 ++ l2 /\
     (forall c r, In (EvRun c r) l1 -> is_test_invocation c = false) /\
     (forall c r, In (EvRun c r) l2 -> is_build_tool c = false)).
Proof.
  pose proof (main_calls env a []) as Hall. rewrite Forall_forall in Hall.
  split; [| split; [| split; [| split]]].
  - intros [c [r [Hin Hc]]].
    now destruct (main_call_build_tool env a c (Hall _ Hin c r eq_refl) Hc).
  - intros [c [r [Hin Hc]]].
    now destruct (main_call_test_invocation env a c (Hall _ Hin c r eq_refl) Hc).
  - apply build_stage_reached.
  - apply test_stage_reached.
  - apply build_before_test.
Qed.

(** C4, as the code has it.  When [cmake] or [make] ends with a code other
    than 0 and 101, the run ends there by [sys.exit]: the process is the
    last event of the run and was not started before. *)
Theorem build_failure_aborts_run (a : Args) c rc :
  In (EvRun c (Completed rc)) (snd (run_main env a)) ->
  is_build_tool c = true ->
  rc <> 0 -> rc <> valgrindErrorCode ->
  build_call env a c /\
  fst (run_main env a)
  = SysExit (exit_message {| args := pc_args c; returncode := rc |}) /\
  exists pre, snd (run_main env a) = pre ++ [EvRun c (Completed rc)] /\
              ~ In (EvRun c (Completed rc)) pre.
Proof.
  intros Hin Hc H0 H1.
  pose proof (main_calls env a []) as Hall. rewrite Forall_forall in Hall.
  split.
  { now destruct (main_call_build_tool env a c (Hall _ Hin c _ eq_refl) Hc). }
  assert (He : halting (EvRun c (Completed rc)) = true).
  { cbn. now rewrite not_tolerated. }
  destruct (failure_is_final (main env a) [] _ (fail_fast_main env a) Hin He)
    as [Hs [pre [E Hpre]]].
  split; [exact Hs |]. exists pre. split; [exact E |].
  intros Hin'. rewrite Forall_forall in Hpre. apply Hpre in Hin'. congruence.
Qed.

(** C2, as the code has it.  In the clean stage the removal of the
    third-party headers and source file always returns, printing the error
    of a removal that raised, and the [rm] command is started whatever
    happened there; but when [rm] does not end with 0 or 101 the run ends
    at that point. *)
Theorem clean_stage_error_policy (a : Args) :
  arg_clean a = true ->
  (forall h,
     fst (checkAndRemoveFiles env h) = Returned tt /\
     forall x,
       (exists p, In (EvRmtree p (Some x)) (snd (checkAndRemoveFiles env h)) \/
                  In (EvRemove p (Some x)) (snd (checkAndRemoveFiles env h))) ->
       In (EvPrint ("An error occurred: " +++ x))
          (snd (checkAndRemoveFiles env h))) /\
  (exists r, In (EvRun (rm_call env a) r) (snd (run_main env a))) /\
  (forall r,
     In (EvRun (rm_call env a) r) (snd (run_main env a)) ->
     result_ok r = false ->
     is_returned (fst (run_main env a)) = false /\
     exists pre, snd (run_main env a) = pre ++ [EvRun (rm_call env a) r]).
Proof.
  intros Hc. split; [apply checkAndRemoveFiles_best_effort |]. split.
  - unfold run_main, main. rewrite bind_emit. unfold after. cbn [snd].
    match goal with
    | |- context [bind ?m ?k ?hh] =>
        destruct (bind_events_prefix m k hh) as [tl ->]
    end.
    unfold clean_if_required. rewrite Hc. rewrite bind_run.
    destruct (checkAndRemoveFiles_best_effort env
                ([] ++ [EvSetenv "RIALTO_SINKS_RANK" "256"])) as [-> _].
    unfold after. cbn [snd].
    rewrite bind_getcwd, cwd_gone_kept
      by apply checkAndRemoveFiles_keeps_cwd.
    cbn [cwd_gone existsb app removes_cwd orb].
    match goal with
    | |- context [bind ?m ?k ?hh] =>
        destruct (bind_events_prefix m k hh) as [tl' ->]
    end.
    rewrite runcmd_events. eexists. right. rewrite !in_app_iff. cbn [In].
    left; right; left; left. reflexivity.
  - intros r Hin Hr.
    assert (He : halting (EvRun (rm_call env a) r) = true)
      by (cbn; now rewrite Hr).
    destruct (failure_is_final (main env a) [] _ (fail_fast_main env a) Hin He)
      as [Hs [pre [E _]]].
    split; [| now exists pre].
    unfold run_main. destruct (fst (main env a [])); [| reflexivity ..].
    now apply stops_with_not_returned in Hs.
Qed.

End MainClaims.

(** ** What the coverage generator can return *)

Lemma returns_only_any {A} (m : M A) : returns_only (fun _ => True) m.
Proof. intros h a _. exact I. Qed.

Lemma returns_only_ret {A} (Q : A -> Prop) (a : A) :
  Q a -> returns_only Q (ret a).
Proof. intros HQ h a' E. cbn in E. now injection E as <-. Qed.

Lemma returns_only_raise {A} (Q : A -> Prop) (e : string) :
  returns_only Q (raise e).
Proof. intros h a E. discriminate. Qed.

Lemma returns_only_bind {A B} (Q1 : A -> Prop) (Q : B -> Prop)
      (m : M A) (k : A -> M B) :
  returns_only Q1 m -> (forall a, Q1 a -> returns_only Q (k a)) ->
  returns_only Q (bind m k).
Proof.
  intros Hm Hk h b. rewrite bind_run. specialize (Hm h).
  destruct (fst (m h)) as [a | msg | x]; cbn; try discriminate.
  apply (Hk a (Hm a eq_refl)).
Qed.

Lemma returns_only_open (env : environment) (p : string) :
  returns_only (fun f => f = Some p) (open env p).
Proof.
  intros h f. destruct (open env p h) as [o es] eqn:E. cbn. intros ->.
  now apply open_returned in E.
Qed.

Lemma returns_unless_bind_returned {A B} H (Q : A -> Prop)
      (m : M A) (k : A -> M B) :
  returns_only Q m -> returns_unless H m ->
  (forall a, Q a -> returns_unless H (k a)) ->
  returns_unless H (bind m k).
Proof.
  intros HQ Hm Hk h Hq. rewrite bind_run in *. specialize (Hm h).
  specialize (HQ h).
  destruct (fst (m h)) as [a | msg | x] eqn:E; cbn [fst snd] in *.
  - apply (Hk a (HQ a eq_refl)). intros e He. apply Hq.
    apply in_or_app. now right.
  - destruct (Hm Hq) as [a Ha]. discriminate.
  - destruct (Hm Hq) as [a Ha]. discriminate.
Qed.

(** The generator never returns [False]: the statuses it tests are
    truthy, so none of its [return False] is taken. *)
Lemma generateCoverageReport_never_False (env : environment) od rf :
  returns_only (fun v => v <> PyFalse) (generateCoverageReport env od rf).
Proof.
  unfold generateCoverageReport.
  do 9 (apply (returns_only_bind (fun _ => True));
        [apply returns_only_any |]; intros ? _; cbn [truthy negb]).
  eapply returns_only_bind; [apply returns_only_open |]. intros f ->.
  apply (returns_only_bind (fun v => v <> PyFalse)).
  - do 2 (apply (returns_only_bind (fun _ => True));
          [apply returns_only_any |]; intros ? _).
    apply returns_only_ret. discriminate.
  - intros v Hv. apply (returns_only_bind (fun _ => True));
      [apply returns_only_any |].
    intros _ _. apply returns_only_ret. exact Hv.
Qed.

(** ** The steps of the coverage generator *)

Lemma open_run (env : environment) (p : string) (h : list event) :
  open env p h =
  (match open_w env h p with
   | None => Returned (Some p)
   | Some x => Raised x
   end,
   [EvOpen p (open_w env h p)]).
Proof. unfold open. now destruct (open_w env h p). Qed.

(** One step through the generator: the answer of the world to the next
    [os.getcwd()], [runcmd] or [open], case by case. *)
Ltac coverage_step :=
  first
    [ rewrite bind_getcwd;
      match goal with
      | |- context [cwd_gone ?e ?hh] => destruct (cwd_gone e hh)
      end
    | rewrite bind_run, runcmd_run; cbn [fst snd];
      match goal with
      | |- context [subprocess_run ?e ?hh ?cc] =>
          let T := fresh "T" in
          destruct (subprocess_run e hh cc) as [? | ?];
          [match goal with
           | |- context [tolerated ?rc] => destruct (tolerated rc) eqn:T
           end |]
      end; cbn [truthy negb fst snd after]
    | rewrite bind_run, open_run; cbn [fst snd];
      match goal with
      | |- context [open_w ?e ?hh ?pp] => destruct (open_w e hh pp)
      end; cbn [fst snd after] ].

Section CoverageSteps.

Variable env : environment.

(** The generator starts its commands in order and stops only after one
    of them, or where [os.getcwd()] or the opening of the statistics file
    raises. *)
Lemma generateCoverageReport_run_calls od rf h :
  exists n : nat,
    run_calls (snd (generateCoverageReport env od rf h))
    = firstn n (coverage_calls env od rf).
Proof.
  unfold generateCoverageReport, coverage_calls, logged_call.
  do 9 (coverage_step;
        try (exists 0%nat; reflexivity);
        try (exists 1%nat; reflexivity); try (exists 2%nat; reflexivity);
        try (exists 3%nat; reflexivity); try (exists 4%nat; reflexivity)).
  coverage_step; [exists 4%nat; reflexivity |].
  rewrite bind_run. coverage_step; [exists 4%nat; reflexivity |].
  coverage_step; exists 5%nat; reflexivity.
Qed.

Lemma returns_unless_generateCoverageReport od rf :
  returns_unless halting (generateCoverageReport env od rf).
Proof.
  unfold generateCoverageReport.
  do 4 (apply returns_unless_getcwd; [reflexivity | cbv beta];
        apply returns_unless_bind;
        [apply returns_unless_runcmd; intros r Hr; cbn; now rewrite Hr |];
        intros ?; cbn [truthy negb]).
  apply returns_unless_getcwd; [reflexivity | cbv beta].
  eapply returns_unless_bind_returned;
    [apply returns_only_open | apply returns_unless_open; reflexivity |].
  intros f ->.
  repeat first
    [ apply returns_unless_ret
    | apply returns_unless_emit
    | apply returns_unless_runcmd; intros r Hr; cbn; now rewrite Hr
    | apply returns_unless_getcwd; [reflexivity | cbv beta]
    | apply returns_unless_bind; [| intros ?] ].
Qed.

(** When the generator returns it has started its five commands. *)
Lemma generateCoverageReport_returned_calls od rf h :
  is_returned (fst (generateCoverageReport env od rf h)) = true ->
  run_calls (snd (generateCoverageReport env od rf h))
  = coverage_calls env od rf.
Proof.
  unfold generateCoverageReport, coverage_calls, logged_call.
  do 9 (coverage_step; try (cbn; discriminate)).
  coverage_step; [cbn; discriminate |].
  rewrite bind_run. coverage_step; [cbn; discriminate |].
  coverage_step; try (cbn; discriminate).
  intros _. reflexivity.
Qed.

(** C3, as the code has it.  The generator never returns [False].  The
    processes it starts are its five commands in their order, up to some
    point.  A command that does not end with 0 or 101 is the last event,
    nothing before it having failed, and the process ends there by
    [sys.exit].  When nothing fails (every command ends with 0 or 101,
    the statistics file opens and [os.getcwd()] does not raise) the
    generator returns, having started all five commands. *)
Theorem coverage_steps_fail_fast od rf h :
  fst (generateCoverageReport env od rf h) <> Returned PyFalse /\
  (exists n : nat,
     run_calls (snd (generateCoverageReport env od rf h))
     = firstn n (coverage_calls env od rf)) /\
  (forall c rc,
     In (EvRun c (Completed rc)) (snd (generateCoverageReport env od rf h)) ->
     tolerated rc = false ->
     fst (generateCoverageReport env od rf h)
     = SysExit (exit_message {| args := pc_args c; returncode := rc |}) /\
     exists pre,
       snd (generateCoverageReport env od rf h)
       = pre ++ [EvRun c (Completed rc)] /\
       Forall (fun e => halting e = false) pre) /\
  ((forall e, In e (snd (generateCoverageReport env od rf h)) ->
              halting e = false) ->
   is_returned (fst (generateCoverageReport env od rf h)) = true /\
   run_calls (snd (generateCoverageReport env od rf h))
   = coverage_calls env od rf).
Proof.
  split; [| split; [| split]].
  - intros F.
    now apply (generateCoverageReport_never_False env od rf h PyFalse F).
  - apply generateCoverageReport_run_calls.
  - intros c rc Hin T.
    assert (He : halting (EvRun c (Completed rc)) = true)
      by (cbn; now rewrite T).
    destruct (failure_is_final _ h _
                (fail_fast_generateCoverageReport env od rf) Hin He)
      as [Hs [pre [E Hpre]]].
    split; [exact Hs | now exists pre].
  - intros Hq.
    destruct (returns_unless_generateCoverageReport od rf h Hq) as [v Ev].
    assert (Hr : is_returned (fst (generateCoverageReport env od rf h)) = true)
      by now rewrite Ev.
    split; [exact Hr | now apply generateCoverageReport_returned_calls].
Qed.

End CoverageSteps.

(** ** The claims on concrete runs *)

(** C1 on a run over two suites, without coverage: the first suite ends
    with 101 and is reported, the second ends with 3 and ends the run. *)
Lemma runTests_exit_code_policy_witness :
  In (valgrind_failed "gst")
     (snd (runTests (machine (exit_code_of [(test_binary, 101);
                                            ("./tests/client/ClientUnitTests", 3)]))
                    two_suites false None "build" None None false false []))
  /\
  run_calls
    (snd (runTests (machine (exit_code_of [(test_binary, 101);
                                           ("./tests/client/ClientUnitTests", 3)]))
                   two_suites false None "build" None None false false []))
  = map (suite_call (machine (exit_code_of [(test_binary, 101);
                                            ("./tests/client/ClientUnitTests", 3)]))
                    false None "build" None None false)
        (firstn 2 two_suites).
Proof.
  split.
  - refine (proj1 (proj1 (proj2
      (runTests_exit_code_policy
         (machine (exit_code_of [(test_binary, 101);
                                 ("./tests/client/ClientUnitTests", 3)]))
         two_suites false None "build" None None false false [] 0
         "gst" (snd gst_entry) _ 101 _ _)) _)); reflexivity.
  - refine (proj2 (proj2 (proj2
      (runTests_exit_code_policy
         (machine (exit_code_of [(test_binary, 101);
                                 ("./tests/client/ClientUnitTests", 3)]))
         two_suites false None "build" None None false false [] 1
         "client" {| suite := "ClientUnitTests"; path := "/tests/client/" |}
         _ 3 _ _)) _ _)); (reflexivity || discriminate).
Defined.

(** C2 refuted as stated: with [--clean], when [rm] ends with code 1 the
    run ends there by [sys.exit], and neither the build nor the tests are
    started. *)
Lemma clean_rm_failure_ends_run :
  fst (run_main (machine (exit_code_of [("rm", 1)])) clean_args)
  = SysExit (exit_message
               {| args := pc_args (rm_call (machine (exit_code_of [("rm", 1)]))
                                           clean_args);
                  returncode := 1 |})
  /\
  run_calls (snd (run_main (machine (exit_code_of [("rm", 1)])) clean_args))
  = [rm_call (machine (exit_code_of [("rm", 1)])) clean_args].
Proof. split; reflexivity. Qed.

(** C2 on a run with [--clean] where removing the include directory is
    denied: the error is printed and [rm] is started all the same. *)
Lemma clean_stage_error_policy_witness :
  In (EvPrint "An error occurred: [Errno 13] Permission denied")
     (snd (checkAndRemoveFiles (machine_rmtree_denied (fun _ => 0)) []))
  /\
  exists r,
    In (EvRun (rm_call (machine_rmtree_denied (fun _ => 0)) clean_args) r)
       (snd (run_main (machine_rmtree_denied (fun _ => 0)) clean_args)).
Proof.
  split.
  - apply (proj2 (proj1 (clean_stage_error_policy
                           (machine_rmtree_denied (fun _ => 0)) clean_args
                           eq_refl) [])).
    exists "tests/third-party/include". left. cbn. tauto.
  - exact (proj1 (proj2 (clean_stage_error_policy
                           (machine_rmtree_denied (fun _ => 0)) clean_args
                           eq_refl))).
Defined.

(** C4 refuted as stated: when [cmake] ends with the non-zero code 101 the
    run goes on with [make] and the tests, and ends normally. *)
Lemma cmake_exit_101_does_not_abort :
  fst (run_main (machine (exit_code_of [("cmake", 101)])) default_args)
  = Returned tt
  /\
  map (fun cr => (program (fst cr), snd cr))
      (run_events
         (snd (run_main (machine (exit_code_of [("cmake", 101)])) default_args)))
  = [("cmake", Completed 101); ("make", Completed 0);
     (test_binary, Completed 0)].
Proof. split; reflexivity. Qed.

(** C4 on a run where [cmake] ends with code 2. *)
Lemma build_failure_aborts_run_witness :
  fst (run_main (machine (exit_code_of [("cmake", 2)])) default_args)
  = SysExit (exit_message
               {| args := cmakeCmd "build" false EmptyString;
                  returncode := 2 |}).
Proof.
  refine (proj1 (proj2
    (build_failure_aborts_run (machine (exit_code_of [("cmake", 2)]))
       default_args
       (cmake_call (machine (exit_code_of [("cmake", 2)])) default_args)
       2 _ _ _ _))).
  - cbn. tauto.
  - reflexivity.
  - discriminate.
  - discriminate.
Defined.

(** C5 on a run with [--valgrind --xml]: the words of the valgrind
    invocation, none of which is the gtest XML output flag. *)
Lemma valgrind_run_has_no_gtest_xml_flag_witness :
  Forall (fun w => is_gtest_output_flag w = false)
         (pc_args (suite_call (machine (fun _ => 0)) false None "build" None
                              (Some "gtest_result.xml") true gst_entry)).
Proof.
  apply Forall_forall. intros w Hw.
  refine (valgrind_run_has_no_gtest_xml_flag (machine (fun _ => 0))
            valgrind_xml_args EmptyString
            (suite_call (machine (fun _ => 0)) false None "build" None
                        (Some "gtest_result.xml") true gst_entry)
            (Completed 0) w _ _ _ _ Hw).
  - reflexivity.
  - reflexivity.
  - cbn. tauto.
  - reflexivity.
Defined.

(** C10 on a run with [--listTests --googletestFilter Foo*]. *)
Lemma list_tests_overrides_filter_witness :
  In "--gtest_list_tests"
     (pc_args (suite_call (machine (fun _ => 0)) true (Some "Foo*") "build"
                          None None false gst_entry))
  /\
  forall w,
    In w (pc_args (suite_call (machine (fun _ => 0)) true (Some "Foo*")
                              "build" None None false gst_entry)) ->
    is_gtest_filter_flag w = false.
Proof.
  refine (list_tests_overrides_filter (machine (fun _ => 0))
            list_filter_args "Foo*"
            (suite_call (machine (fun _ => 0)) true (Some "Foo*") "build"
                        None None false gst_entry)
            (Completed 0) _ _ _ _).
  - reflexivity.
  - reflexivity.
  - cbn. tauto.
  - reflexivity.
Defined.

(** C6 refuted as stated: with [--coverage], when the test binary ends
    with code 1 no aggregate failure is raised; the run ends by
    [sys.exit] at that process. *)
Lemma hard_failure_is_not_aggregate :
  fst (run_main (machine (exit_code_of [(test_binary, 1)])) coverage_args)
  = SysExit (exit_message {| args := [test_binary]; returncode := 1 |})
  /\
  map (fun cr => (program (fst cr), snd cr))
      (run_events
         (snd (run_main (machine (exit_code_of [(test_binary, 1)]))
                        coverage_args)))
  = [("cmake", Completed 0); ("make", Completed 0);
     (test_binary, Completed 1)].
Proof. split; reflexivity. Qed.

(** C6 on a run of the tests with coverage where the suite ends with 101:
    the aggregate failure is raised and no coverage tool is started. *)
Lemma coverage_skipped_when_a_suite_fails_witness :
  fst (runTests (machine (exit_code_of [(test_binary, 101)])) suitesToRun
                false None "build" None None false true [])
  = Raised aggregate_failure
  /\
  forall c r,
    In (EvRun c r)
       (snd (runTests (machine (exit_code_of [(test_binary, 101)]))
                      suitesToRun false None "build" None None false true [])) ->
    is_coverage_tool c = false.
Proof.
  pose proof (coverage_skipped_when_a_suite_fails
                (machine (exit_code_of [(test_binary, 101)])) suitesToRun
                false None "build" None None false [] gst_entry 101) as H.
  destruct H as [Hcov [_ [Hagg _]]].
  - cbn. tauto.
  - discriminate.
  - split; [| exact Hcov].
    apply Hagg. intros c r Hin. cbn in Hin.
    destruct Hin as [E | [E | []]]; [| discriminate].
    injection E as _ <-. reflexivity.
Defined.

(** C7 refuted as stated: with no option, when [cmake] ends with code 2
    the test stage is not entered although [noTest] is absent. *)
Lemma build_failure_skips_tests :
  arg_noTest default_args = false
  /\
  run_calls (snd (run_main (machine (exit_code_of [("cmake", 2)])) default_args))
  = [cmake_call (machine (exit_code_of [("cmake", 2)])) default_args]
  /\
  existsb is_test_invocation
    (run_calls
       (snd (run_main (machine (exit_code_of [("cmake", 2)])) default_args)))
  = false.
Proof. repeat split; reflexivity. Qed.

(** C7 on a run with no option where every tool ends with 0: both stages
    are entered. *)
Lemma stage_gates_witness :
  build_invoked (snd (run_main (machine (fun _ => 0)) default_args)) /\
  test_invoked (snd (run_main (machine (fun _ => 0)) default_args)).
Proof.
  pose proof (stage_gates (machine (fun _ => 0)) default_args)
    as [_ [_ [Hb [Ht _]]]].
  split.
  - destruct (Hb eq_refl) as [H | [F _]];
      [exact H | vm_compute in F; discriminate F].
  - destruct (Ht eq_refl) as [H | [F _]];
      [exact H | vm_compute in F; discriminate F].
Defined.

(** The clean stage asked to delete the working directory: [rm] ends
    with 0, [os.getcwd()] raises where the build stage calls it, and
    neither a build tool nor the test binary is started. *)
Lemma clean_of_working_directory_ends_run :
  run_main (machine_cwd_removed (fun _ => 0)) clean_cwd_args
  = (Raised getcwd_error,
     [EvSetenv "RIALTO_SINKS_RANK" "256";
      EvExists includeDirs true;
      EvPrint ("Removing files within: " +++ includeDirs);
      EvRmtree includeDirs None;
      EvExists sourceFile true;
      EvPrint ("Removing file: " +++ sourceFile);
      EvRemove sourceFile None;
      EvRun (rm_call (machine_cwd_removed (fun _ => 0)) clean_cwd_args)
            (Completed 0);
      EvGetcwdError getcwd_error]).
Proof. reflexivity. Qed.

(** C8 on a machine with eight processors where every tool ends with 0,
    coverage being requested: [cmake] is started with the coverage flag,
    then [make -j8 GstRialtoUnitTests]. *)
Lemma buildTargets_commands_witness :
  exists c1 c2 jobs r1 r2,
    run_events (snd (buildTargets (machine (fun _ => 0)) suitesToRun "build"
                                  None false true "main" []))
    = [(c1, r1); (c2, r2)] /\
    In "-DCOVERAGE_ENABLED=1" (pc_args c1) /\
    pc_args c2 = ["make"; "-j" +++ jobs; "GstRialtoUnitTests"] /\
    int_of_str jobs = Some 8.
Proof.
  destruct (buildTargets_commands (machine (fun _ => 0)) suitesToRun "build"
              None false true "main" [])
    as [c1 [c2 [flags [jobs [E1 [_ [_ [_ [Hcov [E2 [Hj [_ Hrun]]]]]]]]]]]].
  destruct (Hrun eq_refl) as [r1 [[_ E] | [_ [r2 E]]]].
  - vm_compute in E. discriminate E.
  - exists c1, c2, jobs, r1, r2. split; [exact E |]. split.
    + rewrite E1. do 3 right. now apply Hcov.
    + split; [exact E2 | exact Hj].
Defined.

(** C9 on a process that ends with 101: [runcmd] returns its status. *)
Lemma runcmd_returns_only_tolerated_codes_witness :
  returncode {| args := ["valgrind"]; returncode := 101 |} = 0 \/
  returncode {| args := ["valgrind"]; returncode := 101 |} = valgrindErrorCode.
Proof.
  refine (proj1 (runcmd_returns_only_tolerated_codes (machine (fun _ => 101)))
            {| pc_args := ["valgrind"]; pc_cwd := "/"; pc_stdout := None;
               pc_stderr_to_stdout := true |}
            [] _ _ _).
  reflexivity.
Defined.

(** C3 refuted as stated: when the first [lcov] ends with code 1 the
    generator does not return [False]; the process ends by [sys.exit]
    after that single command. *)
Lemma coverage_step_failure_exits :
  generateCoverageReport (machine (exit_code_of [("lcov", 1)])) "build" None []
  = (SysExit (exit_message {| args := lcovBaseCmd; returncode := 1 |}),
     [EvRun (logged_call (machine (exit_code_of [("lcov", 1)]))
                         lcovBaseCmd "build" None)
            (Completed 1)]).
Proof. reflexivity. Qed.

(** C3 on the same run. *)
Lemma coverage_steps_fail_fast_witness :
  fst (generateCoverageReport (machine (exit_code_of [("lcov", 1)]))
                              "build" None [])
  = SysExit (exit_message {| args := lcovBaseCmd; returncode := 1 |}).
Proof.
  refine (proj1
    (proj1 (proj2 (proj2
      (coverage_steps_fail_fast (machine (exit_code_of [("lcov", 1)]))
         "build" None [])))
       (logged_call (machine (exit_code_of [("lcov", 1)])) lcovBaseCmd
                    "build" None)
       1 _ _)).
  - cbn. tauto.
  - reflexivity.
Defined.

(** * Further properties of the script *)

(** ** AddValgrind and the command line of a suite *)

Lemma startswith_empty (s : string) : String.prefix EmptyString s = true.
Proof. now destruct s. Qed.

Section ValgrindCommand.

Variable env : environment.

(** X1. The valgrind command starts with [valgrind], ends with the
    suppressions file beside the script, and asks for the exit code that
    [runcmd] lets through.  Its report goes to one place at most: to the
    XML file of the suite when XML output is wanted, else to the log file
    of the suite when a results file is in use, else nowhere. *)
Theorem AddValgrind_output_mode (key : string) (toFile toXml : bool) :
  hd_error (AddValgrind env key toFile toXml) = Some "valgrind" /\
  last (AddValgrind env key toFile toXml) EmptyString
  = "--suppressions=" +++ script_dir env +++ "/" +++ valgrindIgnore /\
  (exists code,
     In ("--error-exitcode=" +++ code) (AddValgrind env key toFile toXml) /\
     int_of_str code = Some valgrindErrorCode /\
     tolerated valgrindErrorCode = true) /\
  existsb is_valgrind_xml_flag (AddValgrind env key toFile toXml) = toXml /\
  existsb is_valgrind_log_flag (AddValgrind env key toFile toXml)
  = toFile && negb toXml /\
  (toXml = true ->
   In "--xml=yes" (AddValgrind env key toFile toXml) /\
   In ("--xml-file=" +++ key +++ "_" +++ valgrindOutput +++ ".xml")
      (AddValgrind env key toFile toXml)) /\
  (toXml = false -> toFile = true ->
   In ("--log-file=" +++ key +++ "_" +++ valgrindOutput +++ ".log")
      (AddValgrind env key toFile toXml)).
Proof.
  unfold AddValgrind. split; [reflexivity |]. split.
  { destruct toXml, toFile; reflexivity. }
  split.
  { exists (str valgrindErrorCode).
    split; [cbn [app In]; do 5 right; now left |].
    split; [apply int_of_str_str | reflexivity]. }
  split; [destruct toXml, toFile; reflexivity |].
  split.
  { destruct toXml, toFile; try reflexivity.
    unfold is_valgrind_log_flag, startswith. cbn.
    now rewrite startswith_empty. }
  split.
  - intros ->. cbn [app In]. split.
    + do 6 right. now left.
    + do 7 right. now left.
  - intros -> ->. cbn [app In]. do 6 right. now left.
Qed.

(** No word of the valgrind command is a googletest flag. *)
Lemma AddValgrind_no_gtest_flag key toFile toXml w :
  In w (AddValgrind env key toFile toXml) -> is_gtest_flag w = false.
Proof.
  unfold AddValgrind. intros H.
  destruct toXml, toFile; cbn in H;
    repeat (destruct H as [<- | H]; [reflexivity |]); contradiction.
Qed.

(** X2. The command line of a suite is, in this order: the valgrind
    command when valgrind is wanted (nothing otherwise), the test binary,
    and at most two googletest flags.  So every googletest flag comes
    after the binary, and nothing before the binary is one. *)
Theorem executeCmd_layout key info dl gf rf xf vg :
  exists gtest,
    executeCmd env key info dl gf rf xf vg
    = (if vg then AddValgrind env key (is_some rf) (is_some xf) else [])
      ++ ("." +++ path info +++ suite info) :: gtest /\
    (length gtest <= 2)%nat /\
    (forall w, In w gtest -> is_gtest_flag w = true) /\
    is_gtest_flag ("." +++ path info +++ suite info) = false /\
    (forall w,
       In w (if vg then AddValgrind env key (is_some rf) (is_some xf) else []) ->
       is_gtest_flag w = false).
Proof.
  unfold executeCmd.
  eexists. split; [reflexivity |]. split; [| split; [| split]].
  - destruct dl, gf, xf, vg; cbn; lia.
  - intros w H.
    destruct dl, gf, xf, vg; cbn in H;
      repeat (destruct H as [<- | H]; [reflexivity |]); contradiction.
  - reflexivity.
  - intros w H. destruct vg; [| contradiction].
    eapply AddValgrind_no_gtest_flag; exact H.
Qed.

End ValgrindCommand.

(** ** The googletest flags of a run *)

Section GtestFlags.

Variable env : environment.

Lemma executeCmd_list_tests_iff key info dl gf rf xf vg :
  In "--gtest_list_tests" (executeCmd env key info dl gf rf xf vg)
  <-> dl = true.
Proof.
  unfold executeCmd, AddValgrind. split.
  - intros H. destruct dl; [reflexivity |].
    destruct gf, xf, rf, vg; cbn in H;
      repeat (destruct H as [E | H]; [discriminate E |]); contradiction.
  - intros ->. apply in_or_app. right. right. now left.
Qed.

Lemma executeCmd_filter_iff key info dl gf rf xf vg flt :
  In ("--gtest_filter=" +++ flt) (executeCmd env key info dl gf rf xf vg)
  <-> dl = false /\ gf = Some flt.
Proof.
  unfold executeCmd, AddValgrind. split.
  - intros H.
    destruct dl, gf, xf, rf, vg; cbn in H;
      repeat (destruct H as [E | H];
              [first [discriminate E
                     | injection E as <-; split; reflexivity] |]);
      contradiction.
  - intros [-> ->]. rewrite !in_app_iff. cbn. tauto.
Qed.

Lemma executeCmd_xml_iff key info dl gf rf xf vg w :
  In w (executeCmd env key info dl gf rf xf vg) /\
  is_gtest_output_flag w = true
  <-> vg = false /\
      exists x, xf = Some x /\ w = "--gtest_output=xml:" +++ key +++ "_" +++ x.
Proof.
  unfold executeCmd, AddValgrind. split.
  - intros [H Hw].
    destruct dl, gf, xf, rf, vg; cbn in H;
      repeat (destruct H as [<- | H];
              [first [discriminate Hw
                     | split; [reflexivity | eexists; split; reflexivity]] |]);
      contradiction.
  - intros [-> [x [-> ->]]]. split; [| reflexivity].
    rewrite !in_app_iff. cbn. tauto.
Qed.

(** X3. In every run, an invocation of the test binary carries
    [--gtest_list_tests] exactly when listing was asked for, and carries
    the filter of the options, as [--gtest_filter=...], exactly when a
    filter was given and listing was not asked for. *)
Theorem gtest_mode_of_a_run (a : Args) c r :
  In (EvRun c r) (snd (run_main env a)) ->
  is_test_invocation c = true ->
  (In "--gtest_list_tests" (pc_args c) <-> arg_listTests a = true) /\
  (forall flt,
     In ("--gtest_filter=" +++ flt) (pc_args c)
     <-> arg_listTests a = false /\ arg_googletestFilter a = Some flt).
Proof.
  intros Hin Ht.
  pose proof (main_calls env a []) as Hall.
  rewrite Forall_forall in Hall. specialize (Hall _ Hin c r eq_refl).
  destruct (main_call_test_invocation env a c Hall Ht) as [_ [f [kv [_ ->]]]].
  unfold suite_call, logged_call. cbn [pc_args]. split.
  - apply executeCmd_list_tests_iff.
  - intros flt. apply executeCmd_filter_iff.
Qed.

(** X4. In every run, an invocation of the test binary carries a gtest
    XML output flag exactly when valgrind is off and the xml option was
    given; the flag then names the file of the option, or
    [gtest_result.xml] when the option came without a name, prefixed with
    the key of the suite. *)
Theorem gtest_xml_output_of_a_run (a : Args) c r w :
  In (EvRun c r) (snd (run_main env a)) ->
  is_test_invocation c = true ->
  (In w (pc_args c) /\ is_gtest_output_flag w = true
   <-> arg_valgrind a = false /\
       exists name,
         arg_xml a = Some name /\
         w = "--gtest_output=xml:" +++ "gst" +++ "_"
             +++ (if is_empty name then resultOutput +++ ".xml" else name)).
Proof.
  intros Hin Ht.
  pose proof (main_calls env a []) as Hall.
  rewrite Forall_forall in Hall. specialize (Hall _ Hin c r eq_refl).
  destruct (main_call_test_invocation env a c Hall Ht)
    as [_ [f [kv [[<- | []] ->]]]].
  unfold suite_call, logged_call, logged_call_in. cbn [pc_args fst snd].
  rewrite executeCmd_xml_iff. unfold get_xml_file.
  split.
  - intros [Hv [x [Hx ->]]]. split; [exact Hv |].
    destruct (arg_xml a) as [name |]; [| discriminate].
    exists name. split; [reflexivity |]. now injection Hx as <-.
  - intros [Hv [name [Hx ->]]]. split; [exact Hv |]. rewrite Hx.
    eexists. split; reflexivity.
Qed.

End GtestFlags.

(** ** Where the output of each process goes *)

(** What [m] returns can be used for what follows it. *)
Lemma emits_only_bind_returned {A B} (P : event -> Prop) (Q : A -> Prop)
      (m : M A) (k : A -> M B) :
  returns_only Q m -> emits_only P m ->
  (forall a, Q a -> emits_only P (k a)) ->
  emits_only P (bind m k).
Proof.
  intros HQ Hm Hk h. rewrite bind_run. specialize (Hm h).
  specialize (HQ h).
  destruct (fst (m h)) as [a | msg | x]; cbn; auto.
  apply Forall_app; split; [exact Hm | apply (Hk a (HQ a eq_refl))].
Qed.

Lemma in_firstn {X} (n : nat) (l : list X) (x : X) :
  In x (firstn n l) -> In x l.
Proof.
  revert l. induction n as [| n IH]; intros [| y l]; cbn; try tauto.
  intros [-> | H]; [now left | right; now apply IH].
Qed.

Section ExactCalls.

Variable env : environment.

Lemma get_output_file_returns (a : Args) :
  returns_only (fun f => f = log_file a) (get_output_file env a).
Proof.
  unfold get_output_file, log_file.
  destruct (arg_file a) as [name |].
  - destruct (is_empty name); apply returns_only_open.
  - now apply returns_only_ret.
Qed.

Lemma buildTargets_exact_calls suites od rf dbg cov br :
  emits_only
    (calls_only (fun c =>
       c = {| pc_args := cmakeCmd od cov br; pc_cwd := initial_cwd env;
              pc_stdout := None; pc_stderr_to_stdout := false |} \/
       c = make_call env suites od rf))
    (buildTargets env suites od rf dbg cov br).
Proof.
  unfold buildTargets, print, make_call.
  repeat emits_only_step;
    first [ apply calls_only_other; intros ? ?; discriminate
          | apply calls_only_run; first [now left | now right] ].
Qed.

Lemma generateCoverageReport_exact_calls od rf :
  emits_only (calls_only (fun c => In c (coverage_calls env od rf)))
             (generateCoverageReport env od rf).
Proof.
  intros h. apply Forall_forall. intros e Hin c r ->.
  destruct (generateCoverageReport_run_calls env od rf h) as [n En].
  apply run_events_in in Hin.
  apply (in_map fst) in Hin. cbn in Hin.
  fold (run_calls (snd (generateCoverageReport env od rf h))) in Hin.
  rewrite En in Hin. eapply in_firstn. exact Hin.
Qed.

(** Every process of a run is one of [possible_calls]. *)
Lemma main_exact_calls (a : Args) :
  emits_only (calls_only (fun c => In c (possible_calls env a))) (main env a).
Proof.
  unfold main.
  apply emits_only_bind;
    [apply emits_only_emit, calls_only_other; intros ? ?; discriminate |].
  intros _. apply emits_only_bind.
  - unfold clean_if_required. destruct (arg_clean a); [| apply emits_only_ret].
    apply emits_only_bind; [apply checkAndRemoveFiles_calls |]. intros _.
    apply emits_only_getcwd;
      [apply calls_only_other; intros ? ?; discriminate | cbv beta].
    apply emits_only_bind; [| intros; apply emits_only_ret].
    apply emits_only_runcmd. intros r. apply calls_only_run. now left.
  - intros _.
    apply (emits_only_bind_returned _ _ _ _ (get_output_file_returns a)).
    + unfold get_output_file. repeat emits_only_step;
        apply calls_only_other; intros ? ?; discriminate.
    + intros f ->. apply emits_only_bind.
      * unfold build_if_required. destruct (negb (arg_noBuild a));
          [| apply emits_only_ret].
        eapply emits_only_weaken; [| apply buildTargets_exact_calls].
        intros e He c r ->. destruct (He c r eq_refl) as [-> | ->].
        -- right. now left.
        -- right. right. now left.
      * intros _. unfold test_if_required.
        destruct (negb (arg_noTest a)); [| apply emits_only_ret].
        unfold runTests. apply emits_only_bind.
        -- eapply emits_only_weaken; [| apply runTests_loop_calls].
           intros e He c r ->.
           destruct (He c r eq_refl) as [kv [[<- | []] ->]].
           do 3 right. now left.
        -- intros [|]; [apply emits_only_raise |].
           destruct (arg_coverage a); [| apply emits_only_ret].
           apply emits_only_bind; [| intros; apply emits_only_ret].
           eapply emits_only_weaken;
             [| apply generateCoverageReport_exact_calls].
           intros e He c r ->. do 4 right. now apply (He c r).
Qed.

(** X5. Where the output of each process of a run goes.  [rm] and
    [cmake] are never redirected.  [make] writes to the results file when
    there is one, its errors merged, and is not redirected otherwise.
    The test binary and the coverage tools always have their errors
    merged into their output, which goes to the results file when there
    is one; only the coverage summary goes to the statistics file
    instead. *)
Theorem output_redirection (a : Args) c r :
  In (EvRun c r) (snd (run_main env a)) ->
  (program c = "rm" \/ program c = "cmake" ->
   pc_stdout c = None /\ pc_stderr_to_stdout c = false) /\
  (program c = "make" ->
   pc_stdout c = log_file a /\
   pc_stderr_to_stdout c = is_some (log_file a)) /\
  (is_test_invocation c = true ->
   pc_stdout c = log_file a /\ pc_stderr_to_stdout c = true) /\
  (is_coverage_tool c = true ->
   pc_stderr_to_stdout c = true /\
   (pc_args c = genStatsCmd ->
    pc_stdout c = Some (stats_file env (arg_output a))) /\
   (pc_args c <> genStatsCmd -> pc_stdout c = log_file a)).
Proof.
  intros Hin.
  pose proof (main_exact_calls a []) as Hall.
  rewrite Forall_forall in Hall. specialize (Hall _ Hin c r eq_refl).
  unfold possible_calls, coverage_calls in Hall. cbn [In] in Hall.
  unfold is_test_invocation, is_coverage_tool.
  repeat (destruct Hall as [<- | Hall]); try contradiction;
    try rewrite program_suite_call;
    try (destruct (arg_valgrind a));
    cbn; repeat split; intros; try discriminate; try tauto;
    repeat match goal with
           | H : _ \/ _ |- _ => destruct H
           end; try discriminate; try congruence.
Qed.

(** X6. Where each process of a run is started: [rm] and [cmake] in the
    directory the script was started from, every other process in the
    output directory below it. *)
Theorem working_directory (a : Args) c r :
  In (EvRun c r) (snd (run_main env a)) ->
  pc_cwd c =
  if (program c =? "rm")%string || (program c =? "cmake")%string
  then initial_cwd env
  else initial_cwd env +++ "/" +++ arg_output a.
Proof.
  intros Hin.
  pose proof (main_exact_calls a []) as Hall.
  rewrite Forall_forall in Hall. specialize (Hall _ Hin c r eq_refl).
  unfold possible_calls, coverage_calls in Hall. cbn [In] in Hall.
  repeat (destruct Hall as [<- | Hall]); try contradiction;
    try rewrite program_suite_call;
    try (destruct (arg_valgrind a)); reflexivity.
Qed.

End ExactCalls.

(** ** The statistics file of the coverage generator *)

Section StatsFile.

Variable env : environment.

Ltac coverage_leaf :=
  cbn [after fst snd app is_returned In run_calls run_events map];
  repeat split; intros;
  repeat match goal with
         | H : _ \/ _ |- _ => destruct H
         | H : False |- _ => destruct H
         | H : ?x = ?y |- _ => discriminate H
         | H : EvClose _ = EvClose _ |- _ => injection H as <-
         end;
  try reflexivity; try (eexists; reflexivity); try tauto.

(** X7. The coverage generator closes the statistics file exactly when
    it returns; it then has started its five commands, the closing being
    its last event, and what it returns is the status of the summary
    command.  When a command ends the process first, the file, if it was
    opened, is left open. *)
Theorem stats_file_closed_iff_returned od rf h :
  (is_returned (fst (generateCoverageReport env od rf h)) = true
   <-> In (EvClose (stats_file env od))
          (snd (generateCoverageReport env od rf h))) /\
  (forall p, In (EvClose p) (snd (generateCoverageReport env od rf h)) ->
             p = stats_file env od) /\
  (forall v,
     fst (generateCoverageReport env od rf h) = Returned v ->
     run_calls (snd (generateCoverageReport env od rf h))
     = coverage_calls env od rf /\
     (exists pre,
        snd (generateCoverageReport env od rf h)
        = pre ++ [EvClose (stats_file env od)]) /\
     exists s, v = PyStatus s /\ args s = genStatsCmd /\
               tolerated (returncode s) = true).
Proof.
  unfold generateCoverageReport, coverage_calls, stats_file, logged_call.
  do 9 (coverage_step; try solve [coverage_leaf]).
  coverage_step; [solve [coverage_leaf] |].
  rewrite bind_run. coverage_step; [solve [coverage_leaf] |].
  coverage_step; cbn [fst snd after ret]; try solve [coverage_leaf].
  rewrite bind_run. cbn [emit fst snd after ret app].
  cbn [is_returned In run_calls run_events map fst].
  repeat split; intros;
    repeat match goal with
           | H : _ \/ _ |- _ => destruct H
           | H : False |- _ => destruct H
           end;
    try discriminate; try tauto; try congruence.
  - match goal with
    | |- exists pre, [?e1; ?e2; ?e3; ?e4; ?e5; ?e6; _] = pre ++ [_] =>
        exists [e1; e2; e3; e4; e5; e6]; reflexivity
    end.
  - match goal with
    | H : Returned _ = Returned _ |- _ => injection H as <-
    end.
    eexists. repeat split. assumption.
Qed.

End StatsFile.

(** ** The kinds of event a run can emit *)

Section Alphabet.

Variable env : environment.
Variable P : event -> Prop.

Hypothesis P_run : forall c r, P (EvRun c r).
Hypothesis P_print : forall s, P (EvPrint s).
Hypothesis P_exists : forall p b, P (EvExists p b).
Hypothesis P_rmtree : forall p r, P (EvRmtree p r).
Hypothesis P_remove : forall p r, P (EvRemove p r).
Hypothesis P_open : forall p r, P (EvOpen p r).
Hypothesis P_getcwd : forall x, P (EvGetcwdError x).

Lemma checkAndRemoveFiles_alphabet : emits_only P (checkAndRemoveFiles env).
Proof.
  unfold checkAndRemoveFiles, print. repeat emits_only_step; auto.
Qed.

Lemma buildTargets_alphabet suites od rf dbg cov br :
  emits_only P (buildTargets env suites od rf dbg cov br).
Proof. unfold buildTargets, print. repeat emits_only_step; auto. Qed.

Lemma runTests_loop_alphabet suites dl gf od rf xf vg hf :
  emits_only P (runTests_loop env suites dl gf od rf xf vg hf).
Proof.
  intros h.
  pose proof (runTests_loop_trace env dl gf od rf xf vg suites hf h) as Ht.
  apply loop_trace_events in Ht. eapply Forall_impl; [| exact Ht].
  intros e [[kv [r [_ ->]]] | [[kv [_ ->]] | ->]];
    [apply P_run | apply P_print | apply P_getcwd].
Qed.

Lemma generateCoverageReport_alphabet od rf :
  P (EvClose (stats_file env od)) ->
  emits_only P (generateCoverageReport env od rf).
Proof.
  intros P_close. unfold generateCoverageReport.
  do 4 (apply emits_only_getcwd; [apply P_getcwd | cbv beta];
        apply emits_only_bind; [apply emits_only_runcmd; auto |];
        intros ?; cbn [truthy negb]).
  apply emits_only_getcwd; [apply P_getcwd | cbv beta].
  eapply emits_only_bind_returned;
    [apply returns_only_open | apply emits_only_open; auto |].
  intros f ->. repeat emits_only_step; auto.
Qed.

Lemma runTests_alphabet suites dl gf od rf xf vg cov :
  (cov = true -> P (EvClose (stats_file env od))) ->
  emits_only P (runTests env suites dl gf od rf xf vg cov).
Proof.
  intros P_close. unfold runTests.
  apply emits_only_bind; [apply runTests_loop_alphabet |].
  intros [|]; [apply emits_only_raise |].
  destruct cov; [| apply emits_only_ret].
  apply emits_only_bind; [| intros; apply emits_only_ret].
  apply generateCoverageReport_alphabet. now apply P_close.
Qed.

(** A run sets the environment variable first; everything after is a
    process, a print, a file-system operation, or the closing of the
    statistics file when tests and coverage are on. *)
Lemma main_alphabet (a : Args) :
  (arg_noTest a = false -> arg_coverage a = true ->
   P (EvClose (stats_file env (arg_output a)))) ->
  exists rest,
    snd (run_main env a) = EvSetenv "RIALTO_SINKS_RANK" "256" :: rest /\
    Forall P rest.
Proof.
  intros P_close. unfold run_main, main. rewrite bind_emit.
  unfold after. cbn [snd app]. eexists. split; [reflexivity |].
  match goal with
  | |- Forall P (snd (?m ?h)) => cut (emits_only P m); [intros Hm; apply Hm |]
  end.
  apply emits_only_bind.
  - unfold clean_if_required. destruct (arg_clean a); [| apply emits_only_ret].
    apply emits_only_bind; [apply checkAndRemoveFiles_alphabet |]. intros _.
    apply emits_only_getcwd; [apply P_getcwd | cbv beta].
    apply emits_only_bind; [| intros; apply emits_only_ret].
    apply emits_only_runcmd. auto.
  - intros _. apply emits_only_bind.
    + unfold get_output_file. repeat emits_only_step; auto.
    + intros f. apply emits_only_bind.
      * unfold build_if_required. destruct (negb (arg_noBuild a));
          [apply buildTargets_alphabet | apply emits_only_ret].
      * intros _. unfold test_if_required.
        destruct (arg_noTest a) eqn:Et; cbn [negb]; [apply emits_only_ret |].
        apply runTests_alphabet. intros Ec. now apply P_close.
Qed.

End Alphabet.

Section SetenvAndClose.

Variable env : environment.

(** X8. Every run sets [RIALTO_SINKS_RANK] to 256 before anything else,
    and never touches the environment again. *)
Theorem sinks_rank_set_first_and_once (a : Args) :
  exists rest,
    snd (run_main env a) = EvSetenv "RIALTO_SINKS_RANK" "256" :: rest /\
    forall k v, ~ In (EvSetenv k v) rest.
Proof.
  destruct (main_alphabet env (fun e => forall k v, e <> EvSetenv k v))
    with (a := a) as [rest [E Hrest]]; try (intros; discriminate).
  exists rest. split; [exact E |]. intros k v Hin.
  rewrite Forall_forall in Hrest. now apply (Hrest _ Hin k v).
Qed.

(** X9. The only file a run ever closes is the coverage statistics
    file, and only when tests and coverage are both on: the results file
    that [main] opens is never closed by the script. *)
Theorem only_statistics_file_closed (a : Args) p :
  In (EvClose p) (snd (run_main env a)) ->
  p = stats_file env (arg_output a) /\
  arg_noTest a = false /\ arg_coverage a = true.
Proof.
  intros Hin.
  destruct (main_alphabet env
              (fun e => forall q, e = EvClose q ->
                                  q = stats_file env (arg_output a) /\
                                  arg_noTest a = false /\
                                  arg_coverage a = true))
    with (a := a) as [rest [E Hrest]]; try (intros; discriminate).
  - intros Ht Hc q Eq. injection Eq as <-. auto.
  - rewrite E in Hin. destruct Hin as [F | Hin]; [discriminate |].
    rewrite Forall_forall in Hrest. now apply (Hrest _ Hin p).
Qed.

End SetenvAndClose.

(** ** The build stage, event by event *)

Section BuildSequence.

Variable env : environment.

(** X10. When the working directory is gone the build stage starts
    nothing: [os.getcwd()] raises.  Otherwise it starts [cmake]; when
    [cmake] does not end with 0 or 101 nothing else happens and the stage
    does not return; otherwise the command line of [make] is printed,
    [make] is started, and the stage returns exactly when [make] ends
    with 0 or 101. *)
Theorem buildTargets_sequence suites od rf dbg cov br h :
  (cwd_gone env h = true /\
   buildTargets env suites od rf dbg cov br h
   = (Raised getcwd_error, [EvGetcwdError getcwd_error]))
  \/
  (cwd_gone env h = false /\
   exists r1,
     (result_ok r1 = false /\
      snd (buildTargets env suites od rf dbg cov br h)
      = [EvRun (configure_call env od cov br) r1] /\
      is_returned (fst (buildTargets env suites od rf dbg cov br h)) = false)
     \/
     (result_ok r1 = true /\
      exists r2,
        snd (buildTargets env suites od rf dbg cov br h)
        = [EvRun (configure_call env od cov br) r1;
           EvPrint ("+ " +++ join " " (makeCmd env suites));
           EvRun (make_call env suites od rf) r2] /\
        (fst (buildTargets env suites od rf dbg cov br h) = Returned tt
         <-> result_ok r2 = true))).
Proof. apply buildTargets_trace. Qed.

End BuildSequence.

(** ** When the test stage returns *)

Lemma loop_trace_all_passed call gone suites hf es :
  loop_trace call gone suites hf (Returned false) es ->
  run_events es = map (fun kv => (call kv, Completed 0)) suites.
Proof.
  remember (Returned false) as o eqn:Eo. intros Ht.
  induction Ht as [gone hf | kv rest hf
                   | kv rest hf o es _ IH | kv rest hf o es Ht _
                   | kv rest hf rc T | kv rest hf x]; try discriminate.
  - reflexivity.
  - cbn. now rewrite (IH Eo).
  - subst o. now apply loop_trace_sticky in Ht.
Qed.

Section TestsReturn.

Variable env : environment.

(** X11. Without coverage, [runTests] returns exactly when every suite of
    the dictionary was started, in the order of the dictionary, and each
    ended with 0. *)
Theorem runTests_returns_iff_all_pass suites dl gf od rf xf vg h :
  fst (runTests env suites dl gf od rf xf vg false h) = Returned tt
  <-> run_events (snd (runTests env suites dl gf od rf xf vg false h))
      = map (fun kv => (suite_call env dl gf od rf xf vg kv, Completed 0))
            suites.
Proof.
  rewrite runTests_run.
  pose proof (runTests_loop_trace env dl gf od rf xf vg suites false h) as Ht.
  destruct (fst (runTests_loop env suites dl gf od rf xf vg false h))
    as [[|] | msg | x] eqn:Eo; cbn [fst snd].
  - split; [discriminate |]. intros E.
    apply loop_trace_returned in Ht as [_ [_ Hb]].
    destruct (proj1 Hb eq_refl) as [F | [c Hc]]; [discriminate |].
    rewrite E in Hc. apply in_map_iff in Hc as [kv [F _]]. discriminate.
  - split; [intros _ | reflexivity].
    now apply loop_trace_all_passed in Ht.
  - split; [discriminate |]. intros E.
    destruct (cwd_gone env h).
    + pose proof (loop_trace_no_cwd _ _ _ _ _ Ht) as Hnil.
      rewrite Hnil in E. destruct suites; [inversion Ht | discriminate E].
    + destruct (loop_trace_all_ok _ _ _ _ _ _ Ht eq_refl) as [b Hb];
        [| discriminate].
      intros c r Hin. apply run_events_in in Hin. rewrite E in Hin.
      apply in_map_iff in Hin as [kv [F _]]. now injection F as _ <-.
  - split; [discriminate |]. intros E.
    destruct (cwd_gone env h).
    + pose proof (loop_trace_no_cwd _ _ _ _ _ Ht) as Hnil.
      rewrite Hnil in E. destruct suites; [inversion Ht | discriminate E].
    + destruct (loop_trace_all_ok _ _ _ _ _ _ Ht eq_refl) as [b Hb];
        [| discriminate].
      intros c r Hin. apply run_events_in in Hin. rewrite E in Hin.
      apply in_map_iff in Hin as [kv [F _]]. now injection F as _ <-.
Qed.

End TestsReturn.

(** ** How a run ends *)

Section EndOfRun.

Variable env : environment.

Lemma ends_with_cause_returns {A} (m : M A) :
  (forall h, is_returned (fst (m h)) = true) -> ends_with_cause env m.
Proof.
  intros Hr h. specialize (Hr h). unfold end_has_cause.
  destruct (fst (m h)); [exact I | discriminate ..].
Qed.

Lemma ends_with_cause_ret {A} (a : A) : ends_with_cause env (ret a).
Proof. now apply ends_with_cause_returns. Qed.

Lemma ends_with_cause_emit (e : event) : ends_with_cause env (emit e).
Proof. now apply ends_with_cause_returns. Qed.

(** The cause found for what follows [es] is a cause after [es]. *)
Lemma end_has_cause_after {B} (h es : list event)
      (r : outcome B * list event) :
  end_has_cause env (h ++ es) r -> end_has_cause env h (after es r).
Proof.
  unfold end_has_cause, after. cbn [fst snd].
  destruct (fst r) as [b | msg | x]; [trivial | |].
  - intros [pre [c [rc [E H]]]].
    exists (es ++ pre), c, rc. rewrite E, app_assoc. now split.
  - intros [[pre [c E]] | [[pre [p E]] | [[pre [E G]] | [Ex [c Hc]]]]].
    + left. exists (es ++ pre), c. now rewrite E, app_assoc.
    + right; left. exists (es ++ pre), p. now rewrite E, app_assoc.
    + right; right; left. exists (es ++ pre). split.
      * now rewrite E, app_assoc.
      * now rewrite app_assoc.
    + right; right; right. split; [exact Ex |]. exists c.
      apply in_or_app. now right.
Qed.

(** The same, when what follows is only known to behave for the values
    [m] can return. *)
Lemma ends_with_cause_bind_returned {A B} (Q : A -> Prop)
      (m : M A) (k : A -> M B) :
  returns_only Q m -> ends_with_cause env m ->
  (forall a, Q a -> ends_with_cause env (k a)) ->
  ends_with_cause env (bind m k).
Proof.
  intros HQ Hm Hk h. rewrite bind_run.
  pose proof (Hm h) as Hm'. specialize (HQ h).
  destruct (fst (m h)) as [a | msg | x] eqn:E.
  - apply end_has_cause_after, (Hk a (HQ a eq_refl)).
  - unfold end_has_cause in *. rewrite E in Hm'. exact Hm'.
  - unfold end_has_cause in *. rewrite E in Hm'. exact Hm'.
Qed.

Lemma ends_with_cause_bind {A B} (m : M A) (k : A -> M B) :
  ends_with_cause env m -> (forall a, ends_with_cause env (k a)) ->
  ends_with_cause env (bind m k).
Proof.
  intros Hm Hk.
  apply (ends_with_cause_bind_returned (fun _ => True));
    [apply returns_only_any | exact Hm | intros a _; apply Hk].
Qed.

Lemma ends_with_cause_getcwd {B} (k : string -> M B) :
  ends_with_cause env (k (initial_cwd env)) ->
  ends_with_cause env (bind (os_getcwd env) k).
Proof.
  intros Hk h. rewrite bind_getcwd.
  destruct (cwd_gone env h) eqn:G; [| apply Hk].
  right; right; left. exists []. split; [reflexivity |].
  now rewrite app_nil_r.
Qed.

Lemma ends_with_cause_runcmd (c : proc_call) :
  ends_with_cause env (runcmd env c).
Proof.
  intros h. unfold end_has_cause. rewrite runcmd_run. cbn [fst snd].
  destruct (subprocess_run env h c) as [rc | x].
  - cbn. destruct (tolerated rc) eqn:T; [exact I |].
    exists [], c, rc. repeat split. exact T.
  - left. now exists [], c.
Qed.

Lemma ends_with_cause_open (p : string) : ends_with_cause env (open env p).
Proof.
  intros h. unfold end_has_cause. rewrite open_run. cbn [fst snd].
  destruct (open_w env h p) as [x |]; [| exact I].
  right; left. now exists [], p.
Qed.

Lemma ends_with_cause_checkAndRemoveFiles :
  ends_with_cause env (checkAndRemoveFiles env).
Proof.
  apply ends_with_cause_returns. intros h.
  now rewrite (proj1 (checkAndRemoveFiles_best_effort env h)).
Qed.

Ltac ends_with_cause_step :=
  first
    [ apply ends_with_cause_ret
    | apply ends_with_cause_emit
    | apply ends_with_cause_runcmd
    | apply ends_with_cause_open
    | apply ends_with_cause_getcwd; cbv beta
    | apply ends_with_cause_bind; [| intros ?]
    | match goal with
      | |- ends_with_cause _ (if ?b then _ else _) => destruct b
      | |- ends_with_cause _ (match ?x with _ => _ end) => destruct x
      end ].

Lemma ends_with_cause_buildTargets suites od rf dbg cov br :
  ends_with_cause env (buildTargets env suites od rf dbg cov br).
Proof. unfold buildTargets, print. repeat ends_with_cause_step. Qed.

Lemma ends_with_cause_generateCoverageReport od rf :
  ends_with_cause env (generateCoverageReport env od rf).
Proof.
  unfold generateCoverageReport.
  do 4 (apply ends_with_cause_getcwd; cbv beta;
        apply ends_with_cause_bind; [apply ends_with_cause_runcmd |];
        intros ?; cbn [truthy negb]).
  apply ends_with_cause_getcwd; cbv beta.
  eapply ends_with_cause_bind_returned;
    [apply returns_only_open | apply ends_with_cause_open |].
  intros f ->. repeat ends_with_cause_step.
Qed.

Lemma loop_trace_end_has_cause call gone suites hf o es :
  loop_trace call gone suites hf o es ->
  forall h, (gone = true -> cwd_gone env h = true) ->
            end_has_cause env h (o, es).
Proof.
  induction 1 as [gone hf | kv rest hf
                  | kv rest hf o es _ IH | kv rest hf o es _ IH
                  | kv rest hf rc T | kv rest hf x]; intros h G.
  - exact I.
  - right; right; left. exists []. split; [reflexivity |].
    rewrite app_nil_r. now apply G.
  - apply (end_has_cause_after h [_] (o, es)), IH. discriminate.
  - apply (end_has_cause_after h [_; _] (o, es)), IH. discriminate.
  - exists [], (call kv), rc. repeat split. exact T.
  - left. now exists [], (call kv).
Qed.

Lemma ends_with_cause_runTests suites dl gf od rf xf vg cov :
  ends_with_cause env (runTests env suites dl gf od rf xf vg cov).
Proof.
  intros h. rewrite runTests_run.
  pose proof (runTests_loop_trace env dl gf od rf xf vg suites false h) as Ht.
  pose proof (loop_trace_end_has_cause _ _ _ _ _ _ Ht h (fun G => G)) as Hc.
  unfold end_has_cause in Hc. cbn [fst snd] in Hc.
  destruct (fst (runTests_loop env suites dl gf od rf xf vg false h))
    as [[|] | msg | x] eqn:Eo; try exact Hc.
  - right; right; right. split; [reflexivity |].
    apply loop_trace_returned in Ht as [_ [_ Hb]].
    destruct (proj1 Hb eq_refl) as [F | [c Hin]]; [discriminate |].
    exists c. now apply run_events_in.
  - destruct cov; [| exact I].
    apply end_has_cause_after.
    apply (ends_with_cause_bind _ (fun _ : pyval => ret tt)
             (ends_with_cause_generateCoverageReport od rf)
             (fun _ => ends_with_cause_ret tt)).
Qed.

Lemma ends_with_cause_main (a : Args) : ends_with_cause env (main env a).
Proof.
  unfold main, clean_if_required, get_output_file, build_if_required,
    test_if_required.
  repeat first
    [ apply ends_with_cause_checkAndRemoveFiles
    | apply ends_with_cause_buildTargets
    | apply ends_with_cause_runTests
    | ends_with_cause_step ].
Qed.

(** X12. Every abnormal end of a run has its cause at the end of the
    trace.  When the run ends by [sys.exit], the last event is a process
    that ended with a code other than 0 and 101, and the message names
    its command and code.  When it ends with an exception, either the
    last event is a process that could not be started or a file that
    could not be opened, the exception being that error; or the last
    event is [os.getcwd()] raising that error, an [rm] that removed the
    working directory having run before; or the exception is the
    aggregate failure and some process ended with 101. *)
Theorem abnormal_end_has_a_cause (a : Args) :
  (forall msg,
     fst (run_main env a) = SysExit msg ->
     exists pre c rc,
       snd (run_main env a) = pre ++ [EvRun c (Completed rc)] /\
       rc <> 0 /\ rc <> valgrindErrorCode /\
       msg = exit_message {| args := pc_args c; returncode := rc |}) /\
  (forall x,
     fst (run_main env a) = Raised x ->
     (exists pre c, snd (run_main env a) = pre ++ [EvRun c (SpawnError x)]) \/
     (exists pre p, snd (run_main env a) = pre ++ [EvOpen p (Some x)]) \/
     (exists pre,
        snd (run_main env a) = pre ++ [EvGetcwdError x] /\
        exists c r, In (EvRun c r) pre /\ program c = "rm" /\
                    rm_removes_cwd env c r = true) \/
     (x = aggregate_failure /\
      exists c, In (EvRun c (Completed valgrindErrorCode))
                   (snd (run_main env a)))).
Proof.
  pose proof (ends_with_cause_main a []) as H. unfold end_has_cause in H.
  fold (run_main env a) in H. split.
  - intros msg E. rewrite E in H. destruct H as [pre [c [rc [Es [T Em]]]]].
    exists pre, c, rc. repeat split; auto; intros ->; discriminate.
  - intros x E. rewrite E in H.
    destruct H as [H | [H | [[pre [Es G]] | H]]]; auto.
    right; right; left. exists pre. split; [exact Es |].
    now apply cwd_gone_by_rm.
Qed.

End EndOfRun.

(** ** When a run succeeds *)

Lemma memcheck_failure_passed c :
  memcheck_failure (EvRun c (Completed 0)) = false.
Proof. cbn. apply andb_false_r. Qed.

Section Success.

Variable env : environment.

(** When [runTests] returns, no test invocation ended with 101. *)
Lemma runTests_returned_no_memcheck suites dl gf od rf xf vg cov h e :
  fst (runTests env suites dl gf od rf xf vg cov h) = Returned tt ->
  In e (snd (runTests env suites dl gf od rf xf vg cov h)) ->
  memcheck_failure e = false.
Proof.
  rewrite runTests_run.
  pose proof (runTests_loop_trace env dl gf od rf xf vg suites false h) as Ht.
  destruct (fst (runTests_loop env suites dl gf od rf xf vg false h))
    as [[|] | msg | x]; try discriminate.
  apply loop_trace_all_passed in Ht.
  assert (Hloop : forall e',
            In e' (snd (runTests_loop env suites dl gf od rf xf vg false h)) ->
            memcheck_failure e' = false).
  { intros e' Hin. destruct e' as [c r | | | | | | | |]; try reflexivity.
    apply run_events_in in Hin. rewrite Ht in Hin.
    apply in_map_iff in Hin as [kv [E _]]. injection E as _ <-.
    apply memcheck_failure_passed. }
  destruct cov; [| intros _; apply Hloop].
  unfold after. cbn [fst snd]. intros _ Hin.
  apply in_app_or in Hin as [Hin | Hin]; [now apply Hloop |].
  destruct e as [c r | | | | | | | |]; try reflexivity.
  pose proof (emits_only_bind (calls_only coverage_call)
                (generateCoverageReport env od rf) (fun _ => ret tt)
                (generateCoverageReport_calls env od rf)
                (fun _ => emits_only_ret _ tt)) as Hc.
  specialize (Hc (h ++ snd (runTests_loop env suites dl gf od rf xf vg false h))).
  rewrite Forall_forall in Hc. specialize (Hc _ Hin c r eq_refl).
  destruct r as [rc | x]; [| reflexivity]. cbn. unfold is_test_invocation.
  apply program_coverage_call in Hc as [-> | ->]; reflexivity.
Qed.

(** The tests of [main] return unless a process or a file failed or the
    test binary ended with 101. *)
Lemma returns_unless_runTests dl gf od rf xf vg cov :
  returns_unless (fun e => halting e || memcheck_failure e)
                 (runTests env suitesToRun dl gf od rf xf vg cov).
Proof.
  intros h Hq. rewrite runTests_run.
  pose proof (runTests_loop_trace env dl gf od rf xf vg suitesToRun false h)
    as Ht.
  assert (Hsub : forall e,
            In e (snd (runTests_loop env suitesToRun dl gf od rf xf vg false h)) ->
            halting e = false /\ memcheck_failure e = false).
  { intros e Hin. apply orb_false_iff. apply Hq.
    unfold runTests.
    match goal with
    | |- context [bind ?m ?k ?hh] =>
        destruct (bind_events_prefix m k hh) as [tl ->]
    end.
    apply in_or_app. now left. }
  destruct (cwd_gone env h).
  { apply loop_trace_no_cwd_inv in Ht as [_ Ee].
    destruct (Hsub (EvGetcwdError getcwd_error)) as [F _];
      [rewrite Ee; now left | discriminate F]. }
  destruct (loop_trace_all_ok _ _ _ _ _ _ Ht eq_refl) as [b Eb].
  { intros c r Hin. destruct (Hsub _ Hin) as [Hh _]. cbn in Hh.
    now destruct (result_ok r). }
  rewrite Eb in Ht |- *.
  assert (b = false) as ->.
  { destruct b; [| reflexivity].
    pose proof Ht as Hr. apply loop_trace_returned in Hr as [_ [_ Hb]].
    destruct (proj1 Hb eq_refl) as [F | [c Hin]]; [discriminate |].
    apply run_events_in in Hin.
    destruct (Hsub _ Hin) as [_ Hm].
    apply loop_trace_events in Ht. rewrite Forall_forall in Ht.
    destruct (Ht _ Hin) as [[kv [r [[<- | []] E]]] | [[kv [_ E]] | E]];
      [| discriminate ..].
    injection E as -> _. cbn in Hm. unfold is_test_invocation in Hm.
    rewrite program_suite_call in Hm. now destruct vg. }
  destruct cov; [| now exists tt].
  unfold after. cbn [fst].
  match goal with
  | |- context [bind ?m ?k ?hh] =>
      assert (Hg : exists u, fst (bind m k hh) = Returned u)
  end.
  { apply (returns_unless_bind halting).
    - apply returns_unless_generateCoverageReport.
    - intros; apply returns_unless_ret.
    - intros e Hin.
      assert (He : halting e || memcheck_failure e = false).
      { apply Hq. rewrite runTests_run, Eb. unfold after. cbn [snd].
        apply in_or_app. now right. }
      now apply orb_false_iff in He. }
  exact Hg.
Qed.

(** X13. A run ends normally exactly when no process failed to start,
    no file failed to open, [os.getcwd()] never raised, every process
    ended with 0 or 101, and no invocation of the test binary ended with
    101. *)
Theorem run_succeeds_iff (a : Args) :
  fst (run_main env a) = Returned tt
  <-> forall e, In e (snd (run_main env a)) ->
                halting e = false /\ memcheck_failure e = false.
Proof.
  split.
  - intros E e Hin. split.
    + destruct (halting e) eqn:He; [| reflexivity].
      destruct (failure_is_final (main env a) [] e (fail_fast_main env a)
                  Hin He) as [Hs _].
      fold (run_main env a) in Hs. rewrite E in Hs.
      now apply stops_with_not_returned in Hs.
    + unfold run_main in *. rewrite main_after_build in *.
      rewrite bind_run in *.
      pose proof (before_tests_calls env a []) as H1.
      rewrite Forall_forall in H1.
      destruct (fst (before_tests env a [])) as [f | msg | x];
        try discriminate.
      unfold after in *. cbn [fst snd] in *.
      apply in_app_or in Hin as [Hin | Hin].
      * destruct e as [c r | | | | | | | |]; try reflexivity.
        destruct r as [rc | x]; [| reflexivity]. cbn.
        unfold is_test_invocation.
        destruct (H1 _ Hin c _ eq_refl) as [-> | Hb]; [reflexivity |].
        apply program_build_call in Hb as [-> | ->]; reflexivity.
      * unfold test_if_required in *.
        destruct (negb (arg_noTest a)); [| contradiction].
        eapply runTests_returned_no_memcheck; eassumption.
  - intros Hq.
    assert (Hr : returns_unless (fun e => halting e || memcheck_failure e)
                                (main env a)).
    { intros h. rewrite main_after_build. revert h.
      apply returns_unless_bind.
      - eapply returns_unless_weaken;
          [| apply returns_unless_before_tests].
        intros e He. apply orb_false_iff in He as [He _].
        destruct e as [c r | | | | | | p [x |] | | x]; try reflexivity;
          cbn in *; try discriminate.
        destruct (result_ok r); [| discriminate].
        now rewrite !andb_false_r.
      - intros f. unfold test_if_required.
        destruct (negb (arg_noTest a));
          [apply returns_unless_runTests | apply returns_unless_ret]. }
    destruct (Hr []) as [[] E]; [| exact E].
    intros e Hin. apply orb_false_iff. now apply Hq.
Qed.

End Success.

(** ** The removals of the clean stage *)

Section Removals.

Variable env : environment.

(** X14. [checkAndRemoveFiles] touches two paths only, and removes one
    only after finding that it exists.  The first removal that raises
    ends the attempt: the error is printed last, and when it was the
    include directory that could not be removed the source file is
    neither looked for nor removed. *)
Theorem checkAndRemoveFiles_stops_at_first_error (h : list event) :
  (forall p r, In (EvRmtree p r) (snd (checkAndRemoveFiles env h)) ->
               p = includeDirs /\
               In (EvExists p true) (snd (checkAndRemoveFiles env h))) /\
  (forall p r, In (EvRemove p r) (snd (checkAndRemoveFiles env h)) ->
               p = sourceFile /\
               In (EvExists p true) (snd (checkAndRemoveFiles env h))) /\
  (forall p x,
     In (EvRmtree p (Some x)) (snd (checkAndRemoveFiles env h)) \/
     In (EvRemove p (Some x)) (snd (checkAndRemoveFiles env h)) ->
     last (snd (checkAndRemoveFiles env h)) (EvPrint EmptyString)
     = EvPrint ("An error occurred: " +++ x)) /\
  (forall p x,
     In (EvRmtree p (Some x)) (snd (checkAndRemoveFiles env h)) ->
     forall b r, ~ In (EvExists sourceFile b) (snd (checkAndRemoveFiles env h))
                 /\ ~ In (EvRemove sourceFile r)
                         (snd (checkAndRemoveFiles env h))).
Proof.
  unfold checkAndRemoveFiles, try_except, bind, path_exists, rmtree, remove,
    fs_op, print, emit, ret, after, includeDirs, sourceFile.
  repeat match goal with
         | |- context [os_path_exists env ?hh ?p] =>
             destruct (os_path_exists env hh p); cbn
         | |- context [shutil_rmtree env ?hh ?p] =>
             destruct (shutil_rmtree env hh p); cbn
         | |- context [os_remove env ?hh ?p] =>
             destruct (os_remove env hh p); cbn
         end;
    repeat split; intros;
    repeat match goal with
           | H : _ \/ _ |- _ => destruct H
           | H : False |- _ => destruct H
           | H : ?e1 = ?e2 |- _ =>
               first [discriminate H | injection H as <- <- | injection H as <-]
           end;
    try reflexivity; try tauto;
    intros F;
    repeat match goal with
           | H : _ \/ _ |- _ => destruct H
           | H : False |- _ => destruct H
           | H : ?e1 = ?e2 |- _ => discriminate H
           end.
Qed.

End Removals.

(** ** Coverage comes after tests that passed *)

Section CoverageAfterPass.

Variable env : environment.

(** A coverage tool among the processes of [runTests] means that coverage
    was asked for and the loop returned with [hasFailed] unset; what
    follows the loop is then the generator. *)
Lemma coverage_tool_after_loop suites dl gf od rf xf vg cov h c r :
  In (EvRun c r) (snd (runTests env suites dl gf od rf xf vg cov h)) ->
  is_coverage_tool c = true ->
  cov = true /\
  fst (runTests_loop env suites dl gf od rf xf vg false h) = Returned false /\
  exists tl,
    snd (runTests env suites dl gf od rf xf vg cov h)
    = snd (runTests_loop env suites dl gf od rf xf vg false h) ++ tl /\
    forall c' r', In (EvRun c' r') tl -> coverage_call c'.
Proof.
  intros Hin Hc. rewrite runTests_run in *.
  assert (Hloop : ~ In (EvRun c r)
                      (snd (runTests_loop env suites dl gf od rf xf vg false h))).
  { intros F.
    pose proof (runTests_loop_calls env suites dl gf od rf xf vg false h) as Hl.
    rewrite Forall_forall in Hl. destruct (Hl _ F c r eq_refl) as [kv [_ ->]].
    now rewrite suite_call_not_coverage_tool in Hc. }
  destruct (fst (runTests_loop env suites dl gf od rf xf vg false h))
    as [[|] | msg | x]; cbn [snd] in *; try contradiction.
  destruct cov; cbn [snd] in *; [| contradiction].
  split; [reflexivity |]. split; [reflexivity |].
  unfold after. cbn [snd]. eexists. split; [reflexivity |].
  intros c' r' Hin'.
  pose proof (emits_only_bind (calls_only coverage_call)
                (generateCoverageReport env od rf) (fun _ => ret tt)
                (generateCoverageReport_calls env od rf)
                (fun _ => emits_only_ret _ tt)) as Hg.
  specialize (Hg (h ++ snd (runTests_loop env suites dl gf od rf xf vg false h))).
  rewrite Forall_forall in Hg. now apply (Hg _ Hin' c' r').
Qed.

(** X15. In every run, a coverage tool is started only when tests are run
    with coverage requested and only after the test binary was started
    and ended with 0: no report is ever made from a failed test run. *)
Theorem coverage_only_after_passing_tests (a : Args) c r :
  In (EvRun c r) (snd (run_main env a)) ->
  is_coverage_tool c = true ->
  arg_noTest a = false /\ arg_coverage a = true /\
  (exists c', In (EvRun c' (Completed 0)) (snd (run_main env a)) /\
              is_test_invocation c' = true) /\
  (forall c' r', In (EvRun c' r') (snd (run_main env a)) ->
                 is_test_invocation c' = true -> r' = Completed 0).
Proof.
  intros Hin Hc.
  pose proof (main_calls env a []) as Hall. rewrite Forall_forall in Hall.
  destruct (main_call_coverage_tool env a c (Hall _ Hin c r eq_refl) Hc)
    as [Hnt [Hcov _]].
  split; [exact Hnt |]. split; [exact Hcov |].
  unfold run_main in *. rewrite main_after_build in *. rewrite bind_run in *.
  pose proof (before_tests_calls env a []) as H1. rewrite Forall_forall in H1.
  assert (Hpre : forall c' r', In (EvRun c' r') (snd (before_tests env a [])) ->
                 is_test_invocation c' = false /\ is_coverage_tool c' = false).
  { intros c' r' Hin'. unfold is_test_invocation, is_coverage_tool.
    destruct (H1 _ Hin' c' r' eq_refl) as [-> | Hb]; [split; reflexivity |].
    apply program_build_call in Hb as [-> | ->]; split; reflexivity. }
  destruct (fst (before_tests env a [])) as [f | msg | x]; cbn [fst snd] in *;
    try (apply Hpre in Hin as [_ F]; congruence).
  unfold after in *. cbn [fst snd] in *.
  apply in_app_or in Hin as [Hin | Hin];
    [apply Hpre in Hin as [_ F]; congruence |].
  unfold test_if_required in *. rewrite Hnt in *. cbn [negb] in *.
  destruct (coverage_tool_after_loop _ _ _ _ _ _ _ _ _ _ _ Hin Hc)
    as [_ [El [tl [Es Htl]]]].
  pose proof (runTests_loop_trace env (arg_listTests a)
                (arg_googletestFilter a) (arg_output a) f (get_xml_file a)
                (arg_valgrind a) suitesToRun false
                ([] ++ snd (before_tests env a []))) as Ht.
  rewrite El in Ht. apply loop_trace_all_passed in Ht.
  rewrite Es. split.
  - eexists. split.
    + apply in_or_app. right. apply in_or_app. left.
      apply run_events_in. rewrite Ht. now left.
    + unfold is_test_invocation. rewrite program_suite_call.
      destruct (arg_valgrind a); reflexivity.
  - intros c' r' Hin' Ht'.
    apply in_app_or in Hin' as [Hin' | Hin'];
      [apply Hpre in Hin' as [F _]; congruence |].
    apply in_app_or in Hin' as [Hin' | Hin'].
    + apply run_events_in in Hin'. rewrite Ht in Hin'.
      destruct Hin' as [E | []]. now injection E as _ <-.
    + apply Htl in Hin'. unfold is_test_invocation in Ht'.
      apply program_coverage_call in Hin' as [E | E]; rewrite E in Ht';
        discriminate.
Qed.

End CoverageAfterPass.

(** ** The order of the processes of a run *)

Lemma subseq_refl {X} (l : list X) : subseq l l.
Proof. induction l; constructor; assumption. Qed.

Lemma subseq_nil_l {X} (l : list X) : subseq [] l.
Proof. induction l; constructor; assumption. Qed.

Lemma subseq_app {X} (l1 l1' l2 l2' : list X) :
  subseq l1 l1' -> subseq l2 l2' -> subseq (l1 ++ l2) (l1' ++ l2').
Proof.
  intros H1 H2. induction H1; cbn; [exact H2 | |]; constructor; assumption.
Qed.

Lemma subseq_firstn {X} (n : nat) (l : list X) : subseq (firstn n l) l.
Proof.
  revert l. induction n as [| n IH]; intros [| x l]; cbn;
    try apply subseq_nil_l; try constructor; apply IH.
Qed.

Lemma subseq_in {X} (l l' : list X) (x : X) :
  subseq l l' -> In x l -> In x l'.
Proof.
  induction 1; cbn; [tauto | tauto |]. intros [-> | H']; auto.
Qed.

Lemma run_calls_app (es es' : list event) :
  run_calls (es ++ es') = run_calls es ++ run_calls es'.
Proof. unfold run_calls. now rewrite run_events_app, map_app. Qed.

Section StartsWithin.

Context {A B : Type}.

Lemma starts_within_quiet (m : M A) :
  emits_only (calls_only (fun _ => False)) m -> starts_within [] m.
Proof.
  intros Hm h. specialize (Hm h).
  assert (E : run_calls (snd (m h)) = []).
  { induction (snd (m h)) as [| e es IH]; [reflexivity |].
    inversion Hm as [| ? ? He Hes]; subst.
    destruct e as [c r | | | | | | | |];
      try (unfold run_calls in *; cbn; now apply IH).
    destruct (He c r eq_refl). }
  rewrite E. constructor.
Qed.

Lemma starts_within_bind L1 L2 (m : M A) (k : A -> M B) :
  starts_within L1 m -> (forall a, starts_within L2 (k a)) ->
  starts_within (L1 ++ L2) (bind m k).
Proof.
  intros Hm Hk h. rewrite bind_run. specialize (Hm h).
  destruct (fst (m h)); cbn [snd after].
  - rewrite run_calls_app. apply subseq_app; [exact Hm | apply Hk].
  - rewrite <- (app_nil_r (run_calls _)).
    apply subseq_app; [exact Hm | apply subseq_nil_l].
  - rewrite <- (app_nil_r (run_calls _)).
    apply subseq_app; [exact Hm | apply subseq_nil_l].
Qed.

Lemma starts_within_bind_returned L1 L2 (Q : A -> Prop)
      (m : M A) (k : A -> M B) :
  returns_only Q m -> starts_within L1 m ->
  (forall a, Q a -> starts_within L2 (k a)) ->
  starts_within (L1 ++ L2) (bind m k).
Proof.
  intros HQ Hm Hk h. rewrite bind_run. specialize (Hm h). specialize (HQ h).
  destruct (fst (m h)) as [a | msg | x]; cbn [snd after].
  - rewrite run_calls_app.
    apply subseq_app; [exact Hm | apply (Hk a (HQ a eq_refl))].
  - rewrite <- (app_nil_r (run_calls _)).
    apply subseq_app; [exact Hm | apply subseq_nil_l].
  - rewrite <- (app_nil_r (run_calls _)).
    apply subseq_app; [exact Hm | apply subseq_nil_l].
Qed.

End StartsWithin.

Section ProcessOrder.

Variable env : environment.

Lemma starts_within_ret {A} (a : A) : starts_within [] (ret a).
Proof. intros h. constructor. Qed.

Lemma starts_within_nothing {A} L (m : M A) :
  starts_within [] m -> starts_within L m.
Proof.
  intros Hm h. specialize (Hm h). inversion Hm. apply subseq_nil_l.
Qed.

Lemma starts_within_runcmd (c : proc_call) :
  starts_within [c] (runcmd env c).
Proof. intros h. rewrite runcmd_events. apply subseq_refl. Qed.

Lemma starts_within_getcwd {B} L (k : string -> M B) :
  starts_within L (k (initial_cwd env)) ->
  starts_within L (bind (os_getcwd env) k).
Proof.
  intros Hk h. rewrite bind_getcwd.
  destruct (cwd_gone env h); [apply subseq_nil_l | apply Hk].
Qed.

Lemma starts_within_setup (a : Args) :
  starts_within [rm_call env a] (setup env a).
Proof.
  unfold setup.
  change [rm_call env a] with ([] ++ ([rm_call env a]) ++ []).
  apply starts_within_bind; [intros h; constructor |]. intros _.
  apply starts_within_bind.
  - unfold clean_if_required. destruct (arg_clean a);
      [| apply starts_within_nothing, starts_within_ret].
    change [rm_call env a] with ([] ++ [rm_call env a] ++ []).
    apply starts_within_bind.
    + apply starts_within_quiet, checkAndRemoveFiles_calls.
    + intros _. apply starts_within_getcwd. apply starts_within_bind;
        [apply starts_within_runcmd | intros; apply starts_within_ret].
  - intros _. apply starts_within_quiet. unfold get_output_file.
    repeat emits_only_step; apply calls_only_other; intros ? ?; discriminate.
Qed.

Lemma starts_within_buildTargets suites od rf dbg cov br :
  starts_within
    [configure_call env od cov br; make_call env suites od rf]
    (buildTargets env suites od rf dbg cov br).
Proof.
  unfold buildTargets, print, make_call, configure_call.
  match goal with
  | |- starts_within [?c1; ?c2] _ =>
      change [c1; c2] with ([c1] ++ ([] ++ ([c2] ++ [])))
  end.
  apply starts_within_getcwd.
  apply starts_within_bind; [apply starts_within_runcmd |]. intros _.
  apply starts_within_bind; [intros h; constructor |]. intros _.
  destruct rf as [f |];
    (apply starts_within_getcwd; apply starts_within_bind;
     [apply starts_within_runcmd | intros; apply starts_within_ret]).
Qed.

Lemma starts_within_generateCoverageReport od rf :
  starts_within (coverage_calls env od rf) (generateCoverageReport env od rf).
Proof.
  intros h. destruct (generateCoverageReport_run_calls env od rf h) as [n ->].
  apply subseq_firstn.
Qed.

Lemma starts_within_runTests suites dl gf od rf xf vg cov :
  starts_within
    (map (suite_call env dl gf od rf xf vg) suites ++ coverage_calls env od rf)
    (runTests env suites dl gf od rf xf vg cov).
Proof.
  unfold runTests. apply starts_within_bind.
  - intros h.
    pose proof (runTests_loop_trace env dl gf od rf xf vg suites false h) as Ht.
    apply loop_trace_calls in Ht as [n [_ [-> _]]].
    rewrite <- firstn_map. apply subseq_firstn.
  - intros [|]; [apply starts_within_nothing; intros h; constructor |].
    destruct cov; [| apply starts_within_nothing, starts_within_ret].
    rewrite <- (app_nil_r (coverage_calls env od rf)).
    apply starts_within_bind;
      [apply starts_within_generateCoverageReport
      | intros; apply starts_within_ret].
Qed.

Lemma possible_calls_NoDup (a : Args) : NoDup (possible_calls env a).
Proof.
  unfold possible_calls, coverage_calls, suite_call, logged_call,
    logged_call_in, executeCmd, AddValgrind, rm_call, rm_call_in, cmake_call,
    make_call.
  destruct (arg_valgrind a); cbn;
    repeat (constructor;
            [cbn; intros H;
             repeat (destruct H as [H | H]; [discriminate H |]);
             exact H |]);
    constructor.
Qed.

Lemma subseq_NoDup {X} (l l' : list X) :
  subseq l l' -> NoDup l' -> NoDup l.
Proof.
  induction 1 as [| x l l' Hs IH | x l l' Hs IH]; intros Hn.
  - constructor.
  - inversion Hn; subst. now apply IH.
  - inversion Hn as [| ? ? Hx Hn']; subst. constructor; [| now apply IH].
    intros Hin. apply Hx. eapply subseq_in; eassumption.
Qed.

(** X16. The processes of a run are started in one fixed order, none
    more than once: [rm], [cmake], [make], the test binary, then the five
    coverage commands; a run starts some of them and leaves the others
    out. *)
Theorem processes_in_fixed_order (a : Args) :
  subseq (run_calls (snd (run_main env a))) (possible_calls env a) /\
  NoDup (run_calls (snd (run_main env a))).
Proof.
  cut (subseq (run_calls (snd (run_main env a))) (possible_calls env a)).
  { intros Hs. split; [exact Hs |].
    eapply subseq_NoDup; [exact Hs | apply possible_calls_NoDup]. }
  unfold run_main. rewrite main_after_setup.
  change (possible_calls env a)
    with ([rm_call env a]
          ++ ([cmake_call env a;
               make_call env suitesToRun (arg_output a) (log_file a)]
              ++ map (suite_call env (arg_listTests a)
                        (arg_googletestFilter a) (arg_output a) (log_file a)
                        (get_xml_file a) (arg_valgrind a)) suitesToRun
                 ++ coverage_calls env (arg_output a) (log_file a))).
  revert a. intros a.
  apply (starts_within_bind_returned _ _ (fun f => f = log_file a)).
  - unfold setup. intros h f.
    rewrite bind_run. cbn [emit fst snd]. unfold after. cbn [fst].
    rewrite bind_run.
    destruct (fst (clean_if_required env a _)); cbn [fst]; try discriminate.
    apply get_output_file_returns.
  - apply starts_within_setup.
  - intros f ->. apply starts_within_bind.
    + unfold build_if_required. destruct (negb (arg_noBuild a));
        [apply starts_within_buildTargets
        | apply starts_within_nothing, starts_within_ret].
    + intros _. unfold test_if_required. destruct (negb (arg_noTest a));
        [apply starts_within_runTests
        | apply starts_within_nothing, starts_within_ret].
Qed.

End ProcessOrder.

(** ** Cleaning comes before the results file *)

Section CleanBeforeOpen.

Variable env : environment.

Lemma clean_if_required_opens_nothing (a : Args) :
  emits_only (fun e => forall p r, e <> EvOpen p r) (clean_if_required env a).
Proof.
  unfold clean_if_required. destruct (arg_clean a); [| apply emits_only_ret].
  apply emits_only_bind.
  - apply checkAndRemoveFiles_alphabet; intros; discriminate.
  - intros _. apply emits_only_getcwd; [intros; discriminate | cbv beta].
    apply emits_only_bind; [| intros; apply emits_only_ret].
    apply emits_only_runcmd. intros; discriminate.
Qed.

Lemma after_clean_no_rm (a : Args) :
  emits_only (calls_only (fun c => program c <> "rm"))
    (f <- get_output_file env a ;;
     build_if_required env a f ;;;
     test_if_required env a f (get_xml_file a)).
Proof.
  apply emits_only_bind.
  - unfold get_output_file. repeat emits_only_step;
      apply calls_only_other; intros ? ?; discriminate.
  - intros f. apply emits_only_bind.
    + unfold build_if_required. destruct (negb (arg_noBuild a));
        [| apply emits_only_ret].
      eapply emits_only_weaken; [| apply buildTargets_calls].
      intros e He c r ->.
      destruct (program_build_call env a c (He c r eq_refl)) as [-> | ->];
        discriminate.
    + intros _. eapply emits_only_weaken; [| apply test_if_required_calls].
      intros e He c r ->. destruct (He c r eq_refl) as [Hc | Hc].
      * destruct (program_test_call env a c Hc) as [-> | ->]; discriminate.
      * destruct (program_coverage_call c Hc) as [-> | ->]; discriminate.
Qed.

(** X17. The trace of a run splits in two: no file is opened in the first
    part and [rm] is not started in the second.  So the results file of a
    run is opened only after the [rm] of the clean stage has ended. *)
Theorem clean_before_results_file (a : Args) :
  exists l1 l2,
    snd (run_main env a) = l1 ++ l2 /\
    (forall p r, ~ In (EvOpen p r) l1) /\
    (forall c r, In (EvRun c r) l2 -> program c <> "rm").
Proof.
  unfold run_main, main. rewrite bind_emit. unfold after. cbn [snd].
  rewrite bind_run.
  pose proof (clean_if_required_opens_nothing a
                ([] ++ [EvSetenv "RIALTO_SINKS_RANK" "256"])) as Hc.
  rewrite Forall_forall in Hc.
  exists ([EvSetenv "RIALTO_SINKS_RANK" "256"]
          ++ snd (clean_if_required env a
                    ([] ++ [EvSetenv "RIALTO_SINKS_RANK" "256"]))).
  assert (Hl1 : forall p r,
            ~ In (EvOpen p r)
                 ([EvSetenv "RIALTO_SINKS_RANK" "256"]
                  ++ snd (clean_if_required env a
                            ([] ++ [EvSetenv "RIALTO_SINKS_RANK" "256"])))).
  { intros p r [F | Hin]; [discriminate |]. now apply (Hc _ Hin p r). }
  destruct (fst (clean_if_required env a _)) as [u | msg | x];
    cbn [snd after].
  - eexists. split; [apply app_assoc |]. split; [exact Hl1 |].
    intros c r Hin.
    match type of Hin with
    | In _ (snd (?m ?h)) => pose proof (after_clean_no_rm a h) as Hr
    end.
    rewrite Forall_forall in Hr. now apply (Hr _ Hin c r).
  - exists []. rewrite app_nil_r. repeat split; [exact Hl1 | intros c r []].
  - exists []. rewrite app_nil_r. repeat split; [exact Hl1 | intros c r []].
Qed.

End CleanBeforeOpen.

(** ** The further properties on concrete runs *)

(** X3 on a run with [--listTests --googletestFilter Foo*]. *)
Lemma gtest_mode_of_a_run_witness :
  In "--gtest_list_tests"
     (pc_args (suite_call (machine (fun _ => 0)) true (Some "Foo*") "build"
                          None None false gst_entry)).
Proof.
  refine (proj2 (proj1
    (gtest_mode_of_a_run (machine (fun _ => 0)) list_filter_args
       (suite_call (machine (fun _ => 0)) true (Some "Foo*") "build"
                   None None false gst_entry)
       (Completed 0) _ _)) eq_refl).
  - cbn. tauto.
  - reflexivity.
Defined.

(** X4 on a run with [--xml] alone: the flag names [gtest_result.xml]. *)
Lemma gtest_xml_output_of_a_run_witness :
  In "--gtest_output=xml:gst_gtest_result.xml"
     (pc_args (suite_call (machine (fun _ => 0)) false None "build" None
                          (Some "gtest_result.xml") false gst_entry))
  /\ is_gtest_output_flag "--gtest_output=xml:gst_gtest_result.xml" = true.
Proof.
  refine (proj2
    (gtest_xml_output_of_a_run (machine (fun _ => 0)) xml_args
       (suite_call (machine (fun _ => 0)) false None "build" None
                   (Some "gtest_result.xml") false gst_entry)
       (Completed 0) "--gtest_output=xml:gst_gtest_result.xml" _ _) _).
  - cbn. tauto.
  - reflexivity.
  - split; [reflexivity |]. exists EmptyString. split; reflexivity.
Defined.

(** X5 on a run with [--file] alone: [make] writes to
    [gtest_result.log]. *)
Lemma output_redirection_witness :
  pc_stdout (make_call (machine (fun _ => 0)) suitesToRun "build"
                       (Some "gtest_result.log"))
  = log_file file_args
  /\ pc_stderr_to_stdout (make_call (machine (fun _ => 0)) suitesToRun "build"
                                    (Some "gtest_result.log"))
     = is_some (log_file file_args).
Proof.
  refine (proj1 (proj2
    (output_redirection (machine (fun _ => 0)) file_args
       (make_call (machine (fun _ => 0)) suitesToRun "build"
                  (Some "gtest_result.log"))
       (Completed 0) _)) eq_refl).
  cbn. tauto.
Defined.

(** X6 on a run with no option: [cmake] is started where the script
    was. *)
Lemma working_directory_witness :
  pc_cwd (cmake_call (machine (fun _ => 0)) default_args)
  = if (program (cmake_call (machine (fun _ => 0)) default_args) =? "rm")%string
       || (program (cmake_call (machine (fun _ => 0)) default_args)
           =? "cmake")%string
    then initial_cwd (machine (fun _ => 0))
    else initial_cwd (machine (fun _ => 0)) +++ "/" +++ arg_output default_args.
Proof.
  refine (working_directory (machine (fun _ => 0)) default_args
            (cmake_call (machine (fun _ => 0)) default_args) (Completed 0) _).
  cbn. tauto.
Defined.

(** X9 on a run with [--coverage] where every tool ends with 0. *)
Lemma only_statistics_file_closed_witness :
  stats_file (machine (fun _ => 0)) "build"
  = stats_file (machine (fun _ => 0)) (arg_output coverage_args)
  /\ arg_noTest coverage_args = false /\ arg_coverage coverage_args = true.
Proof.
  refine (only_statistics_file_closed (machine (fun _ => 0)) coverage_args
            (stats_file (machine (fun _ => 0)) "build") _).
  cbn. tauto.
Defined.

(** X15 on the same run: the test binary ended with 0 before [lcov]. *)
Lemma coverage_only_after_passing_tests_witness :
  exists c',
    In (EvRun c' (Completed 0))
       (snd (run_main (machine (fun _ => 0)) coverage_args)) /\
    is_test_invocation c' = true.
Proof.
  refine (proj1 (proj2 (proj2
    (coverage_only_after_passing_tests (machine (fun _ => 0)) coverage_args
       (logged_call (machine (fun _ => 0)) lcovBaseCmd "build" None)
       (Completed 0) _ _)))).
  - cbn. tauto.
  - reflexivity.
Defined.
